(** * gist-client: the session manager, the route guard and the gist service

    A shallow embedding of the TypeScript sources
      - src/lib/auth/auth-provider.tsx      (AuthProvider: login, logout, mount effect)
      - src/components/auth/protected-route.tsx   (ProtectedRoute)
      - src/lib/api/gist-service.ts         (GistService)
      - src/components/pages/gist-create-page.tsx, gist-edit-page.tsx (onSubmit)
    together with the properties the specification states about them.

    Conventions.  Code that mutates component state, the browser's local
    storage or the network is written in a state-and-exception monad [M]:
    a computation maps a state to a completion (normal or thrown) and a new
    state, and a thrown error keeps the mutations made before it, as in
    JavaScript.  An [await] of a remote call receives the outcome of that
    call from the remote service, which is a parameter of the code and over
    which every theorem quantifies.  An object literal used as a
    filename-indexed record is a [JsObject.Obj]: its own properties, a
    [gmap string _], and its prototype; a record received from the remote
    service, or sent to it, is the [gmap] of its own properties, which is
    what the JSON text of a request or a response carries. *)

From Stdlib Require Import ZArith String List Lia Bool.
From stdpp Require Import base option gmap strings list fin_maps.

Local Open Scope Z_scope.

(* ===================================================================== *)
(** ** JavaScript control flow *)
(* ===================================================================== *)

Module Js.

(** What a remote call can be rejected with: an HTTP error response of the
    REST API (octokit's RequestError, with its status) or a failure of the
    transport itself. *)
Inductive Error : Type :=
| RequestError (status : Z)
| NetworkError (message : string).

(** The completion of a statement, or the settlement of a promise. *)
Inductive Completion (A : Type) : Type :=
| Normal (a : A)
| Throw (e : Error).
Arguments Normal {A} a.
Arguments Throw {A} e.

Definition M (S A : Type) : Type := S -> Completion A * S.

Definition ret {S A} (a : A) : M S A := fun s => (Normal a, s).

Definition bind {S A B} (m : M S A) (k : A -> M S B) : M S B :=
  fun s => match m s with
           | (Normal a, s') => k a s'
           | (Throw e, s') => (Throw e, s')
           end.

Definition throw {S A} (e : Error) : M S A := fun s => (Throw e, s).

(** [await p]: the continuation resumes with the value of a fulfilled
    promise, and a rejected promise throws at the [await]. *)
Definition await {S A} (p : Completion A) : M S A := fun s => (p, s).

Definition modify {S} (f : S -> S) : M S unit := fun s => (Normal tt, f s).
Definition gets {S A} (f : S -> A) : M S A := fun s => (Normal (f s), s).

(** try { body } catch (e) { handler e } *)
Definition try_catch {S A} (body : M S A) (handler : Error -> M S A) : M S A :=
  fun s => match body s with
           | (Normal a, s') => (Normal a, s')
           | (Throw e, s') => handler e s'
           end.

(** try { body } finally { fin }: [fin] runs on both completions of the
    body, whose completion is kept unless [fin] itself throws. *)
Definition try_finally {S A} (body : M S A) (fin : M S unit) : M S A :=
  fun s => match body s with
           | (c, s') => match fin s' with
                        | (Normal _, s'') => (c, s'')
                        | (Throw e, s'') => (Throw e, s'')
                        end
           end.

Definition exec {S A} (m : M S A) (s : S) : S := snd (m s).
Definition result {S A} (m : M S A) (s : S) : Completion A := fst (m s).

(** Truthiness of a [string | null | undefined] value: only a non-empty
    string is truthy. *)
Definition truthy (v : option string) : bool :=
  match v with
  | Some s => negb (String.eqb s "")
  | None => false
  end.

(** [v || d] on strings. *)
Definition or_else (v : option string) (d : string) : string :=
  match v with
  | Some s => if String.eqb s "" then d else s
  | None => d
  end.

(** A value of type [T | null]. *)
Inductive nullable (A : Type) : Type :=
| null
| obj (a : A).
Arguments null {A}.
Arguments obj {A} a.

End Js.

Import Js.

(** Sequencing is written with stdpp's monad notations:
    [x ← m; k] and [m ;; k]. *)
#[global] Instance M_ret {S} : MRet (M S) := @ret S.
#[global] Instance M_bind {S} : MBind (M S) := fun A B k m => bind m k.

(* ===================================================================== *)
(** ** JavaScript objects used as records *)
(* ===================================================================== *)

Module JsObject.

(** An object literal [{}] has [Object.prototype] as its prototype.  That
    shows in two places.  A read [o[k]] of a name [o] has no property of its
    own for finds the member of [Object.prototype] of that name, if there is
    one.  And one of these members, [__proto__], is an accessor: an
    assignment [o["__proto__"] = v] calls its setter, which replaces the
    prototype of [o] when [v] is an object or [null], does nothing when [v]
    is a primitive, and in neither case gives [o] a property. *)

(** The members of [Object.prototype] in a browser: each is a function,
    except [__proto__], whose getter returns the prototype (an object): all
    of them are truthy when read. *)
Definition Object_prototype_keys : list string :=
  [ "constructor"; "hasOwnProperty"; "isPrototypeOf"; "propertyIsEnumerable";
    "toLocaleString"; "toString"; "valueOf"; "__proto__";
    "__defineGetter__"; "__defineSetter__";
    "__lookupGetter__"; "__lookupSetter__" ].

Definition inherited (k : string) : bool :=
  bool_decide (k ∈ Object_prototype_keys).

(** The prototype of a record: the one of a literal, none (after
    [__proto__] was assigned [null]), or an object that was assigned to
    [__proto__]; that object is a literal itself, so the members of
    [Object.prototype] are still found through it. *)
Inductive Prototype (P : Type) : Type :=
| Object_prototype
| no_prototype
| plain (p : P).
Arguments Object_prototype {P}.
Arguments no_prototype {P}.
Arguments plain {P} p.

(** A record with values in [V], and objects of [P] as possible
    prototypes. *)
Record Obj (V P : Type) : Type := {
  own : gmap string V;
  prototype : Prototype P
}.
Arguments own {V P} o.
Arguments prototype {V P} o.

(** What the setter of [__proto__] makes of a value: the new prototype for
    an object or [null], and nothing for a primitive. *)
Class AsPrototype (V P : Type) : Type := as_prototype : V -> option (Prototype P).

(** A boolean is a primitive. *)
#[global] Instance bool_as_prototype : AsPrototype bool Empty_set :=
  fun _ => None.

(** [T | null], for objects [T]. *)
#[global] Instance nullable_as_prototype {A P} `{AsPrototype A P}
    : AsPrototype (nullable A) P :=
  fun v => match v with
           | null => Some no_prototype
           | obj a => as_prototype a
           end.

Section Operations.

Context {V P : Type} `{AsPrototype V P}.

(** [{}] *)
Definition empty : Obj V P := {| own := ∅; prototype := Object_prototype |}.

(** The definition of an own property, as an object literal with a computed
    key makes it: [{ [k]: v }]. *)
Definition define (k : string) (v : V) (o : Obj V P) : Obj V P :=
  {| own := <[k := v]> (own o); prototype := prototype o |}.

Definition setPrototype (v : V) (o : Obj V P) : Obj V P :=
  match as_prototype v with
  | Some proto => {| own := own o; prototype := proto |}
  | None => o
  end.

(** The assignment [o[k] = v].  A property [o] has itself is overwritten.
    Otherwise the name is looked up along the prototypes: every member found
    there is a writable data property, over which the assignment gives [o] a
    property of its own, except the accessor [__proto__] of
    [Object.prototype], whose setter is called; an object without a
    prototype does not reach it. *)
Definition set (k : string) (v : V) (o : Obj V P) : Obj V P :=
  match own o !! k with
  | Some _ => define k v o
  | None =>
      if String.eqb k "__proto__" then
        match prototype o with
        | no_prototype => define k v o
        | Object_prototype | plain _ => setPrototype v o
        end
      else define k v o
  end.

(** [{ ...o }]: a new literal with the own properties of [o]. *)
Definition spread (o : Obj V P) : Obj V P :=
  {| own := own o; prototype := Object_prototype |}.

End Operations.

(** [o[k]] read as a condition, on a record of booleans. *)
Definition truthy_at (o : Obj bool Empty_set) (k : string) : bool :=
  match own o !! k with
  | Some b => b
  | None =>
      match prototype o with
      | Object_prototype => inherited k
      | no_prototype => false
      | plain p => match p return bool with end
      end
  end.

End JsObject.

(* ===================================================================== *)
(** ** The remote service, as far as the client observes it *)
(* ===================================================================== *)

Module Octo.

(** The authenticated user, as [users.getAuthenticated] returns it. *)
Record User : Type := {
  login : string;
  avatar_url : string;
  html_url : string;
  name : option string;
  email : option string
}.

(** [new Octokit({ auth })]: the handle holds the bearer token. *)
Record Octokit : Type := { auth : string }.

End Octo.

(* ===================================================================== *)
(** ** src/lib/auth/auth-provider.tsx *)
(* ===================================================================== *)

Module AuthProvider.

Import Octo.

(** The five [useState] cells of [AuthProvider]. *)
Record AuthState : Type := {
  isAuthenticated : bool;
  isLoading : bool;
  user : option User;
  token : option string;
  octokit : option Octokit
}.

Inductive Toast : Type :=
| toast_success (message : string)
| toast_error (message : string).

(** What the provider reads and writes: its own state, the browser's
    [localStorage], the toasts shown and the console. *)
Record World : Type := {
  state : AuthState;
  localStorage : gmap string string;
  toasts : list Toast;
  console : list (string * Error)
}.

(** useState(false), useState(true), useState(null) x 3 *)
Definition initialState : AuthState :=
  {| isAuthenticated := false; isLoading := true;
     user := None; token := None; octokit := None |}.

Definition initialWorld (storage : gmap string string) : World :=
  {| state := initialState; localStorage := storage;
     toasts := []; console := [] |}.

Definition with_state (f : AuthState -> AuthState) (w : World) : World :=
  {| state := f (state w); localStorage := localStorage w;
     toasts := toasts w; console := console w |}.

Definition setIsAuthenticated (b : bool) : M World unit :=
  modify (with_state (fun s =>
    {| isAuthenticated := b; isLoading := isLoading s;
       user := user s; token := token s; octokit := octokit s |})).

Definition setIsLoading (b : bool) : M World unit :=
  modify (with_state (fun s =>
    {| isAuthenticated := isAuthenticated s; isLoading := b;
       user := user s; token := token s; octokit := octokit s |})).

Definition setUser (u : option User) : M World unit :=
  modify (with_state (fun s =>
    {| isAuthenticated := isAuthenticated s; isLoading := isLoading s;
       user := u; token := token s; octokit := octokit s |})).

Definition setToken (t : option string) : M World unit :=
  modify (with_state (fun s =>
    {| isAuthenticated := isAuthenticated s; isLoading := isLoading s;
       user := user s; token := t; octokit := octokit s |})).

Definition setOctokit (o : option Octokit) : M World unit :=
  modify (with_state (fun s =>
    {| isAuthenticated := isAuthenticated s; isLoading := isLoading s;
       user := user s; token := token s; octokit := o |})).

Definition with_storage (f : gmap string string -> gmap string string)
    (w : World) : World :=
  {| state := state w; localStorage := f (localStorage w);
     toasts := toasts w; console := console w |}.

Definition localStorage_getItem (key : string) : M World (option string) :=
  gets (fun w => localStorage w !! key).

Definition localStorage_setItem (key value : string) : M World unit :=
  modify (with_storage (insert key value)).

Definition localStorage_removeItem (key : string) : M World unit :=
  modify (with_storage (delete key)).

Definition toast (t : Toast) : M World unit :=
  modify (fun w =>
    {| state := state w; localStorage := localStorage w;
       toasts := toasts w ++ [t]; console := console w |}).

Definition console_error (label : string) (e : Error) : M World unit :=
  modify (fun w =>
    {| state := state w; localStorage := localStorage w;
       toasts := toasts w; console := console w ++ [(label, e)] |}).

Definition github_token : string := "github_token".

Section WithRemote.

(** The identity probe: what [octokit.users.getAuthenticated()] settles
    to for a given handle. *)
Variable getAuthenticated : Octokit -> Completion User.

(** const login = async (newToken: string) => { try ... catch ... finally } *)
Definition login (newToken : string) : M World unit :=
  try_finally
    (try_catch
       (setIsLoading true ;;
        let newOctokit := {| auth := newToken |} in
        userData ← await (getAuthenticated newOctokit);
        localStorage_setItem github_token newToken ;;
        setToken (Some newToken) ;;
        setUser (Some userData) ;;
        setOctokit (Some newOctokit) ;;
        setIsAuthenticated true ;;
        toast (toast_success ("Welcome, " +:+ Octo.login userData +:+ "!")))
       (fun error =>
          toast (toast_error
            "Authentication failed. Please check your token and try again.") ;;
          throw error))
    (setIsLoading false).

(** const logout = () => { ... } *)
Definition logout : M World unit :=
  localStorage_removeItem github_token ;;
  setToken None ;;
  setUser None ;;
  setOctokit None ;;
  setIsAuthenticated false ;;
  toast (toast_success "Logged out successfully").

(** The [.catch] handler the mount effect attaches to its call of [login]. *)
Definition autoLoginFailed (error : Error) : M World unit :=
  console_error "Auto-login failed:" error ;;
  localStorage_removeItem github_token ;;
  setIsLoading false.

(** The effect run once on mount: [if (storedToken)] tests truthiness, so
    the branch of [login] is taken with a non-empty string only (the
    [default] below is never used). *)
Definition mountEffect : M World unit :=
  storedToken ← localStorage_getItem github_token;
  if truthy storedToken then
    try_catch (login (default "" storedToken)) autoLoginFailed
  else
    setIsLoading false.

End WithRemote.

(** *** The provider between two synchronous runs

    [login] is asynchronous: it runs up to its [await], returns a pending
    promise, and is resumed when the probe settles.  The application is
    rendered with [createRoot], under which React applies the state updates
    of one synchronous run together, so the states a dependent can observe
    are those between runs.  A configuration is a world and the calls of
    [login] still awaiting their probe. *)

Record Pending : Type := {
  newToken : string;
  fromMount : bool      (* the call of the mount effect, with its [.catch] *)
}.

(** The run of [login] up to the [await]. *)
Definition login_begin : M World unit := setIsLoading true.

(** The run of [login] from the [await] on, for a probe settled as [probe]. *)
Definition login_resume (newToken : string) (probe : Completion User)
    : M World unit :=
  try_finally
    (try_catch
       (let newOctokit := {| auth := newToken |} in
        userData ← await probe;
        localStorage_setItem github_token newToken ;;
        setToken (Some newToken) ;;
        setUser (Some userData) ;;
        setOctokit (Some newOctokit) ;;
        setIsAuthenticated true ;;
        toast (toast_success ("Welcome, " +:+ Octo.login userData +:+ "!")))
       (fun error =>
          toast (toast_error
            "Authentication failed. Please check your token and try again.") ;;
          throw error))
    (setIsLoading false).

Definition settle (p : Pending) (probe : Completion User) : M World unit :=
  if fromMount p
  then try_catch (login_resume (newToken p) probe) autoLoginFailed
  else login_resume (newToken p) probe.

Definition Config : Type := World * list Pending.

(** One synchronous run.  The probe of a pending call may settle either way
    at any time, and calls may settle in any order. *)
Inductive step : Config -> Config -> Prop :=
| step_mount_login w ps t :
    localStorage w !! github_token = Some t ->
    truthy (Some t) = true ->
    step (w, ps)
         (exec login_begin w, ps ++ [{| newToken := t; fromMount := true |}])
| step_mount_idle w ps :
    truthy (localStorage w !! github_token) = false ->
    step (w, ps) (exec (setIsLoading false) w, ps)
| step_login w ps t :
    step (w, ps)
         (exec login_begin w, ps ++ [{| newToken := t; fromMount := false |}])
| step_settle w ps1 p ps2 probe :
    step (w, ps1 ++ p :: ps2) (exec (settle p probe) w, ps1 ++ ps2)
| step_logout w ps :
    step (w, ps) (exec logout w, ps).

Inductive reachable : Config -> Prop :=
| reachable_init storage : reachable (initialWorld storage, [])
| reachable_step c c' : reachable c -> step c c' -> reachable c'.

(** The session invariant of the specification. *)
Definition invariant (s : AuthState) : Prop :=
  isAuthenticated s = true -> is_Some (user s) /\ is_Some (octokit s).

(** A session with nothing of a login left in it. *)
Definition loggedOut (w : World) : Prop :=
  localStorage w !! github_token = None /\
  token (state w) = None /\ user (state w) = None /\
  octokit (state w) = None /\ isAuthenticated (state w) = false.

End AuthProvider.

(* ===================================================================== *)
(** ** src/components/auth/protected-route.tsx *)
(* ===================================================================== *)

Module Guard.

Import AuthProvider.

(** What [useLocation] returns. *)
Record Location : Type := {
  pathname : string;
  search : string;
  hash : string
}.

(** The elements [ProtectedRoute] can return. *)
Inductive Element : Type :=
| LoadingSpinner (size : string)
| Navigate (to : string) (from : Location) (replace : bool)
| Outlet.

(** [useAuth()] hands the provider's state to the component. *)
Definition ProtectedRoute (auth : AuthState) (location : Location) : Element :=
  if isLoading auth then
    LoadingSpinner "lg"
  else if negb (isAuthenticated auth) then
    Navigate "/login" location true
  else
    Outlet.

Definition is_redirect (e : Element) : bool :=
  match e with Navigate _ _ _ => true | _ => false end.

End Guard.

(* ===================================================================== *)
(** ** Numbers: the doubles that [Math.random() * 100] works on *)
(* ===================================================================== *)

Module Number.

(** A finite non-negative binary64 number, by an integer significand and
    an exponent: its value is [mant * 2 ^ expo].  (The representation is
    not unique; nothing below depends on a canonical one.) *)
Record double : Type := { mant : Z; expo : Z }.

Definition is_double (d : double) : bool :=
  (0 <=? mant d) && (mant d <? 2 ^ 53) &&
  (-1074 <=? expo d) && (expo d <=? 971).

(** [d < 1], decided on the representation. *)
Definition below_one (d : double) : bool :=
  (mant d =? 0) || ((expo d <? 0) && (mant d <? 2 ^ (- expo d))).

(** What [Math.random()] may return: a double in [0, 1). *)
Definition is_random (d : double) : bool := is_double d && below_one d.

(** Rounding of the exact value [n * 2 ^ e] to 53 significant bits, to
    nearest and ties to even: the [s] low bits beyond the 53 leading ones
    are dropped, and the significand is incremented when they are above
    half, or are exactly half with an odd significand. *)
Definition round53 (n e : Z) : double :=
  let s := Z.max 0 (Z.log2 n - 52) in
  let q := Z.shiftr n s in
  let r := n - Z.shiftl q s in
  let half := Z.shiftl 1 (s - 1) in
  let up := (0 <? s) && ((half <? r) || ((r =? half) && Z.odd q)) in
  {| mant := if up then q + 1 else q; expo := e + s |}.

(** [d * 100]: the exact product, rounded.  For [d] below one the product
    is below 128, so neither overflow nor underflow occurs. *)
Definition mul100 (d : double) : double := round53 (mant d * 100) (expo d).

(** [Math.floor], on a double whose floor is an integer of moderate size. *)
Definition floor (d : double) : Z := Z.shiftl (mant d) (expo d).

End Number.

(* ===================================================================== *)
(** ** src/lib/api/gist-service.ts *)
(* ===================================================================== *)

Module GistService.

Import Octo Number.

Record GistFile : Type := {
  filename : string;
  content : string;
  language : option string;
  type : option string;
  raw_url : option string;
  size : option Z
}.

Record Owner : Type := {
  login : string;
  avatar_url : string
}.

Record Gist : Type := {
  id : string;
  description : string;
  public : bool;
  created_at : string;
  updated_at : string;
  comments : Z;
  html_url : string;
  files : gmap string GistFile;
  owner : Owner;
  stargazers_count : option Z;
  truncated : option bool
}.

Record GistStar : Type := {
  star_user : User;
  starred_at : string
}.

(** [{ content: string }], the value of a file in a request. *)
Record FileContent : Type := { file_content : string }.

(** The requests the service sends. *)
Inductive Call : Type :=
| gists_list
| gists_listStarred
| gists_get (gist_id : string)
| gists_create (description : string) (files : gmap string FileContent)
               (public : bool)
| gists_update (gist_id : string) (description : string)
               (files : gmap string (nullable FileContent))
| gists_delete (gist_id : string)
| gists_checkIsStarred (gist_id : string)
| gists_star (gist_id : string)
| gists_unstar (gist_id : string).

(** How the remote service settles the requests of a handle. *)
Record Remote : Type := {
  on_list : Octokit -> Completion (list Gist);
  on_listStarred : Octokit -> Completion (list Gist);
  on_get : Octokit -> string -> Completion Gist;
  on_create : Octokit -> string -> gmap string FileContent -> bool ->
              Completion Gist;
  on_update : Octokit -> string -> string ->
              gmap string (nullable FileContent) -> Completion Gist;
  on_delete : Octokit -> string -> Completion unit;
  on_checkIsStarred : Octokit -> string -> Completion unit;
  on_star : Octokit -> string -> Completion unit;
  on_unstar : Octokit -> string -> Completion unit
}.

(** The environment of the service: the requests sent so far, the number
    of draws made from [Math.random], and the console. *)
Record Env : Type := {
  calls : list Call;
  draws : nat;
  console : list (string * Error)
}.

(** Sending a request records it and awaits its settlement. *)
Definition request {A} (c : Call) (settled : Completion A) : M Env A :=
  modify (fun env =>
    {| calls := calls env ++ [c]; draws := draws env;
       console := console env |}) ;;
  await settled.

Definition console_error (label : string) (e : Error) : M Env unit :=
  modify (fun env =>
    {| calls := calls env; draws := draws env;
       console := console env ++ [(label, e)] |}).

(** [{ ...gist, stargazers_count }] *)
Definition with_stargazers_count (gist : Gist) (n : Z) : Gist :=
  {| id := id gist; description := description gist; public := public gist;
     created_at := created_at gist; updated_at := updated_at gist;
     comments := comments gist; html_url := html_url gist;
     files := files gist; owner := owner gist;
     stargazers_count := Some n; truncated := truncated gist |}.

(** [Promise.all(xs.map(async (x) => f x))] for callbacks that do not
    await: [map] runs every callback to its end, in the order of the list,
    whether or not an earlier one has thrown; the whole is rejected with the
    first rejection, and fulfilled with the list of results otherwise. *)
Fixpoint Promise_all_map {S A B} (f : A -> M S B) (xs : list A) : M S (list B) :=
  match xs with
  | [] => mret []
  | x :: xs' =>
      fun s =>
        let (c, s') := f x s in
        let (cs, s'') := Promise_all_map f xs' s' in
        (match c, cs with
         | Normal y, Normal ys => Normal (y :: ys)
         | Throw e, _ => Throw e
         | Normal _, Throw e => Throw e
         end, s'')
  end.

Section WithRemote.

Variable remote : Remote.

(** The numbers successive calls of [Math.random()] return. *)
Variable random : nat -> double.

Definition Math_random : M Env double :=
  fun env =>
    (Normal (random (draws env)),
     {| calls := calls env; draws := S (draws env);
        console := console env |}).

(** private async addStargazersCount(gists: Gist[]) *)
Definition addStargazersCount (gists : list Gist) : M Env (list Gist) :=
  Promise_all_map
    (fun gist =>
       try_catch
         (x ← Math_random;
          let stargazers_count := floor (mul100 x) in
          mret (with_stargazers_count gist stargazers_count))
         (fun error =>
            console_error "Error adding star count to gist:" error ;;
            mret (with_stargazers_count gist 0)))
    gists.

(** The methods take the handle the constructor stored in [this.octokit]. *)
Definition getGists (octokit : Octokit) : M Env (list Gist) :=
  data ← request gists_list (on_list remote octokit);
  addStargazersCount data.

Definition getStarredGists (octokit : Octokit) : M Env (list Gist) :=
  data ← request gists_listStarred (on_listStarred remote octokit);
  addStargazersCount data.

Definition getGistById (octokit : Octokit) (id : string) : M Env Gist :=
  request (gists_get id) (on_get remote octokit id).

Definition createGist (octokit : Octokit) (description : string)
    (files : gmap string FileContent) (isPublic : bool) : M Env Gist :=
  request (gists_create description files isPublic)
          (on_create remote octokit description files isPublic).

Definition updateGist (octokit : Octokit) (id description : string)
    (files : gmap string (nullable FileContent)) : M Env Gist :=
  request (gists_update id description files)
          (on_update remote octokit id description files).

Definition deleteGist (octokit : Octokit) (id : string) : M Env unit :=
  request (gists_delete id) (on_delete remote octokit id).

Definition isGistStarred (octokit : Octokit) (id : string) : M Env bool :=
  try_catch
    (request (gists_checkIsStarred id) (on_checkIsStarred remote octokit id) ;;
     mret true)
    (fun error => mret false).

Definition starGist (octokit : Octokit) (id : string) : M Env unit :=
  request (gists_star id) (on_star remote octokit id).

Definition unstarGist (octokit : Octokit) (id : string) : M Env unit :=
  request (gists_unstar id) (on_unstar remote octokit id).

End WithRemote.

(** The fields of a gist other than [stargazers_count]. *)
Definition same_except_count (g g' : Gist) : Prop :=
  id g' = id g /\ description g' = description g /\ public g' = public g /\
  created_at g' = created_at g /\ updated_at g' = updated_at g /\
  comments g' = comments g /\ html_url g' = html_url g /\
  files g' = files g /\ owner g' = owner g /\ truncated g' = truncated g.

(** The annotated list: the gist at index [i] takes the draw numbered
    [first + i]. *)
Definition annotate (random : nat -> double) (first : nat) (gists : list Gist) : list Gist :=
  imap (fun i gist =>
          with_stargazers_count gist
            (floor (mul100 (random (first + i)%nat))))
       gists.

End GistService.

(** [{ content: string }] is an object. *)
#[global] Instance FileContent_as_prototype
    : JsObject.AsPrototype GistService.FileContent GistService.FileContent :=
  fun c => Some (JsObject.plain c).

(* ===================================================================== *)
(** ** The form pages: gist-create-page.tsx and gist-edit-page.tsx *)
(* ===================================================================== *)

(** What [onSubmit] of either form page reads and writes: the two state cells
    [isSubmitting] and [error], the toasts ([useToast]), the router
    ([useNavigate]), the console, and the environment of the service. *)
Module Page.

Import GistService.

Record State : Type := {
  isSubmitting : bool;
  error : option string;
  toasts : list string;
  navigated : list string;
  console : list (string * Error);
  env : Env
}.

Definition initial (e : Env) : State :=
  {| isSubmitting := false; error := None; toasts := []; navigated := [];
     console := []; env := e |}.

Definition setIsSubmitting (b : bool) : M State unit :=
  modify (fun p =>
    {| isSubmitting := b; error := error p; toasts := toasts p;
       navigated := navigated p; console := console p; env := env p |}).

Definition setError (e : option string) : M State unit :=
  modify (fun p =>
    {| isSubmitting := isSubmitting p; error := e; toasts := toasts p;
       navigated := navigated p; console := console p; env := env p |}).

Definition toast (title : string) : M State unit :=
  modify (fun p =>
    {| isSubmitting := isSubmitting p; error := error p;
       toasts := toasts p ++ [title];
       navigated := navigated p; console := console p; env := env p |}).

Definition navigate (to : string) : M State unit :=
  modify (fun p =>
    {| isSubmitting := isSubmitting p; error := error p; toasts := toasts p;
       navigated := navigated p ++ [to]; console := console p;
       env := env p |}).

Definition console_error (label : string) (e : Error) : M State unit :=
  modify (fun p =>
    {| isSubmitting := isSubmitting p; error := error p; toasts := toasts p;
       navigated := navigated p; console := console p ++ [(label, e)];
       env := env p |}).

(** A method of the service, run from the page. *)
Definition service {A} (m : M Env A) : M State A :=
  fun p =>
    match m (env p) with
    | (c, e') =>
        (c, {| isSubmitting := isSubmitting p; error := error p;
               toasts := toasts p; navigated := navigated p;
               console := console p; env := e' |})
    end.

End Page.

Module GistCreatePage.

Import Octo GistService Page.

Record FormFile : Type := {
  filename : string;
  content : string
}.

(** z.infer<typeof gistFormSchema> *)
Record GistFormValues : Type := {
  description : option string;
  public : bool;
  files : list FormFile
}.

(** The body of the [forEach]: filesObj[file.filename] = { content: file.content } *)
Definition insertFile (filesObj : JsObject.Obj FileContent FileContent)
    (file : FormFile) : JsObject.Obj FileContent FileContent :=
  JsObject.set (filename file) {| file_content := content file |} filesObj.

(** const filesObj = {}; data.files.forEach(...), and the record the request
    carries for it: the body of a request is the JSON text of its
    parameters, which lists the own properties of [filesObj]. *)
Definition buildFiles (files : list FormFile) : gmap string FileContent :=
  JsObject.own (foldl insertFile JsObject.empty files).

Section WithRemote.

Variable remote : Remote.

Definition onSubmit (octokit : option Octokit) (data : GistFormValues)
    : M State unit :=
  match octokit with
  | None => mret tt
  | Some octokit =>
      try_finally
        (try_catch
           (setIsSubmitting true ;;
            setError None ;;
            let filesObj := buildFiles (files data) in
            newGist ← service
              (createGist remote octokit
                 (or_else (description data) "") filesObj (public data));
            toast "Gist created successfully" ;;
            navigate ("/gists/" +:+ id newGist))
           (fun err =>
              console_error "Error creating gist:" err ;;
              setError (Some "Failed to create gist. Please try again.")))
        (setIsSubmitting false)
  end.

End WithRemote.

End GistCreatePage.

Module GistEditPage.

Import Octo GistService Page.

Record FormFile : Type := {
  originalFilename : option string;
  filename : string;
  content : string;
  isDeleted : bool
}.

(** z.infer<typeof gistFormSchema> *)
Record GistFormValues : Type := {
  description : option string;
  files : list FormFile
}.

(** The body of the [forEach]: the assignments one entry of the form makes.
    Where [file.originalFilename] is used as a key it has been tested
    truthy, so it is a string (the [default] is never used). *)
Definition assignFile
    (filesObj : JsObject.Obj (nullable FileContent) FileContent)
    (file : FormFile) : JsObject.Obj (nullable FileContent) FileContent :=
  let original := default "" (originalFilename file) in
  if isDeleted file && truthy (originalFilename file) then
    JsObject.set original null filesObj
  else if truthy (originalFilename file)
          && negb (String.eqb original (filename file)) then
    JsObject.set (filename file) (obj {| file_content := content file |})
      (JsObject.set original null filesObj)
  else
    JsObject.set (filename file) (obj {| file_content := content file |})
      filesObj.

(** const filesObj = {}; data.files.forEach(...), and the record the request
    carries for it: the own properties of [filesObj]. *)
Definition buildFiles (files : list FormFile)
    : gmap string (nullable FileContent) :=
  JsObject.own (foldl assignFile JsObject.empty files).

Section WithRemote.

Variable remote : Remote.

(** [octokit] comes from [useAuth], [id] from [useParams]. *)
Definition onSubmit (octokit : option Octokit) (id : option string)
    (data : GistFormValues) : M State unit :=
  match octokit with
  | None => mret tt
  | Some octokit =>
      if negb (truthy id) then mret tt
      else
        let id := default "" id in
        try_finally
          (try_catch
             (setIsSubmitting true ;;
              setError None ;;
              let filesObj := buildFiles (files data) in
              service
                (updateGist remote octokit id
                   (or_else (description data) "") filesObj) ;;
              toast "Gist updated successfully" ;;
              navigate ("/gists/" +:+ id))
             (fun err =>
                console_error "Error updating gist:" err ;;
                setError (Some "Failed to update gist. Please try again.")))
          (setIsSubmitting false)
  end.

End WithRemote.

(** The three cases of an entry, as the [forEach] distinguishes them. *)
Definition deletedExisting (file : FormFile) : bool :=
  isDeleted file && truthy (originalFilename file).

Definition renamed (file : FormFile) : bool :=
  negb (deletedExisting file) && truthy (originalFilename file)
  && negb (String.eqb (default "" (originalFilename file)) (filename file)).

(** The keys an entry assigns. *)
Definition keysOf (file : FormFile) : list string :=
  let original := default "" (originalFilename file) in
  if deletedExisting file then [original]
  else if renamed file then [original; filename file]
  else [filename file].

(** The keys assigned by the entries after the one at index [i]. *)
Definition keysAfter (i : nat) (files : list FormFile) : list string :=
  drop (S i) files ≫= keysOf.

End GistEditPage.

(* ===================================================================== *)
(** ** Sample inputs *)
(* ===================================================================== *)

Module Samples.

Import Octo Number.

Definition alice : User :=
  {| Octo.login := "alice"; avatar_url := "https://avatars.example/alice";
     html_url := "https://github.com/alice"; name := None; email := None |}.

(** A remote that knows one token. *)
Definition onlyAlice (o : Octokit) : Completion User :=
  if String.eqb (auth o) "ghp_valid" then Normal alice
  else Throw (RequestError 401).

(** The world after alice has logged in from a fresh start. *)
Definition aliceLoggedIn : AuthProvider.World :=
  exec (AuthProvider.login onlyAlice "ghp_valid")
       (exec (AuthProvider.mountEffect onlyAlice) (AuthProvider.initialWorld ∅)).

(** The location a visitor asked for. *)
Definition requested : Guard.Location :=
  {| Guard.pathname := "/gists/create"; Guard.search := "";
     Guard.hash := "" |}.

(** A remote whose star check settles as [starred] says, and which is
    unreachable for everything else. *)
Definition remoteWith (starred : string -> Completion unit)
    : GistService.Remote :=
  let down := NetworkError "fetch failed" in
  {| GistService.on_list := fun _ => Throw down;
     GistService.on_listStarred := fun _ => Throw down;
     GistService.on_get := fun _ _ => Throw down;
     GistService.on_create := fun _ _ _ _ => Throw down;
     GistService.on_update := fun _ _ _ _ => Throw down;
     GistService.on_delete := fun _ _ => Throw down;
     GistService.on_checkIsStarred := fun _ => starred;
     GistService.on_star := fun _ _ => Throw down;
     GistService.on_unstar := fun _ _ => Throw down |}.

Definition env0 : GistService.Env :=
  {| GistService.calls := []; GistService.draws := 0;
     GistService.console := [] |}.

Definition someone : Octokit := {| auth := "ghp_valid" |}.

(** A generator that alternates between 0 and 1/2. *)
Definition alternating (i : nat) : double :=
  {| mant := if Nat.even i then 0 else 1; expo := -1 |}.

Definition gist0 : GistService.Gist :=
  {| GistService.id := "g1"; GistService.description := "demo";
     GistService.public := true;
     GistService.created_at := "2024-01-01T00:00:00Z";
     GistService.updated_at := "2024-01-02T00:00:00Z";
     GistService.comments := 0;
     GistService.html_url := "https://gist.github.com/g1";
     GistService.files :=
       {[ "a.txt" := {| GistService.filename := "a.txt";
                        GistService.content := "hello";
                        GistService.language := Some "Text";
                        GistService.type := None;
                        GistService.raw_url := None;
                        GistService.size := Some 5 |} ]};
     GistService.owner :=
       {| GistService.login := "alice";
          GistService.avatar_url := "https://avatars.example/alice" |};
     GistService.stargazers_count := None;
     GistService.truncated := Some false |}.

(** A create form with two entries named "a.txt". *)
Definition twice : GistCreatePage.GistFormValues :=
  {| GistCreatePage.description := Some "demo";
     GistCreatePage.public := true;
     GistCreatePage.files :=
       [ {| GistCreatePage.filename := "a.txt";
            GistCreatePage.content := "first" |};
         {| GistCreatePage.filename := "b.txt";
            GistCreatePage.content := "other" |};
         {| GistCreatePage.filename := "a.txt";
            GistCreatePage.content := "second" |} ] |}.

(** A create form with two entries named "__proto__". *)
Definition twice_proto : GistCreatePage.GistFormValues :=
  {| GistCreatePage.description := Some "demo";
     GistCreatePage.public := true;
     GistCreatePage.files :=
       [ {| GistCreatePage.filename := "__proto__";
            GistCreatePage.content := "first" |};
         {| GistCreatePage.filename := "__proto__";
            GistCreatePage.content := "second" |} ] |}.

(** Entries of an edit form. *)
Definition a_deleted : GistEditPage.FormFile :=
  {| GistEditPage.originalFilename := Some "a.txt";
     GistEditPage.filename := "a.txt";
     GistEditPage.content := "hello";
     GistEditPage.isDeleted := true |}.

Definition a_added : GistEditPage.FormFile :=
  {| GistEditPage.originalFilename := None;
     GistEditPage.filename := "a.txt";
     GistEditPage.content := "again";
     GistEditPage.isDeleted := false |}.

(** A file of the gist named "__proto__", marked as deleted. *)
Definition proto_deleted : GistEditPage.FormFile :=
  {| GistEditPage.originalFilename := Some "__proto__";
     GistEditPage.filename := "__proto__";
     GistEditPage.content := "hello";
     GistEditPage.isDeleted := true |}.

Definition b_renamed : GistEditPage.FormFile :=
  {| GistEditPage.originalFilename := Some "b.txt";
     GistEditPage.filename := "c.txt";
     GistEditPage.content := "moved";
     GistEditPage.isDeleted := false |}.

End Samples.

(* ===================================================================== *)
(** ** The session, seen by its users *)
(* ===================================================================== *)

Module Session.

Import Octo AuthProvider.

(** The four session cells go together: with a token in memory the session
    is authenticated, an identity is present and the handle is the one built
    from that token; without one, none of them is set. *)
Definition coherent (s : AuthState) : Prop :=
  match token s with
  | Some t =>
      isAuthenticated s = true /\ is_Some (user s) /\
      octokit s = Some {| auth := t |}
  | None =>
      isAuthenticated s = false /\ user s = None /\ octokit s = None
  end.

(** Several synchronous runs, one after the other. *)
Inductive steps : Config -> Config -> Prop :=
| steps_refl c : steps c c
| steps_step c c' c'' : steps c c' -> step c' c'' -> steps c c''.

(** A restart of the application: the state cells are initialised anew, and
    local storage is what the previous run left. *)
Definition restart (w : World) : World := initialWorld (localStorage w).

End Session.

(* ===================================================================== *)
(** ** The login page (src/components/pages/login-page.tsx) *)
(* ===================================================================== *)

Module LoginPage.

Import Octo AuthProvider.

(** The hooks a render of the page calls: all of them, or those before
    [useForm] when the render returns the redirect, which stands above the
    call of [useForm]. *)
Inductive Hooks : Type :=
| before_useForm
| through_useForm.

(** The two state cells of the page, the router, the world of the provider
    whose [login] the page calls, and the hooks the previous render of this
    instance of the page called ([None] for a page that has not rendered
    yet): React keeps them, and has a mounted component call the same hooks
    in every render. *)
Record State : Type := {
  isSubmitting : bool;
  error : option string;
  navigated : list string;
  world : World;
  rendered : option Hooks
}.

(** A page about to mount. *)
Definition initial (w : World) : State :=
  {| isSubmitting := false; error := None; navigated := []; world := w;
     rendered := None |}.

Definition setIsSubmitting (b : bool) : M State unit :=
  modify (fun p =>
    {| isSubmitting := b; error := error p; navigated := navigated p;
       world := world p; rendered := rendered p |}).

Definition setError (e : option string) : M State unit :=
  modify (fun p =>
    {| isSubmitting := isSubmitting p; error := e; navigated := navigated p;
       world := world p; rendered := rendered p |}).

Definition navigate (to : string) : M State unit :=
  modify (fun p =>
    {| isSubmitting := isSubmitting p; error := error p;
       navigated := navigated p ++ [to]; world := world p;
       rendered := rendered p |}).

(** A function of the provider, called from the page. *)
Definition useAuth {A} (m : M World A) : M State A :=
  fun p =>
    match m (world p) with
    | (c, w') =>
        (c, {| isSubmitting := isSubmitting p; error := error p;
               navigated := navigated p; world := w';
               rendered := rendered p |})
    end.

(** [location.state?.from?.pathname || '/']: the router state may be absent,
    and so may its [from]; both are the [None] of [from]. *)
Definition origin (from : option Guard.Location) : string :=
  or_else (Guard.pathname <$> from) "/".

Section WithRemote.

Variable getAuthenticated : Octokit -> Completion User.

(** const onSubmit = async (values) => { try ... catch ... finally } *)
Definition onSubmit (from : option Guard.Location) (token : string)
    : M State unit :=
  try_finally
    (try_catch
       (setIsSubmitting true ;;
        setError None ;;
        useAuth (login getAuthenticated token) ;;
        navigate (origin from))
       (fun err => setError (Some "Invalid token or authentication failed")))
    (setIsSubmitting false).

End WithRemote.

(** What a render of the page results in: the element it returns, or the
    error with which React aborts a render that called fewer hooks, or
    more, than the previous render of the same instance. *)
Inductive Element : Type :=
| Navigate (to : string) (replace : bool)
| LoadingSpinner (size : string)
| LoginForm (error : option string) (isSubmitting : bool)
| RenderedFewerHooks
| RenderedMoreHooks.

(** The component.  [if (isAuthenticated) return <Navigate ... />] comes
    before [useForm]; the wait indicator and the form come after it. *)
Definition LoginPage (p : State) (from : option Guard.Location) : Element :=
  if isAuthenticated (state (world p)) then
    match rendered p with
    | Some through_useForm => RenderedFewerHooks
    | Some before_useForm | None => Navigate (origin from) true
    end
  else
    match rendered p with
    | Some before_useForm => RenderedMoreHooks
    | Some through_useForm | None =>
        if isLoading (state (world p)) then
          LoadingSpinner "lg"
        else
          LoginForm (error p) (isSubmitting p)
    end.

(** The page once a render has returned: its hooks are the ones the next
    render is held to. *)
Definition commit (p : State) : State :=
  {| isSubmitting := isSubmitting p; error := error p;
     navigated := navigated p; world := world p;
     rendered :=
       Some (if isAuthenticated (state (world p)) then before_useForm
             else through_useForm) |}.

End LoginPage.

(* ===================================================================== *)
(** ** The header (src/components/layout/header.tsx) *)
(* ===================================================================== *)

Module Header.

Import AuthProvider.

(** The router and the world of the provider, as the header uses them. *)
Record State : Type := {
  navigated : list string;
  world : World
}.

Definition navigate (to : string) : M State unit :=
  modify (fun h => {| navigated := navigated h ++ [to]; world := world h |}).

Definition useAuth {A} (m : M World A) : M State A :=
  fun h =>
    match m (world h) with
    | (c, w') => (c, {| navigated := navigated h; world := w' |})
    end.

(** const handleLogout = () => { logout(); navigate("/login"); } *)
Definition handleLogout : M State unit :=
  useAuth logout ;;
  navigate "/login".

End Header.

(* ===================================================================== *)
(** ** src/lib/api/gist-service.ts: getGistStargazers *)
(* ===================================================================== *)

Module Stargazers.

Import Octo GistService.

(** interface GistStar: the three fields of the user it keeps. *)
Record StarUser : Type := {
  login : string;
  avatar_url : string;
  html_url : string
}.

Record Star : Type := {
  user : StarUser;
  starred_at : string
}.

(** Besides its request to the gists endpoints, this method asks for the
    authenticated user.  A request it sends is one of the service, or the
    request for the user, with the handle it is sent with. *)
Inductive Request : Type :=
| gists_request (c : Call)
| users_request (octokit : Octokit).

(** The environment of the method: the requests sent so far, in the order
    they were sent, and the draws and the console of the service. *)
Record Env : Type := {
  requests : list Request;
  draws : nat;
  console : list (string * Error)
}.

(** A method of the service that only talks to the gists endpoints: the
    requests it sends are added to the log in the order it sends them (the
    service only ever adds to its list of calls, which is why the method is
    run here on an empty one). *)
Definition onService {A} (m : M GistService.Env A) : M Env A :=
  fun env =>
    match m {| calls := []; GistService.draws := draws env;
               GistService.console := console env |} with
    | (c, service') =>
        (c, {| requests := requests env ++ (gists_request <$> calls service');
               draws := GistService.draws service';
               console := GistService.console service' |})
    end.

Section WithRemote.

Variable remote : Remote.

(** What [users.getAuthenticated()] settles to. *)
Variable getAuthenticated : Octokit -> Completion User.

(** What [new Date().toISOString()] reads. *)
Variable now : string.

Definition users_getAuthenticated (octokit : Octokit) : M Env User :=
  modify (fun env =>
    {| requests := requests env ++ [users_request octokit];
       draws := draws env; console := console env |}) ;;
  await (getAuthenticated octokit).

(** async getGistStargazers(id: string): Promise<GistStar[]> *)
Definition getGistStargazers (octokit : Octokit) (id : string)
    : M Env (list Star) :=
  isStarred ← onService (isGistStarred remote octokit id);
  data ← users_getAuthenticated octokit;       (* const { data: user } *)
  let stargazers : list Star := [] in
  let stargazers :=
    if (isStarred : bool) then
      stargazers ++
      [ {| user := {| login := Octo.login data;
                      avatar_url := Octo.avatar_url data;
                      html_url := Octo.html_url data |};
           starred_at := now |} ]
    else stargazers in
  mret stargazers.

End WithRemote.

(** The one entry the method can return. *)
Definition self (u : User) (now : string) : Star :=
  {| user := {| login := Octo.login u; avatar_url := Octo.avatar_url u;
                html_url := Octo.html_url u |};
     starred_at := now |}.

(** An environment in which nothing has been sent. *)
Definition quiet : Env :=
  {| requests := []; draws := 0; console := [] |}.

End Stargazers.

(* ===================================================================== *)
(** ** Listing gists: the two runs of [getGists] and [getStarredGists] *)
(* ===================================================================== *)

Module Listing.

Import Octo Number GistService.

(** The environment once a request has been sent. *)
Definition sent (c : Call) (env : Env) : Env :=
  {| calls := calls env ++ [c]; draws := draws env; console := console env |}.

(** [getGists] and [getStarredGists] from their [await] on, for a response
    settled as [settled]. *)
Definition listed (random : nat -> double) (settled : Completion (list Gist))
    : M Env (list Gist) :=
  data ← await settled;
  addStargazersCount random data.

(** [Promise.all([a, b])] of two pending calls, seen once both have
    settled, where the one of [a] settles first: the continuation of [a]
    runs, then the one of [b], whether or not [a] was rejected; the whole is
    rejected with the first rejection in that order. *)
Definition settled_both {S A B} (a : M S A) (b : M S B) : M S (A * B) :=
  fun s =>
    let (ca, s1) := a s in
    let (cb, s2) := b s1 in
    (match ca, cb with
     | Normal x, Normal y => Normal (x, y)
     | Throw e, _ => Throw e
     | Normal _, Throw e => Throw e
     end, s2).

Section WithRemote.

Variable remote : Remote.
Variable random : nat -> double.

(** [Promise.all([gistService.getGists(), gistService.getStarredGists()])]:
    each call runs up to its [await], so both requests are sent, in this
    order, before either response is handled; the responses then arrive in
    one order or the other. *)
Definition Promise_all_lists (octokit : Octokit) (starredFirst : bool)
    : M Env (list Gist * list Gist) :=
  modify (sent gists_list) ;;
  modify (sent gists_listStarred) ;;
  if starredFirst then
    '(starred, mine) ← settled_both
                         (listed random (on_listStarred remote octokit))
                         (listed random (on_list remote octokit));
    mret (mine, starred)
  else
    settled_both (listed random (on_list remote octokit))
                 (listed random (on_listStarred remote octokit)).

End WithRemote.

End Listing.

(* ===================================================================== *)
(** ** Arrays and strings of JavaScript *)
(* ===================================================================== *)

Module JsArray.

(** [Array.prototype.sort(compare)] with a consistent comparator: the sort
    is stable, [a] comes before [b] when [compare a b < 0] and after it when
    [compare a b > 0].  An element is inserted in front of the elements to
    its right, after those the comparator puts before it. *)
Fixpoint insert {A} (compare : A -> A -> Z) (x : A) (l : list A) : list A :=
  match l with
  | [] => [x]
  | y :: l' => if 0 <? compare x y then y :: insert compare x l' else x :: l
  end.

Definition sort {A} (compare : A -> A -> Z) (l : list A) : list A :=
  foldr (insert compare) [] l.

(** A list in which every element stands in [R] to all the later ones. *)
Fixpoint ordered {A} (R : A -> A -> Prop) (l : list A) : Prop :=
  match l with
  | [] => True
  | x :: l' => Forall (R x) l' /\ ordered R l'
  end.

(** [hay.includes(needle)] *)
Fixpoint includes (hay needle : string) : bool :=
  String.prefix needle hay ||
  match hay with
  | EmptyString => false
  | String _ hay' => includes hay' needle
  end.

End JsArray.

(* ===================================================================== *)
(** ** The list page (src/components/pages/gist-list-page.tsx) *)
(* ===================================================================== *)

Module GistListPage.

Import Octo Number Listing JsArray.

Inductive SortField : Type := updated | created | stars.
Inductive SortOrder : Type := asc | desc.
Inductive FilterVisibility : Type := all | public | private.

Record State : Type := {
  gists : list GistService.Gist;
  starredGists : list GistService.Gist;
  isLoading : bool;
  error : option string;
  searchQuery : string;
  sortField : SortField;
  sortOrder : SortOrder;
  filterVisibility : FilterVisibility;
  console : list (string * Error);
  env : GistService.Env
}.

(** useState([]), useState([]), useState(true), useState(null),
    useState(""), useState("updated"), useState("desc"), useState("all") *)
Definition initial (e : GistService.Env) : State :=
  {| gists := []; starredGists := []; isLoading := true; error := None;
     searchQuery := ""; sortField := updated; sortOrder := desc;
     filterVisibility := all; console := []; env := e |}.

Definition setGists (l : list GistService.Gist) : M State unit :=
  modify (fun p =>
    {| gists := l; starredGists := starredGists p; isLoading := isLoading p;
       error := error p; searchQuery := searchQuery p;
       sortField := sortField p; sortOrder := sortOrder p;
       filterVisibility := filterVisibility p; console := console p;
       env := env p |}).

Definition setStarredGists (l : list GistService.Gist) : M State unit :=
  modify (fun p =>
    {| gists := gists p; starredGists := l; isLoading := isLoading p;
       error := error p; searchQuery := searchQuery p;
       sortField := sortField p; sortOrder := sortOrder p;
       filterVisibility := filterVisibility p; console := console p;
       env := env p |}).

Definition setIsLoading (b : bool) : M State unit :=
  modify (fun p =>
    {| gists := gists p; starredGists := starredGists p; isLoading := b;
       error := error p; searchQuery := searchQuery p;
       sortField := sortField p; sortOrder := sortOrder p;
       filterVisibility := filterVisibility p; console := console p;
       env := env p |}).

Definition setError (e : option string) : M State unit :=
  modify (fun p =>
    {| gists := gists p; starredGists := starredGists p;
       isLoading := isLoading p; error := e; searchQuery := searchQuery p;
       sortField := sortField p; sortOrder := sortOrder p;
       filterVisibility := filterVisibility p; console := console p;
       env := env p |}).

Definition console_error (label : string) (e : Error) : M State unit :=
  modify (fun p =>
    {| gists := gists p; starredGists := starredGists p;
       isLoading := isLoading p; error := error p;
       searchQuery := searchQuery p; sortField := sortField p;
       sortOrder := sortOrder p; filterVisibility := filterVisibility p;
       console := console p ++ [(label, e)]; env := env p |}).

Definition service {A} (m : M GistService.Env A) : M State A :=
  fun p =>
    match m (env p) with
    | (c, e') =>
        (c, {| gists := gists p; starredGists := starredGists p;
               isLoading := isLoading p; error := error p;
               searchQuery := searchQuery p; sortField := sortField p;
               sortOrder := sortOrder p;
               filterVisibility := filterVisibility p;
               console := console p; env := e' |})
    end.

Section WithRemote.

Variable remote : GistService.Remote.
Variable random : nat -> double.

(** The effect [fetchGists], for either order of arrival of the two
    responses. *)
Definition fetchGists (octokit : option Octokit) (starredFirst : bool)
    : M State unit :=
  match octokit with
  | None => mret tt
  | Some octokit =>
      try_finally
        (try_catch
           (setIsLoading true ;;
            setError None ;;
            '(myGists, starred) ←
              service (Promise_all_lists remote random octokit starredFirst);
            setGists myGists ;;
            setStarredGists starred)
           (fun err =>
              console_error "Error fetching gists:" err ;;
              setError (Some "Failed to load gists. Please try again.")))
        (setIsLoading false)
  end.

End WithRemote.

Section WithBuiltins.

(** [String.prototype.toLowerCase], and [new Date(s).getTime()] for the
    timestamps of a gist, which are dates: their time value is a number. *)
Variable toLowerCase : string -> string.
Variable getTime : string -> Z.

Definition isPublicFilter (v : FilterVisibility) : bool :=
  match v with public => true | _ => false end.

Definition isPrivateFilter (v : FilterVisibility) : bool :=
  match v with private => true | _ => false end.

(** The callback of [filter].  ([description] is a string, as [interface
    Gist] declares it.) *)
Definition shown (p : State) (gist : GistService.Gist) : bool :=
  if isPublicFilter (filterVisibility p) && negb (GistService.public gist)
  then false
  else if isPrivateFilter (filterVisibility p) && GistService.public gist
  then false
  else if truthy (Some (searchQuery p)) then
    let searchLower := toLowerCase (searchQuery p) in
    let descriptionMatch :=
      includes (toLowerCase (GistService.description gist)) searchLower in
    let filesMatch :=
      existsb (fun file =>
                 includes (toLowerCase (GistService.filename file))
                          searchLower)
              (snd <$> map_to_list (GistService.files gist)) in
    descriptionMatch || filesMatch
  else true.

(** The callback of [sort]. *)
Definition compare (p : State) (a b : GistService.Gist) : Z :=
  let comparison :=
    match sortField p with
    | updated =>
        getTime (GistService.updated_at b) - getTime (GistService.updated_at a)
    | created =>
        getTime (GistService.created_at b) - getTime (GistService.created_at a)
    | stars =>
        default 0 (GistService.stargazers_count b)
        - default 0 (GistService.stargazers_count a)
    end in
  match sortOrder p with
  | asc => - comparison
  | desc => comparison
  end.

Definition filteredGists (p : State) (list : Datatypes.list GistService.Gist)
    : Datatypes.list GistService.Gist :=
  sort (compare p) (filter (fun gist => shown p gist = true) list).

(** The number a gist is sorted by, and the order the page asks for. *)
Definition key (p : State) (gist : GistService.Gist) : Z :=
  match sortField p with
  | updated => getTime (GistService.updated_at gist)
  | created => getTime (GistService.created_at gist)
  | stars => default 0 (GistService.stargazers_count gist)
  end.

Definition inOrder (p : State) (a b : GistService.Gist) : Prop :=
  match sortOrder p with
  | asc => key p a <= key p b
  | desc => key p b <= key p a
  end.

(** The visibility the filter asks for. *)
Definition visibilityMatches (p : State) (gist : GistService.Gist) : Prop :=
  match filterVisibility p with
  | all => True
  | public => GistService.public gist = true
  | private => GistService.public gist = false
  end.

End WithBuiltins.

End GistListPage.

(* ===================================================================== *)
(** ** The dashboard (src/components/pages/dashboard.tsx) *)
(* ===================================================================== *)

Module Dashboard.

Import Octo Number Listing JsArray.

Record State : Type := {
  recentGists : list GistService.Gist;
  starredGists : list GistService.Gist;
  isLoading : bool;
  error : option string;
  console : list (string * Error);
  env : GistService.Env
}.

Definition initial (e : GistService.Env) : State :=
  {| recentGists := []; starredGists := []; isLoading := true; error := None;
     console := []; env := e |}.

Definition setRecentGists (l : list GistService.Gist) : M State unit :=
  modify (fun p =>
    {| recentGists := l; starredGists := starredGists p;
       isLoading := isLoading p; error := error p; console := console p;
       env := env p |}).

Definition setStarredGists (l : list GistService.Gist) : M State unit :=
  modify (fun p =>
    {| recentGists := recentGists p; starredGists := l;
       isLoading := isLoading p; error := error p; console := console p;
       env := env p |}).

Definition setIsLoading (b : bool) : M State unit :=
  modify (fun p =>
    {| recentGists := recentGists p; starredGists := starredGists p;
       isLoading := b; error := error p; console := console p;
       env := env p |}).

Definition setError (e : option string) : M State unit :=
  modify (fun p =>
    {| recentGists := recentGists p; starredGists := starredGists p;
       isLoading := isLoading p; error := e; console := console p;
       env := env p |}).

Definition console_error (label : string) (e : Error) : M State unit :=
  modify (fun p =>
    {| recentGists := recentGists p; starredGists := starredGists p;
       isLoading := isLoading p; error := error p;
       console := console p ++ [(label, e)]; env := env p |}).

Definition service {A} (m : M GistService.Env A) : M State A :=
  fun p =>
    match m (env p) with
    | (c, e') =>
        (c, {| recentGists := recentGists p; starredGists := starredGists p;
               isLoading := isLoading p; error := error p;
               console := console p; env := e' |})
    end.

Section WithRemote.

Variable remote : GistService.Remote.
Variable random : nat -> double.

(** [new Date(s).getTime()] for the timestamps of a gist. *)
Variable getTime : string -> Z.

Definition byUpdated (a b : GistService.Gist) : Z :=
  getTime (GistService.updated_at b) - getTime (GistService.updated_at a).

Definition byStars (a b : GistService.Gist) : Z :=
  default 0 (GistService.stargazers_count b)
  - default 0 (GistService.stargazers_count a).

(** The effect [fetchData], for either order of arrival of the two
    responses. *)
Definition fetchData (octokit : option Octokit) (starredFirst : bool)
    : M State unit :=
  match octokit with
  | None => mret tt
  | Some octokit =>
      try_finally
        (try_catch
           (setIsLoading true ;;
            setError None ;;
            '(gists, starred) ←
              service (Promise_all_lists remote random octokit starredFirst);
            let sortedGists := sort byUpdated gists in
            let sortedStarred := sort byStars starred in
            setRecentGists (take 5 sortedGists) ;;
            setStarredGists (take 5 sortedStarred))
           (fun err =>
              console_error "Error fetching dashboard data:" err ;;
              setError
                (Some "Failed to load dashboard data. Please try again.")))
        (setIsLoading false)
  end.

End WithRemote.

(** The star count the dashboard ranks by. *)
Definition starsOf (gist : GistService.Gist) : Z :=
  default 0 (GistService.stargazers_count gist).

End Dashboard.

(* ===================================================================== *)
(** ** More sample inputs *)
(* ===================================================================== *)

Module MoreSamples.

Import Samples.

(** A second gist, updated after [gist0]. *)
Definition gist1 : GistService.Gist :=
  {| GistService.id := "g2"; GistService.description := "notes";
     GistService.public := false;
     GistService.created_at := "2024-01-01T00:00:00Z";
     GistService.updated_at := "2024-01-03T00:00:00Z";
     GistService.comments := 0;
     GistService.html_url := "https://gist.github.com/g2";
     GistService.files :=
       {[ "b.md" := {| GistService.filename := "b.md";
                       GistService.content := "# notes";
                       GistService.language := Some "Markdown";
                       GistService.type := None;
                       GistService.raw_url := None;
                       GistService.size := Some 7 |} ]};
     GistService.owner :=
       {| GistService.login := "alice";
          GistService.avatar_url := "https://avatars.example/alice" |};
     GistService.stargazers_count := Some 3;
     GistService.truncated := Some false |}.

(** The time value of the three dates the samples use, in milliseconds. *)
Definition sampleTime (s : string) : Z :=
  if String.eqb s "2024-01-01T00:00:00Z" then 1704067200000
  else if String.eqb s "2024-01-02T00:00:00Z" then 1704153600000
  else if String.eqb s "2024-01-03T00:00:00Z" then 1704240000000
  else 0.

(** Lower case, for strings that are in lower case already. *)
Definition sampleLower (s : string) : string := s.

(** A remote that serves the two sample gists and accepts every request. *)
Definition serving : GistService.Remote :=
  {| GistService.on_list := fun _ => Normal [gist0; gist1];
     GistService.on_listStarred := fun _ => Normal [gist1];
     GistService.on_get := fun _ _ => Normal gist0;
     GistService.on_create := fun _ _ _ _ => Normal gist0;
     GistService.on_update := fun _ _ _ _ => Normal gist0;
     GistService.on_delete := fun _ _ => Normal tt;
     GistService.on_checkIsStarred := fun _ _ => Normal tt;
     GistService.on_star := fun _ _ => Normal tt;
     GistService.on_unstar := fun _ _ => Normal tt |}.

(** An entry of the edit form as it is loaded from a gist. *)
Definition a_loaded : GistEditPage.FormFile :=
  {| GistEditPage.originalFilename := Some "a.txt";
     GistEditPage.filename := "a.txt";
     GistEditPage.content := "hello";
     GistEditPage.isDeleted := false |}.

End MoreSamples.

(* ===================================================================== *)
(** ** The edit form: loading and editing (gist-edit-page.tsx) *)
(* ===================================================================== *)

Module GistEditForm.

Import Octo GistService GistEditPage.

(** The entry [form.reset] makes of a file of the fetched gist:
    ([filename, file]) => ({ originalFilename: filename, filename,
    content: file.content, isDeleted: false }) *)
Definition entryOf (entry : string * GistFile) : FormFile :=
  let '(filename, file) := entry in
  {| originalFilename := Some filename; GistEditPage.filename := filename;
     GistEditPage.content := GistService.content file; isDeleted := false |}.

(** The values [form.reset] is given, for the entries of the gist's files in
    the order [Object.entries] lists them. *)
Definition populate (description : string) (entries : list (string * GistFile))
    : GistFormValues :=
  {| GistEditPage.description := Some description;
     GistEditPage.files := entryOf <$> entries |}.

(** [Object.entries(files)] lists every file of the record once, in the
    order of the record's properties. *)
Definition entriesOf (files : gmap string GistFile)
    (entries : list (string * GistFile)) : Prop :=
  entries ≡ₚ map_to_list files.

(** const addNewFile = () => append({ filename: '', content: '', isDeleted: false }) *)
Definition addNewFile (data : GistFormValues) : GistFormValues :=
  {| GistEditPage.description := GistEditPage.description data;
     GistEditPage.files :=
       GistEditPage.files data ++
       [ {| originalFilename := None; GistEditPage.filename := "";
            GistEditPage.content := ""; isDeleted := false |} ] |}.

(** form.setValue(`files.${index}.isDeleted`, value), for an index of the
    field array. *)
Definition setIsDeleted (index : nat) (value : bool) (data : GistFormValues)
    : GistFormValues :=
  {| GistEditPage.description := GistEditPage.description data;
     GistEditPage.files :=
       alter (fun file =>
                {| originalFilename := originalFilename file;
                   GistEditPage.filename := GistEditPage.filename file;
                   GistEditPage.content := GistEditPage.content file;
                   isDeleted := value |})
             index (GistEditPage.files data) |}.

(** remove(index) of the field array. *)
Definition remove (index : nat) (data : GistFormValues) : GistFormValues :=
  {| GistEditPage.description := GistEditPage.description data;
     GistEditPage.files := delete index (GistEditPage.files data) |}.

(** const markFileAsDeleted = (index) => { ... }.  The handlers are bound to
    the rendered fields; for an index that is not one of them
    [form.getValues] returns undefined and reading its [originalFilename]
    throws: that is the [None] here. *)
Definition markFileAsDeleted (index : nat) (data : GistFormValues)
    : option GistFormValues :=
  match GistEditPage.files data !! index with
  | None => None
  | Some file =>
      if truthy (originalFilename file) then
        Some (setIsDeleted index true data)
      else
        Some (remove index data)
  end.

(** const restoreFile = (index) => { ... }, for an index of the field
    array. *)
Definition restoreFile (index : nat) (data : GistFormValues)
    : option GistFormValues :=
  match GistEditPage.files data !! index with
  | None => None
  | Some _ => Some (setIsDeleted index false data)
  end.

(** What the payload holds for the files of a gist sent back unchanged. *)
Definition unchanged (files : gmap string GistFile)
    : gmap string (nullable FileContent) :=
  (fun file => obj {| file_content := GistService.content file |}) <$> files.

End GistEditForm.

(* ===================================================================== *)
(** ** The create form: validation and its fields (gist-create-page.tsx) *)
(* ===================================================================== *)

Module GistCreateForm.

Import GistService GistCreatePage.

(** z.string().min(1) *)
Definition min1 (s : string) : bool := negb (String.eqb s "").

(** gistFormSchema: every file has a filename and a content of at least one
    character, and there is at least one file. *)
Definition gistFormSchema (data : GistFormValues) : bool :=
  forallb (fun file => min1 (filename file) && min1 (content file))
          (files data)
  && (1 <=? length (files data))%nat.

(** defaultValues *)
Definition defaultValues : GistFormValues :=
  {| description := Some ""; public := true;
     files := [ {| filename := ""; content := "" |} ] |}.

(** const addNewFile = () => append({ filename: '', content: '' }) *)
Definition addNewFile (data : GistFormValues) : GistFormValues :=
  {| description := description data; public := public data;
     files := files data ++ [ {| filename := ""; content := "" |} ] |}.

(** The button that removes a file is rendered when [fields.length > 1]. *)
Definition canRemove (data : GistFormValues) : bool :=
  (1 <? length (files data))%nat.

(** onClick={() => remove(index)} *)
Definition remove (index : nat) (data : GistFormValues) : GistFormValues :=
  {| description := description data; public := public data;
     files := delete index (files data) |}.

(** What the visitor can do to the fields of the form. *)
Inductive edit : GistFormValues -> GistFormValues -> Prop :=
| edit_add data : edit data (addNewFile data)
| edit_remove index data :
    canRemove data = true -> edit data (remove index data)
| edit_type index file data :
    (index < length (files data))%nat ->
    edit data
      {| description := description data; public := public data;
         files := <[index := file]> (files data) |}
| edit_describe text flag data :
    edit data {| description := text; public := flag; files := files data |}.

Inductive reachable : GistFormValues -> Prop :=
| reachable_default : reachable defaultValues
| reachable_edit data data' : reachable data -> edit data data' ->
                              reachable data'.

End GistCreateForm.

(* ===================================================================== *)
(** ** The detail page (src/components/pages/gist-detail-page.tsx) *)
(* ===================================================================== *)

Module GistDetailPage.

Import Octo.

(** toast({ variant?, title }) *)
Record Toast : Type := {
  variant : option string;
  title : string
}.

Record State : Type := {
  gist : option GistService.Gist;
  isLoading : bool;
  error : option string;
  showDeleteAlert : bool;
  isDeleting : bool;
  copiedFile : option string;
  expandedFiles : JsObject.Obj bool Empty_set;
  toasts : list Toast;
  navigated : list string;
  console : list (string * Error);
  env : GistService.Env
}.

(** useState(null), useState(true), useState(null), useState(false),
    useState(false), useState(null), useState({}) *)
Definition initial (e : GistService.Env) : State :=
  {| gist := None; isLoading := true; error := None;
     showDeleteAlert := false; isDeleting := false; copiedFile := None;
     expandedFiles := JsObject.empty; toasts := []; navigated := [];
     console := [];
     env := e |}.

Definition setGist (g : option GistService.Gist) : M State unit :=
  modify (fun p =>
    {| gist := g; isLoading := isLoading p; error := error p;
       showDeleteAlert := showDeleteAlert p; isDeleting := isDeleting p;
       copiedFile := copiedFile p; expandedFiles := expandedFiles p;
       toasts := toasts p; navigated := navigated p; console := console p;
       env := env p |}).

Definition setIsLoading (b : bool) : M State unit :=
  modify (fun p =>
    {| gist := gist p; isLoading := b; error := error p;
       showDeleteAlert := showDeleteAlert p; isDeleting := isDeleting p;
       copiedFile := copiedFile p; expandedFiles := expandedFiles p;
       toasts := toasts p; navigated := navigated p; console := console p;
       env := env p |}).

Definition setError (e : option string) : M State unit :=
  modify (fun p =>
    {| gist := gist p; isLoading := isLoading p; error := e;
       showDeleteAlert := showDeleteAlert p; isDeleting := isDeleting p;
       copiedFile := copiedFile p; expandedFiles := expandedFiles p;
       toasts := toasts p; navigated := navigated p; console := console p;
       env := env p |}).

Definition setShowDeleteAlert (b : bool) : M State unit :=
  modify (fun p =>
    {| gist := gist p; isLoading := isLoading p; error := error p;
       showDeleteAlert := b; isDeleting := isDeleting p;
       copiedFile := copiedFile p; expandedFiles := expandedFiles p;
       toasts := toasts p; navigated := navigated p; console := console p;
       env := env p |}).

Definition setIsDeleting (b : bool) : M State unit :=
  modify (fun p =>
    {| gist := gist p; isLoading := isLoading p; error := error p;
       showDeleteAlert := showDeleteAlert p; isDeleting := b;
       copiedFile := copiedFile p; expandedFiles := expandedFiles p;
       toasts := toasts p; navigated := navigated p; console := console p;
       env := env p |}).

(** setExpandedFiles, with a value or with an updater of the previous one. *)
Definition setExpandedFiles
    (update : JsObject.Obj bool Empty_set -> JsObject.Obj bool Empty_set)
    : M State unit :=
  modify (fun p =>
    {| gist := gist p; isLoading := isLoading p; error := error p;
       showDeleteAlert := showDeleteAlert p; isDeleting := isDeleting p;
       copiedFile := copiedFile p;
       expandedFiles := update (expandedFiles p);
       toasts := toasts p; navigated := navigated p; console := console p;
       env := env p |}).

Definition toast (t : Toast) : M State unit :=
  modify (fun p =>
    {| gist := gist p; isLoading := isLoading p; error := error p;
       showDeleteAlert := showDeleteAlert p; isDeleting := isDeleting p;
       copiedFile := copiedFile p; expandedFiles := expandedFiles p;
       toasts := toasts p ++ [t]; navigated := navigated p;
       console := console p; env := env p |}).

Definition navigate (to : string) : M State unit :=
  modify (fun p =>
    {| gist := gist p; isLoading := isLoading p; error := error p;
       showDeleteAlert := showDeleteAlert p; isDeleting := isDeleting p;
       copiedFile := copiedFile p; expandedFiles := expandedFiles p;
       toasts := toasts p; navigated := navigated p ++ [to];
       console := console p; env := env p |}).

Definition console_error (label : string) (e : Error) : M State unit :=
  modify (fun p =>
    {| gist := gist p; isLoading := isLoading p; error := error p;
       showDeleteAlert := showDeleteAlert p; isDeleting := isDeleting p;
       copiedFile := copiedFile p; expandedFiles := expandedFiles p;
       toasts := toasts p; navigated := navigated p;
       console := console p ++ [(label, e)]; env := env p |}).

Definition service {A} (m : M GistService.Env A) : M State A :=
  fun p =>
    match m (env p) with
    | (c, e') =>
        (c, {| gist := gist p; isLoading := isLoading p; error := error p;
               showDeleteAlert := showDeleteAlert p;
               isDeleting := isDeleting p; copiedFile := copiedFile p;
               expandedFiles := expandedFiles p; toasts := toasts p;
               navigated := navigated p; console := console p; env := e' |})
    end.

(** const initialExpanded = {};
    Object.keys(gistData.files).forEach((filename) => {
      initialExpanded[filename] = true; })
    over the keys in the order the record lists them (the order does not
    show in the result). *)
Definition initialExpanded (files : gmap string GistService.GistFile)
    : JsObject.Obj bool Empty_set :=
  foldl (fun initialExpanded filename =>
           JsObject.set filename true initialExpanded)
        JsObject.empty (map_to_list files).*1.

Section WithRemote.

Variable remote : GistService.Remote.

(** The effect [fetchGist]. *)
Definition fetchGist (octokit : option Octokit) (id : option string)
    : M State unit :=
  match octokit with
  | None => mret tt
  | Some octokit =>
      if negb (truthy id) then mret tt
      else
        let id := default "" id in
        try_finally
          (try_catch
             (setIsLoading true ;;
              setError None ;;
              gistData ← service (GistService.getGistById remote octokit id);
              setGist (Some gistData) ;;
              setExpandedFiles
                (fun _ => initialExpanded (GistService.files gistData)))
             (fun err =>
                console_error "Error fetching gist:" err ;;
                setError (Some
                  "Failed to load gist. It may have been deleted or you may not have permission to view it.")))
          (setIsLoading false)
  end.

(** const handleDeleteGist = async () => { ... } *)
Definition handleDeleteGist (octokit : option Octokit) (id : option string)
    : M State unit :=
  match octokit with
  | None => mret tt
  | Some octokit =>
      if negb (truthy id) then mret tt
      else
        let id := default "" id in
        try_finally
          (try_catch
             (setIsDeleting true ;;
              service (GistService.deleteGist remote octokit id) ;;
              toast {| variant := None; title := "Gist deleted successfully" |} ;;
              navigate "/gists")
             (fun error =>
                console_error "Error deleting gist:" error ;;
                toast {| variant := Some "destructive";
                         title := "Failed to delete gist" |}))
          (setIsDeleting false ;;
           setShowDeleteAlert false)
  end.

End WithRemote.

(** const toggleFileExpand = (filename) => setExpandedFiles((prev) =>
      ({ ...prev, [filename]: !prev[filename] })) *)
Definition toggleFileExpand (filename : string) : M State unit :=
  setExpandedFiles (fun prev =>
    JsObject.define filename (negb (JsObject.truthy_at prev filename))
      (JsObject.spread prev)).

(** [expandedFiles[filename]], as a condition. *)
Definition isExpanded (p : State) (filename : string) : bool :=
  JsObject.truthy_at (expandedFiles p) filename.

(** What the page renders. *)
Inductive Element : Type :=
| LoadingSpinner (size : string)
| ErrorAlert (description : string)
| GistView (gist : GistService.Gist).

Definition GistDetailPage (p : State) : Element :=
  if isLoading p then
    LoadingSpinner "lg"
  else
    match gist p with
    | Some g =>
        if truthy (error p) then ErrorAlert (or_else (error p) "Gist not found")
        else GistView g
    | None => ErrorAlert (or_else (error p) "Gist not found")
    end.

End GistDetailPage.

(* ===================================================================== *)
(** * Properties *)
(* ===================================================================== *)

(** ** The session manager *)

Module AuthProviderSpec.

Import Octo AuthProvider Samples.

(** A world given by its cells: the record updates of a run then reduce as
    they are met. *)
Ltac cells w :=
  let a := fresh "authenticated" in
  let l := fresh "loading" in
  let u := fresh "user" in
  let t := fresh "token" in
  let o := fresh "octokit" in
  let st := fresh "storage" in
  let ts := fresh "toasts" in
  let cs := fresh "console" in
  destruct w as [[a l u t o] st ts cs].

(** Running the provider's code on such a world, up to the operations of the
    storage map and of lists and strings. *)
Ltac run := cbv -[insert delete lookup app String.append].

(** What the runs of the provider do, one equation each. *)

Lemma login_begin_run w :
  login_begin w =
  (Normal tt,
   {| state := {| isAuthenticated := isAuthenticated (state w);
                  isLoading := true; user := user (state w);
                  token := token (state w); octokit := octokit (state w) |};
      localStorage := localStorage w; toasts := toasts w;
      console := console w |}).
Proof. cells w. reflexivity. Qed.

Lemma idle_run w :
  setIsLoading false w =
  (Normal tt,
   {| state := {| isAuthenticated := isAuthenticated (state w);
                  isLoading := false; user := user (state w);
                  token := token (state w); octokit := octokit (state w) |};
      localStorage := localStorage w; toasts := toasts w;
      console := console w |}).
Proof. cells w. reflexivity. Qed.

Lemma login_resume_fulfilled tok u w :
  login_resume tok (Normal u) w =
  (Normal tt,
   {| state := {| isAuthenticated := true; isLoading := false;
                  user := Some u; token := Some tok;
                  octokit := Some {| auth := tok |} |};
      localStorage := <[github_token := tok]> (localStorage w);
      toasts := toasts w ++
                [toast_success ("Welcome, " +:+ Octo.login u +:+ "!")];
      console := console w |}).
Proof. cells w. run. reflexivity. Qed.

Lemma login_resume_rejected tok e w :
  login_resume tok (Throw e) w =
  (Throw e,
   {| state := {| isAuthenticated := isAuthenticated (state w);
                  isLoading := false; user := user (state w);
                  token := token (state w); octokit := octokit (state w) |};
      localStorage := localStorage w;
      toasts := toasts w ++ [toast_error
        "Authentication failed. Please check your token and try again."];
      console := console w |}).
Proof. cells w. run. reflexivity. Qed.

Lemma autoLoginFailed_run e w :
  autoLoginFailed e w =
  (Normal tt,
   {| state := {| isAuthenticated := isAuthenticated (state w);
                  isLoading := false; user := user (state w);
                  token := token (state w); octokit := octokit (state w) |};
      localStorage := delete github_token (localStorage w);
      toasts := toasts w;
      console := console w ++ [("Auto-login failed:", e)] |}).
Proof. cells w. run. reflexivity. Qed.

Lemma logout_run w :
  logout w =
  (Normal tt,
   {| state := {| isAuthenticated := false; isLoading := isLoading (state w);
                  user := None; token := None; octokit := None |};
      localStorage := delete github_token (localStorage w);
      toasts := toasts w ++ [toast_success "Logged out successfully"];
      console := console w |}).
Proof. cells w. run. reflexivity. Qed.

(** A call of [login] is its run up to the [await] followed by its run from
    the [await] on, with the probe settled as the remote settles it. *)
Lemma login_runs probe tok w :
  login probe tok w =
  login_resume tok (probe {| auth := tok |}) (exec login_begin w).
Proof.
  unfold login, login_resume. cbv zeta.
  destruct (probe {| auth := tok |}) as [u | e]; cells w; run; reflexivity.
Qed.

(** A failed [login] changes the loading flag and the toasts only. *)
Lemma login_rejected probe tok e w :
  probe {| auth := tok |} = Throw e ->
  login probe tok w =
  (Throw e,
   {| state := {| isAuthenticated := isAuthenticated (state w);
                  isLoading := false; user := user (state w);
                  token := token (state w); octokit := octokit (state w) |};
      localStorage := localStorage w;
      toasts := toasts w ++ [toast_error
        "Authentication failed. Please check your token and try again."];
      console := console w |}).
Proof.
  intros Hp. rewrite login_runs, Hp, login_resume_rejected.
  unfold exec. rewrite login_begin_run. reflexivity.
Qed.

(** A successful [login] stores the token, the identity and the handle. *)
Lemma login_fulfilled probe tok u w :
  probe {| auth := tok |} = Normal u ->
  login probe tok w =
  (Normal tt,
   {| state := {| isAuthenticated := true; isLoading := false;
                  user := Some u; token := Some tok;
                  octokit := Some {| auth := tok |} |};
      localStorage := <[github_token := tok]> (localStorage w);
      toasts := toasts w ++
                [toast_success ("Welcome, " +:+ Octo.login u +:+ "!")];
      console := console w |}).
Proof.
  intros Hp. rewrite login_runs, Hp, login_resume_fulfilled.
  unfold exec. rewrite login_begin_run. reflexivity.
Qed.

(** The mount effect, by the truthiness of the stored token. *)
Lemma mountEffect_idle probe w :
  truthy (localStorage w !! github_token) = false ->
  mountEffect probe w = setIsLoading false w.
Proof.
  intros Ht.
  unfold mountEffect, localStorage_getItem, gets, mbind, M_bind, bind.
  rewrite Ht. reflexivity.
Qed.

Lemma mountEffect_login probe w t :
  localStorage w !! github_token = Some t ->
  truthy (Some t) = true ->
  mountEffect probe w =
  settle {| newToken := t; fromMount := true |} (probe {| auth := t |})
         (exec login_begin w).
Proof.
  intros Hl Ht.
  unfold mountEffect, settle, localStorage_getItem, gets, mbind, M_bind, bind.
  rewrite Hl, Ht. cbn [fromMount newToken default].
  unfold try_catch. rewrite login_runs. reflexivity.
Qed.

Lemma mountEffect_fulfilled probe w t u :
  localStorage w !! github_token = Some t ->
  truthy (Some t) = true ->
  probe {| auth := t |} = Normal u ->
  mountEffect probe w =
  (Normal tt,
   {| state := {| isAuthenticated := true; isLoading := false;
                  user := Some u; token := Some t;
                  octokit := Some {| auth := t |} |};
      localStorage := <[github_token := t]> (localStorage w);
      toasts := toasts w ++
                [toast_success ("Welcome, " +:+ Octo.login u +:+ "!")];
      console := console w |}).
Proof.
  intros Hl Ht Hp. rewrite (mountEffect_login probe w t Hl Ht), Hp.
  unfold settle. cbn [fromMount newToken]. unfold try_catch.
  rewrite login_resume_fulfilled. unfold exec. rewrite login_begin_run.
  reflexivity.
Qed.

Lemma mountEffect_rejected probe w t e :
  localStorage w !! github_token = Some t ->
  truthy (Some t) = true ->
  probe {| auth := t |} = Throw e ->
  mountEffect probe w =
  (Normal tt,
   {| state := {| isAuthenticated := isAuthenticated (state w);
                  isLoading := false; user := user (state w);
                  token := token (state w); octokit := octokit (state w) |};
      localStorage := delete github_token (localStorage w);
      toasts := toasts w ++ [toast_error
        "Authentication failed. Please check your token and try again."];
      console := console w ++ [("Auto-login failed:", e)] |}).
Proof.
  intros Hl Ht Hp. rewrite (mountEffect_login probe w t Hl Ht), Hp.
  unfold settle. cbn [fromMount newToken]. unfold try_catch.
  rewrite login_resume_rejected, autoLoginFailed_run.
  unfold exec. rewrite login_begin_run. reflexivity.
Qed.

Lemma invariant_login_begin w :
  invariant (state w) -> invariant (state (exec login_begin w)).
Proof. unfold exec. rewrite login_begin_run. unfold invariant. cbn. auto. Qed.

Lemma invariant_idle w :
  invariant (state w) -> invariant (state (exec (setIsLoading false) w)).
Proof. unfold exec. rewrite idle_run. unfold invariant. cbn. auto. Qed.

Lemma invariant_login_resume tok probe w :
  invariant (state w) -> invariant (state (exec (login_resume tok probe) w)).
Proof.
  unfold exec. destruct probe as [u | e].
  - rewrite login_resume_fulfilled. unfold invariant. cbn. eauto.
  - rewrite login_resume_rejected. unfold invariant. cbn. auto.
Qed.

Lemma invariant_settle p probe w :
  invariant (state w) -> invariant (state (exec (settle p probe) w)).
Proof.
  intros Hinv. unfold settle.
  destruct (fromMount p); [ | apply invariant_login_resume, Hinv ].
  unfold exec, try_catch. destruct probe as [u | e].
  - rewrite login_resume_fulfilled. unfold invariant. cbn. eauto.
  - rewrite login_resume_rejected, autoLoginFailed_run.
    unfold invariant in *. cbn. exact Hinv.
Qed.

Lemma invariant_logout w : invariant (state (exec logout w)).
Proof. unfold exec. rewrite logout_run. unfold invariant. cbn. discriminate. Qed.

Lemma invariant_step c c' :
  step c c' -> invariant (state (fst c)) -> invariant (state (fst c')).
Proof.
  intros Hstep. inversion Hstep; subst; cbn [fst].
  - apply invariant_login_begin.
  - apply invariant_idle.
  - apply invariant_login_begin.
  - apply invariant_settle.
  - intros _. apply invariant_logout.
Qed.

Lemma invariant_reachable c : reachable c -> invariant (state (fst c)).
Proof.
  induction 1 as [storage | c c' _ IH Hstep].
  - unfold invariant. cbn. discriminate.
  - eapply invariant_step; eassumption.
Qed.

(** A whole call of [login], and the whole mount effect, are runs of the
    step relation: what holds of every reachable configuration holds after
    them. *)
Lemma login_reachable probe tok w ps :
  reachable (w, ps) -> reachable (exec (login probe tok) w, ps).
Proof.
  intros Hr.
  unfold exec at 1. rewrite login_runs.
  eapply reachable_step.
  - eapply reachable_step; [ exact Hr | apply (step_login w ps tok) ].
  - pose proof (step_settle (exec login_begin w) ps
                  {| newToken := tok; fromMount := false |} []
                  (probe {| auth := tok |})) as Hs.
    rewrite app_nil_r in Hs. exact Hs.
Qed.

Lemma mountEffect_reachable probe w ps :
  reachable (w, ps) -> reachable (exec (mountEffect probe) w, ps).
Proof.
  intros Hr.
  destruct (truthy (localStorage w !! github_token)) eqn:Ht.
  - destruct (localStorage w !! github_token) as [t |] eqn:Hl;
      [ | discriminate ].
    unfold exec at 1. rewrite (mountEffect_login probe w t Hl Ht).
    eapply reachable_step.
    + eapply reachable_step; [ exact Hr | ].
      apply (step_mount_login w ps t Hl Ht).
    + pose proof (step_settle (exec login_begin w) ps
                    {| newToken := t; fromMount := true |} []
                    (probe {| auth := t |})) as Hs.
      rewrite app_nil_r in Hs. exact Hs.
  - unfold exec at 1. rewrite (mountEffect_idle probe w Ht).
    eapply reachable_step; [ exact Hr | ].
    apply (step_mount_idle w ps Ht).
Qed.

(** *** Concrete runs *)

Example login_alice :
  result (login onlyAlice "ghp_valid") (initialWorld ∅) = Normal tt /\
  isAuthenticated (state aliceLoggedIn) = true /\
  (Octo.login <$> user (state aliceLoggedIn)) = Some "alice" /\
  localStorage aliceLoggedIn !! github_token = Some "ghp_valid".
Proof. vm_compute. auto. Qed.

Example startup_without_token :
  state (exec (mountEffect onlyAlice) (initialWorld ∅)) =
  {| isAuthenticated := false; isLoading := false;
     user := None; token := None; octokit := None |}.
Proof. reflexivity. Qed.

Example startup_with_stale_token :
  let w := exec (mountEffect onlyAlice)
                (initialWorld {[ github_token := "ghp_stale" ]}) in
  localStorage w !! github_token = None /\
  isAuthenticated (state w) = false /\ isLoading (state w) = false.
Proof. vm_compute. auto. Qed.

(** *** The claims *)

(** C1, as stated, fails: a [login] with an invalid token from the session
    of a logged-in user is rejected, and leaves the persisted token of
    that session in local storage and [isAuthenticated] true. *)
Lemma login_failure_keeps_session :
  let w' := exec (login onlyAlice "ghp_bad") aliceLoggedIn in
  onlyAlice {| auth := "ghp_bad" |} = Throw (RequestError 401) /\
  result (login onlyAlice "ghp_bad") aliceLoggedIn = Throw (RequestError 401) /\
  localStorage w' !! github_token = Some "ghp_valid" /\
  isAuthenticated (state w') = true.
Proof. vm_compute. auto. Qed.

(** C1, amended: for every invalid token, [login] fails with the error of
    the probe and writes nothing of the failed attempt: local storage, the
    token, the identity, the client handle and the authenticated flag are
    as they were before the call, loading is false and one failure
    notification is emitted.  So from a session with no persisted token
    and authenticated = false, there is no persisted token and
    authenticated = false after the call. *)
Theorem login_failure_frame probe tok e w :
  probe {| auth := tok |} = Throw e ->
  let w' := exec (login probe tok) w in
  result (login probe tok) w = Throw e /\
  localStorage w' = localStorage w /\
  token (state w') = token (state w) /\
  user (state w') = user (state w) /\
  octokit (state w') = octokit (state w) /\
  isAuthenticated (state w') = isAuthenticated (state w) /\
  isLoading (state w') = false /\
  toasts w' = toasts w ++ [toast_error
    "Authentication failed. Please check your token and try again."] /\
  (localStorage w !! github_token = None ->
   isAuthenticated (state w) = false ->
   localStorage w' !! github_token = None /\
   isAuthenticated (state w') = false).
Proof.
  intros Hp w'. subst w'. unfold exec, result.
  rewrite (login_rejected probe tok e w Hp).
  cbn [fst snd state localStorage toasts
       isAuthenticated isLoading user token octokit].
  repeat split; auto.
Qed.

Lemma login_failure_frame_witness :
  let w := exec (mountEffect onlyAlice) (initialWorld ∅) in
  let w' := exec (login onlyAlice "ghp_bad") w in
  result (login onlyAlice "ghp_bad") w = Throw (RequestError 401) /\
  localStorage w' !! github_token = None /\
  isAuthenticated (state w') = false.
Proof.
  intros w w'.
  destruct (login_failure_frame onlyAlice "ghp_bad" (RequestError 401) w
              eq_refl) as (Hr & _ & _ & _ & _ & _ & _ & _ & Hclean).
  split; [ exact Hr | ].
  apply Hclean; reflexivity.
Defined.

(** C2: the session invariant (authenticated implies identity and client
    handle present) holds of the initial state, is preserved by login
    (whether the probe succeeds or fails), by logout and by the startup
    effect, and holds in every reachable configuration of the provider,
    whatever the interleaving of pending logins. *)
Theorem session_invariant :
  invariant initialState /\
  (forall probe tok w,
      invariant (state w) -> invariant (state (exec (login probe tok) w))) /\
  (forall w, invariant (state (exec logout w))) /\
  (forall probe w,
      invariant (state w) -> invariant (state (exec (mountEffect probe) w))) /\
  (forall c, reachable c -> invariant (state (fst c))).
Proof.
  split; [ unfold invariant; cbn; discriminate | ].
  split.
  { intros probe tok w Hinv. unfold exec. rewrite login_runs.
    apply invariant_login_resume, invariant_login_begin, Hinv. }
  split; [ exact invariant_logout | ].
  split; [ | exact invariant_reachable ].
  intros probe w Hinv.
  unfold exec, mountEffect, localStorage_getItem, gets, mbind, M_bind, bind.
  destruct (truthy (localStorage w !! github_token)).
  - unfold try_catch. rewrite login_runs.
    pose proof (invariant_settle
                  {| newToken := default "" (localStorage w !! github_token);
                     fromMount := true |}
                  (probe {| auth := default "" (localStorage w !! github_token) |})
                  (exec login_begin w)
                  (invariant_login_begin w Hinv)) as Hs.
    exact Hs.
  - apply invariant_idle, Hinv.
Qed.

Lemma session_invariant_witness :
  reachable (aliceLoggedIn, []) /\
  is_Some (user (state aliceLoggedIn)) /\
  is_Some (octokit (state aliceLoggedIn)).
Proof.
  assert (reachable (aliceLoggedIn, [])) as Hr.
  { apply login_reachable, mountEffect_reachable, reachable_init. }
  split; [ exact Hr | ].
  destruct session_invariant as (_ & _ & _ & _ & Hall).
  apply (Hall (aliceLoggedIn, []) Hr). reflexivity.
Defined.

(** C7: [logout] cannot fail; from any session it clears the persisted
    token and sets token, user and client handle to null and authenticated
    to false; and from a logged-out session it leaves the session state and
    the storage unchanged, so calling it twice is calling it once. *)
Theorem logout_idempotent (w : World) :
  result logout w = Normal tt /\
  loggedOut (exec logout w) /\
  isLoading (state (exec logout w)) = isLoading (state w) /\
  (loggedOut w ->
   state (exec logout w) = state w /\
   localStorage (exec logout w) = localStorage w) /\
  result logout (exec logout w) = Normal tt /\
  state (exec logout (exec logout w)) = state (exec logout w) /\
  localStorage (exec logout (exec logout w)) = localStorage (exec logout w).
Proof.
  unfold loggedOut, exec, result. rewrite !logout_run.
  cbn [fst snd state localStorage isAuthenticated isLoading user token octokit].
  split; [ reflexivity | ].
  split; [ repeat split; apply lookup_delete_eq | ].
  split; [ reflexivity | ].
  split.
  - intros (Hnone & Ht & Hu & Ho & Ha). split.
    + cells w. cbn in *. subst. reflexivity.
    + apply delete_id, Hnone.
  - split; [ reflexivity | ].
    split; [ reflexivity | apply delete_delete_eq ].
Qed.

Lemma logout_idempotent_witness :
  let w := exec logout aliceLoggedIn in
  state (exec logout w) = state w /\ localStorage (exec logout w) = localStorage w.
Proof.
  intros w.
  destruct (logout_idempotent w) as (_ & _ & _ & Hsame & _).
  apply Hsame.
  destruct (logout_idempotent aliceLoggedIn) as (_ & Hout & _).
  exact Hout.
Defined.

(** C8, as stated, fails on a persisted token that is the empty string:
    the remote rejects it, yet the startup effect does not call [login] and
    leaves the entry in local storage. *)
Lemma startup_keeps_empty_token :
  let w' := exec (mountEffect onlyAlice)
                 (initialWorld {[ github_token := "" ]}) in
  onlyAlice {| auth := "" |} = Throw (RequestError 401) /\
  localStorage w' !! github_token = Some "".
Proof. vm_compute. auto. Qed.

(** C8, amended: at process start loading is true and authenticated is
    false.  If no persisted token exists, or the persisted token is the
    empty string, loading is set false with authenticated remaining false
    and the storage untouched.  If a non-empty persisted token is valid, the
    session reaches authenticated = true (with the identity, the token and
    the handle stored, loading false) without user interaction.  If a
    non-empty persisted token is invalid, the stored token is removed and
    the session reaches authenticated = false with loading false.  The
    effect itself never fails. *)
Theorem startup_behaviour probe storage :
  let w := initialWorld storage in
  let w' := exec (mountEffect probe) w in
  isLoading (state w) = true /\
  isAuthenticated (state w) = false /\
  result (mountEffect probe) w = Normal tt /\
  (truthy (storage !! github_token) = false ->
   isLoading (state w') = false /\ isAuthenticated (state w') = false /\
   localStorage w' = storage) /\
  (forall t u,
      storage !! github_token = Some t -> t <> "" ->
      probe {| auth := t |} = Normal u ->
      isAuthenticated (state w') = true /\ isLoading (state w') = false /\
      user (state w') = Some u /\ token (state w') = Some t /\
      octokit (state w') = Some {| auth := t |} /\
      localStorage w' !! github_token = Some t) /\
  (forall t e,
      storage !! github_token = Some t -> t <> "" ->
      probe {| auth := t |} = Throw e ->
      localStorage w' !! github_token = None /\
      isAuthenticated (state w') = false /\ isLoading (state w') = false).
Proof.
  intros w w'.
  split; [ reflexivity | ]. split; [ reflexivity | ].
  assert (forall t : string, t <> "" -> truthy (Some t) = true) as Htruthy.
  { intros t Ht. unfold truthy.
    destruct (String.eqb_spec t "") as [Heq | _]; [ contradiction | reflexivity ]. }
  assert (localStorage w = storage) as Hw by reflexivity.
  split; [ | split; [ | split ] ].
  - (* the effect never fails *)
    unfold result.
    destruct (truthy (localStorage w !! github_token)) eqn:Ht.
    + destruct (localStorage w !! github_token) as [t |] eqn:Hl;
        [ | discriminate ].
      destruct (probe {| auth := t |}) as [u | e] eqn:Hp.
      * rewrite (mountEffect_fulfilled probe w t u Hl Ht Hp). reflexivity.
      * rewrite (mountEffect_rejected probe w t e Hl Ht Hp). reflexivity.
    + rewrite (mountEffect_idle probe w Ht), idle_run. reflexivity.
  - (* no token, or an empty one *)
    intros Ht. rewrite <- Hw in Ht. subst w'. unfold exec.
    rewrite (mountEffect_idle probe w Ht), idle_run. cbn. auto.
  - (* a valid token *)
    intros t u Hl Hne Hp. rewrite <- Hw in Hl. subst w'. unfold exec.
    rewrite (mountEffect_fulfilled probe w t u Hl (Htruthy t Hne) Hp).
    cbn [snd state localStorage isAuthenticated isLoading user token octokit].
    repeat split. apply lookup_insert_eq.
  - (* an invalid token *)
    intros t e Hl Hne Hp. rewrite <- Hw in Hl. subst w'. unfold exec.
    rewrite (mountEffect_rejected probe w t e Hl (Htruthy t Hne) Hp).
    cbn [snd state localStorage isAuthenticated isLoading user token octokit].
    split; [ apply lookup_delete_eq | ]. split; reflexivity.
Qed.

Lemma startup_behaviour_witness :
  let valid := exec (mountEffect onlyAlice)
                    (initialWorld {[ github_token := "ghp_valid" ]}) in
  let stale := exec (mountEffect onlyAlice)
                    (initialWorld {[ github_token := "ghp_stale" ]}) in
  let fresh := exec (mountEffect onlyAlice) (initialWorld ∅) in
  (isAuthenticated (state valid) = true /\ isLoading (state valid) = false) /\
  (localStorage stale !! github_token = None /\
   isAuthenticated (state stale) = false) /\
  (isLoading (state fresh) = false /\ isAuthenticated (state fresh) = false).
Proof.
  intros valid stale fresh. split; [ | split ].
  - destruct (startup_behaviour onlyAlice {[ github_token := "ghp_valid" ]})
      as (_ & _ & _ & _ & Hvalid & _).
    destruct (Hvalid "ghp_valid" alice) as (Ha & Hl & _);
      [ reflexivity | discriminate | reflexivity | ].
    split; [ exact Ha | exact Hl ].
  - destruct (startup_behaviour onlyAlice {[ github_token := "ghp_stale" ]})
      as (_ & _ & _ & _ & _ & Hstale).
    destruct (Hstale "ghp_stale" (RequestError 401)) as (Hs & Ha & _);
      [ reflexivity | discriminate | reflexivity | ].
    split; [ exact Hs | exact Ha ].
  - destruct (startup_behaviour onlyAlice ∅) as (_ & _ & _ & Hfresh & _).
    destruct Hfresh as (Hl & Ha & _); [ reflexivity | ].
    split; [ exact Hl | exact Ha ].
Defined.

End AuthProviderSpec.

(** ** The route guard *)

Module GuardSpec.

Import AuthProvider Guard Samples.

Example guard_while_loading :
  ProtectedRoute initialState requested = LoadingSpinner "lg".
Proof. reflexivity. Qed.

(** C6: the guard is a function of the two flags of the snapshot (and of
    the requested location).  While loading it renders the wait indicator
    and no redirect, whatever the authenticated flag; when not loading and
    not authenticated it redirects to "/login" carrying the requested
    location; when not loading and authenticated it renders the nested
    content. *)
Theorem ProtectedRoute_three_states (auth : AuthState) (location : Location) :
  (isLoading auth = true ->
   ProtectedRoute auth location = LoadingSpinner "lg" /\
   is_redirect (ProtectedRoute auth location) = false) /\
  (isLoading auth = false -> isAuthenticated auth = false ->
   ProtectedRoute auth location = Navigate "/login" location true) /\
  (isLoading auth = false -> isAuthenticated auth = true ->
   ProtectedRoute auth location = Outlet) /\
  (forall auth' : AuthState,
      isLoading auth' = isLoading auth ->
      isAuthenticated auth' = isAuthenticated auth ->
      ProtectedRoute auth' location = ProtectedRoute auth location).
Proof.
  unfold ProtectedRoute.
  split; [ | split; [ | split ] ].
  - intros ->. split; reflexivity.
  - intros -> ->. reflexivity.
  - intros -> ->. reflexivity.
  - intros auth' -> ->. reflexivity.
Qed.

Lemma ProtectedRoute_three_states_witness :
  ProtectedRoute initialState requested = LoadingSpinner "lg" /\
  ProtectedRoute
    (state (exec (mountEffect onlyAlice) (initialWorld ∅)))
    requested = Navigate "/login" requested true /\
  ProtectedRoute (state aliceLoggedIn) requested = Outlet.
Proof.
  split; [ | split ].
  - destruct (ProtectedRoute_three_states initialState requested)
      as (Hloading & _).
    apply Hloading. reflexivity.
  - destruct (ProtectedRoute_three_states
                (state (exec (mountEffect onlyAlice) (initialWorld ∅)))
                requested) as (_ & Hanonymous & _).
    apply Hanonymous; reflexivity.
  - destruct (ProtectedRoute_three_states (state aliceLoggedIn) requested)
      as (_ & _ & Hknown & _).
    apply Hknown; reflexivity.
Defined.

End GuardSpec.

(** ** Numbers *)

Module NumberSpec.

Import Number.

(** The largest double below one, and the product JavaScript is known for:
    [0.07 * 100] is [7.000000000000001]. *)
Example mul100_largest :
  mul100 {| mant := 2 ^ 53 - 1; expo := -53 |} =
  {| mant := 100 * 2 ^ 46 - 1; expo := -46 |}.
Proof. reflexivity. Qed.

Example mul100_seven_hundredths :
  mul100 {| mant := 0x11eb851eb851ec; expo := -56 |} =
  {| mant := 7 * 2 ^ 50 + 1; expo := -50 |}.
Proof. reflexivity. Qed.

(** The bits kept and the bits dropped by a shift of [s]. *)
Lemma shift_split n s :
  0 <= n -> 0 <= s ->
  let q := Z.shiftr n s in
  let r := n - Z.shiftl q s in
  n = q * 2 ^ s + r /\ 0 <= r < 2 ^ s /\ 0 <= q.
Proof.
  intros Hn Hs q r.
  assert (0 < 2 ^ s) as Hpos by (apply Z.pow_pos_nonneg; lia).
  assert (q = n / 2 ^ s) as Hq by (apply Z.shiftr_div_pow2; lia).
  assert (r = n mod 2 ^ s) as Hr.
  { unfold r. rewrite Z.shiftl_mul_pow2 by lia. rewrite Hq.
    pose proof (Z.div_mod n (2 ^ s)). lia. }
  split; [ | split ].
  - rewrite Hq, Hr. pose proof (Z.div_mod n (2 ^ s)). lia.
  - rewrite Hr. apply Z.mod_pos_bound. lia.
  - rewrite Hq. apply Z.div_pos; lia.
Qed.

(** The number of bits [round53] drops from a product below [100 * 2^53]. *)
Lemma dropped_bits n :
  0 <= n < 100 * 2 ^ 53 -> 0 <= Z.max 0 (Z.log2 n - 52) <= 7.
Proof.
  intros Hn. split; [ lia | ].
  destruct (Z.eq_dec n 0) as [-> | Hn0]; [ cbn; lia | ].
  assert (Z.log2 n < 60); [ | lia ].
  apply Z.log2_lt_pow2; lia.
Qed.

(** [Math.floor(x * 100)] for a double [x] in [0, 1) is an integer in
    [0, 100): the product of the largest such double rounds to
    [100 - 2^-46], not to 100. *)
Lemma floor_mul100_range d :
  is_random d = true -> 0 <= floor (mul100 d) < 100.
Proof.
  destruct d as [m e].
  unfold is_random, is_double, below_one, mul100, floor, round53.
  cbn [mant expo]. intros H.
  apply andb_true_iff in H as [Hd Hb].
  assert (0 <= m < 2 ^ 53 /\ -1074 <= e <= 971) as [Hm He] by lia.
  clear Hd.
  set (n := m * 100).
  set (s := Z.max 0 (Z.log2 n - 52)).
  set (q := Z.shiftr n s).
  set (r := n - Z.shiftl q s).
  set (half := Z.shiftl 1 (s - 1)).
  set (up := (0 <? s) && ((half <? r) || ((r =? half) && Z.odd q))).
  assert (0 <= n < 100 * 2 ^ 53) as Hn by (subst n; lia).
  pose proof (dropped_bits n Hn) as Hs. fold s in Hs.
  destruct (shift_split n s (proj1 Hn) (proj1 Hs)) as (Hnq & Hrb & Hq0).
  fold q in Hnq, Hrb, Hq0. fold r in Hnq, Hrb.
  set (q' := if up then q + 1 else q).
  assert (0 <= q') as Hq'0 by (subst q'; destruct up; lia).
  split; [ apply Z.shiftl_nonneg; exact Hq'0 | ].
  assert (0 < s -> half = 2 ^ (s - 1)) as Hhalf.
  { intros Hpos. subst half. rewrite Z.shiftl_mul_pow2 by lia. lia. }
  assert (up = true -> 0 < s /\ half <= r) as Hup.
  { subst up. intros Hu. apply andb_true_iff in Hu as [Hu0 Hu].
    split; [ lia | ].
    apply orb_true_iff in Hu as [Hu | Hu]; [ lia | ].
    apply andb_true_iff in Hu as [Hu _]. lia. }
  apply orb_true_iff in Hb as [Hz | Hlt].
  - (* zero: nothing is dropped and nothing is rounded up *)
    assert (n = 0) as Hn0 by (subst n; lia).
    assert (s = 0) as Hs0 by (subst s; rewrite Hn0; reflexivity).
    assert (up = false) as Hno by (destruct up; [ lia | reflexivity ]).
    subst q'. rewrite Hno.
    rewrite Hs0 in Hnq, Hrb. change (2 ^ 0) with 1 in Hnq, Hrb.
    replace q with 0 by lia. rewrite Z.shiftl_0_l. lia.
  - apply andb_true_iff in Hlt as [He0 Hmk].
    assert (e < 0) as Hneg by lia.
    assert (m < 2 ^ (- e)) as Hmlt by lia.
    clear He0 Hmk.
    destruct (Z.eq_dec s 0) as [Hs0 | Hs0].
    + (* the product is exact *)
      assert (up = false) as Hno by (destruct up; [ lia | reflexivity ]).
      subst q'. rewrite Hno, Hs0, Z.add_0_r.
      rewrite Hs0 in Hnq, Hrb. change (2 ^ 0) with 1 in Hnq, Hrb.
      rewrite <- (Z.opp_involutive e) at 1.
      rewrite Z.shiftl_opp_r, Z.shiftr_div_pow2 by lia.
      apply Z.div_lt_upper_bound; [ apply Z.pow_pos_nonneg; lia | ].
      subst n. lia.
    + (* bits are dropped: the product is at least 2^53 *)
      assert (53 <= Z.log2 n) as Hlog by (subst s; lia).
      assert (0 < n) as Hnpos.
      { destruct (Z.eq_dec n 0) as [E | E]; [ | lia ].
        rewrite E in Hlog. cbn in Hlog. lia. }
      assert (2 ^ 53 <= n) as Hbig by (apply Z.log2_le_pow2; lia).
      assert (47 <= - e) as Hk.
      { destruct (Z_lt_le_dec (- e) 47) as [Hsmall | ]; [ | lia ].
        assert (2 ^ (- e) <= 2 ^ 46) by (apply Z.pow_le_mono_r; lia).
        subst n. lia. }
      set (K := 2 ^ (- e - s)).
      assert (0 < K) as HK by (subst K; apply Z.pow_pos_nonneg; lia).
      assert (2 ^ (- e) = K * 2 ^ s) as Hsplit.
      { subst K. rewrite <- Z.pow_add_r by lia. f_equal. lia. }
      assert (n + 100 <= 100 * K * 2 ^ s) as Hle by (subst n; lia).
      replace (e + s) with (- (- e - s)) by lia.
      rewrite Z.shiftl_opp_r, Z.shiftr_div_pow2 by lia.
      fold K.
      apply Z.div_lt_upper_bound; [ exact HK | ].
      specialize (Hhalf ltac:(lia)).
      clearbody up half q r K n. subst q'.
      assert (s = 1 \/ s = 2 \/ s = 3 \/ s = 4 \/ s = 5 \/ s = 6 \/ s = 7)
        as Hcases by lia.
      destruct Hcases as [-> | [-> | [-> | [-> | [-> | [-> | ->]]]]]];
        cbn in Hhalf, Hnq, Hle, Hrb;
        destruct up; try specialize (Hup eq_refl); lia.
Qed.

End NumberSpec.

(** ** The gist service *)

Module GistServiceSpec.

Import Octo Number GistService Samples.

Example isGistStarred_starred :
  result (isGistStarred (remoteWith (fun _ => Normal tt)) someone "g1") env0
  = Normal true.
Proof. reflexivity. Qed.

Example isGistStarred_not_starred :
  result (isGistStarred (remoteWith (fun _ => Throw (RequestError 404)))
            someone "g1") env0
  = Normal false.
Proof. reflexivity. Qed.

Example isGistStarred_network_error :
  result (isGistStarred (remoteWith (fun _ => Throw (NetworkError "timeout")))
            someone "g1") env0
  = Normal false.
Proof. reflexivity. Qed.

(** C3: [isGistStarred] never propagates an error: for every gist
    identifier it sends one check-is-starred request and returns normally;
    it returns [true] exactly when that request succeeds, and [false] for
    every failure, whatever its cause (the 404 of a gist that is not starred
    as well as a transport error). *)
Theorem isGistStarred_never_throws remote octokit (id : string) (env : Env) :
  let run := isGistStarred remote octokit id in
  (exists b, result run env = Normal b) /\
  (result run env = Normal true <->
   on_checkIsStarred remote octokit id = Normal tt) /\
  (forall e, on_checkIsStarred remote octokit id = Throw e ->
             result run env = Normal false) /\
  calls (exec run env) = calls env ++ [gists_checkIsStarred id].
Proof.
  unfold result, exec, isGistStarred, request, try_catch, await, modify,
    mbind, M_bind, bind, mret, M_ret, ret.
  cbn. destruct (on_checkIsStarred remote octokit id) as [[] | e]; cbn.
  - split; [ eauto | ]. split; [ tauto | ]. split; [ discriminate | reflexivity ].
  - split; [ eauto | ].
    split; [ split; discriminate | ].
    split; [ reflexivity | reflexivity ].
Qed.

Lemma isGistStarred_never_throws_witness :
  result (isGistStarred (remoteWith (fun _ => Throw (RequestError 404)))
            someone "g1") env0 = Normal false /\
  result (isGistStarred (remoteWith (fun _ => Throw (NetworkError "timeout")))
            someone "g1") env0 = Normal false /\
  result (isGistStarred (remoteWith (fun _ => Normal tt)) someone "g1") env0
  = Normal true.
Proof.
  split; [ | split ].
  - destruct (isGistStarred_never_throws
                (remoteWith (fun _ => Throw (RequestError 404)))
                someone "g1" env0) as (_ & _ & Hfalse & _).
    apply (Hfalse (RequestError 404)). reflexivity.
  - destruct (isGistStarred_never_throws
                (remoteWith (fun _ => Throw (NetworkError "timeout")))
                someone "g1" env0) as (_ & _ & Hfalse & _).
    apply (Hfalse (NetworkError "timeout")). reflexivity.
  - destruct (isGistStarred_never_throws
                (remoteWith (fun _ => Normal tt)) someone "g1" env0)
      as (_ & Htrue & _).
    apply Htrue. reflexivity.
Defined.

(** *** addStargazersCount *)

(** What a call does: it never throws, consumes one draw per gist in list
    order, and touches neither the network nor the console. *)
Lemma addStargazersCount_run random gists env :
  addStargazersCount random gists env =
  (Normal (annotate random (draws env) gists),
   {| calls := calls env; draws := draws env + length gists;
      console := console env |}).
Proof.
  revert env. induction gists as [| gist gists IH]; intros env.
  - destruct env as [cs d co]. cbn. rewrite Nat.add_0_r. reflexivity.
  - destruct env as [cs d co].
    unfold addStargazersCount in *. cbn [Promise_all_map].
    set (rest := Promise_all_map _ gists) in *.
    unfold mbind, M_bind, bind, try_catch, Math_random, mret, M_ret, ret.
    cbn [draws calls console].
    rewrite IH. cbn [draws calls console length].
    unfold annotate. rewrite imap_cons, Nat.add_0_r.
    f_equal; [ f_equal; f_equal | f_equal; lia ].
    apply imap_ext. intros i x _. cbn. repeat f_equal. lia.
Qed.

Lemma annotate_frame random first gists :
  Forall2 same_except_count gists (annotate random first gists).
Proof.
  revert first. induction gists as [| gist gists IH]; intros first.
  - constructor.
  - unfold annotate. rewrite imap_cons. constructor.
    + unfold same_except_count. cbn. tauto.
    + specialize (IH (S first)).
      erewrite imap_ext; [ exact IH | ].
      intros i x _. cbn. repeat f_equal. lia.
Qed.

Example addStargazersCount_twice :
  let first := addStargazersCount alternating [gist0; gist0] env0 in
  let second := addStargazersCount alternating [gist0] (snd first) in
  (stargazers_count <$>
     match fst first with Normal out => out | Throw _ => [] end)
  = [Some 0; Some 50] /\
  (stargazers_count <$>
     match fst second with Normal out => out | Throw _ => [] end)
  = [Some 0].
Proof. vm_compute. auto. Qed.

(** C4: for every list of gists, [addStargazersCount] returns normally a
    list of the same length in which the gist at index [i] carries the
    integer [Math.floor(x * 100)] of its own draw [x] of [Math.random()],
    which lies in [0, 100); a call consumes one fresh draw per gist, so the
    draws of different gists and of different calls are different draws, and
    there are generators for which two successive calls on the same gist
    yield different counts. *)
Theorem addStargazersCount_range (random : nat -> double) gists env :
  (forall i, is_random (random i) = true) ->
  (exists out,
      result (addStargazersCount random gists) env = Normal out /\
      length out = length gists /\
      (forall i gist', out !! i = Some gist' ->
         exists n, stargazers_count gist' = Some n /\ 0 <= n < 100 /\
                   n = floor (mul100 (random (draws env + i)%nat))) /\
      draws (exec (addStargazersCount random gists) env)
      = (draws env + length gists)%nat) /\
  (exists random' : nat -> double,
      (forall i, is_random (random' i) = true) /\
      forall gist env',
        let first := addStargazersCount random' [gist] env' in
        let second := addStargazersCount random' [gist] (snd first) in
        fst first <> fst second).
Proof.
  intros Hrandom. split.
  - exists (annotate random (draws env) gists).
    unfold result, exec. rewrite addStargazersCount_run. cbn [fst snd draws].
    split; [ reflexivity | ].
    split; [ apply length_imap | ].
    split; [ | reflexivity ].
    intros i gist' Hi. unfold annotate in Hi.
    rewrite list_lookup_imap in Hi.
    destruct (gists !! i) as [gist |]; [ | discriminate ].
    cbn in Hi. injection Hi as <-. cbn.
    eexists. split; [ reflexivity | ].
    split; [ | reflexivity ].
    apply NumberSpec.floor_mul100_range, Hrandom.
  - exists alternating. split.
    + intros i. unfold alternating. destruct (Nat.even i); reflexivity.
    + intros gist env' first second. subst first second.
      rewrite !addStargazersCount_run. cbn [fst snd draws length].
      unfold annotate. cbn. rewrite !Nat.add_0_r.
      replace (draws env' + 1)%nat with (S (draws env')) by lia.
      unfold alternating. rewrite Nat.even_succ, <- Nat.negb_even.
      destruct (Nat.even (draws env')); cbn; intros [= H]; discriminate.
Qed.

Lemma addStargazersCount_range_witness :
  exists out,
    result (addStargazersCount alternating [gist0; gist0]) env0 = Normal out /\
    length out = 2%nat /\
    (forall i gist', out !! i = Some gist' ->
       exists n, stargazers_count gist' = Some n /\ 0 <= n < 100 /\
                 n = floor (mul100 (alternating (0 + i)%nat))).
Proof.
  destruct (addStargazersCount_range alternating [gist0; gist0] env0)
    as [(out & Hres & Hlen & Hcount & _) _].
  - intros i. unfold alternating. destruct (Nat.even i); reflexivity.
  - exists out. split; [ exact Hres | ]. split; [ exact Hlen | exact Hcount ].
Defined.

(** C9: for every list of gists, [addStargazersCount] returns a list of the
    same length, in the same order, whose gists agree with the input gists
    on every field other than [stargazers_count]; it sends no request and
    writes nothing to the console. *)
Theorem addStargazersCount_frame (random : nat -> double) gists env :
  exists out,
    result (addStargazersCount random gists) env = Normal out /\
    length out = length gists /\
    Forall2 same_except_count gists out /\
    calls (exec (addStargazersCount random gists) env) = calls env /\
    console (exec (addStargazersCount random gists) env) = console env.
Proof.
  exists (annotate random (draws env) gists).
  unfold result, exec. rewrite addStargazersCount_run. cbn [fst snd].
  split; [ reflexivity | ].
  split; [ apply length_imap | ].
  split; [ apply annotate_frame | ].
  split; reflexivity.
Qed.

End GistServiceSpec.

(** ** Assignment to a record *)

Module JsObjectSpec.

Import JsObject.

Section Assignment.

Context {V P : Type} `{AsPrototype V P}.

(** An assignment leaves the properties of every other name as they are,
    whatever the name assigned. *)
Lemma lookup_set_ne (k k' : string) (v : V) (o : Obj V P) :
  k' <> k -> own (set k v o) !! k' = own o !! k'.
Proof.
  intros Hne. unfold set, setPrototype, define.
  destruct (own o !! k);
    [ cbn [own]; apply lookup_insert_ne; congruence | ].
  destruct (String.eqb k "__proto__");
    [ | cbn [own]; apply lookup_insert_ne; congruence ].
  destruct (prototype o); try destruct (as_prototype v); cbn [own];
    try reflexivity; apply lookup_insert_ne; congruence.
Qed.

(** An assignment to a name other than "__proto__" is a keyed insertion. *)
Lemma own_set (k : string) (v : V) (o : Obj V P) :
  k <> "__proto__" -> own (set k v o) = <[k := v]> (own o).
Proof.
  intros Hne. unfold set, define.
  destruct (own o !! k); [ reflexivity | ].
  destruct (String.eqb_spec k "__proto__") as [Heq | _];
    [ contradiction | reflexivity ].
Qed.

Lemma lookup_set_eq (k : string) (v : V) (o : Obj V P) :
  k <> "__proto__" -> own (set k v o) !! k = Some v.
Proof. intros Hne. rewrite (own_set k v o Hne). apply lookup_insert_eq. Qed.

Lemma prototype_set (k : string) (v : V) (o : Obj V P) :
  k <> "__proto__" -> prototype (set k v o) = prototype o.
Proof.
  intros Hne. unfold set, define.
  destruct (own o !! k); [ reflexivity | ].
  destruct (String.eqb_spec k "__proto__") as [Heq | _];
    [ contradiction | reflexivity ].
Qed.

(** A property found after an assignment was there before, or is the one
    assigned. *)
Lemma lookup_set_Some (k k' : string) (v x : V) (o : Obj V P) :
  own (set k v o) !! k' = Some x ->
  own o !! k' = Some x \/ (k' = k /\ x = v).
Proof.
  destruct (decide (k' = k)) as [-> | Hne];
    [ | rewrite lookup_set_ne by exact Hne; auto ].
  unfold set, setPrototype, define.
  destruct (own o !! k) eqn:Hown.
  - cbn [own]. rewrite lookup_insert_eq. intros [= <-]. auto.
  - destruct (String.eqb k "__proto__").
    + destruct (prototype o); try destruct (as_prototype v); cbn [own];
        rewrite ?lookup_insert_eq, ?Hown; intros [= <-]; auto.
    + cbn [own]. rewrite lookup_insert_eq. intros [= <-]. auto.
Qed.

(** An assignment gives the record no property "__proto__", as long as the
    setter is reached where that name is the one assigned. *)
Lemma set_no_proto_property (k : string) (v : V) (o : Obj V P) :
  own o !! "__proto__" = None ->
  (k = "__proto__" -> prototype o <> no_prototype) ->
  own (set k v o) !! "__proto__" = None.
Proof.
  intros Hown Hproto.
  destruct (decide (k = "__proto__")) as [-> | Hne].
  - unfold set, setPrototype. rewrite Hown. cbn [String.eqb Ascii.eqb Bool.eqb].
    destruct (prototype o) eqn:Hp;
      [ | exfalso; apply Hproto; reflexivity | ];
      destruct (as_prototype v); exact Hown.
  - rewrite lookup_set_ne by congruence. exact Hown.
Qed.

(** The setter stays within reach when no [null] is assigned. *)
Lemma set_keeps_prototype (k : string) (v : V) (o : Obj V P) :
  as_prototype v <> Some no_prototype ->
  prototype o <> no_prototype ->
  prototype (set k v o) <> no_prototype.
Proof.
  intros Hv Hproto. unfold set, setPrototype, define.
  destruct (own o !! k); [ exact Hproto | ].
  destruct (String.eqb k "__proto__"); [ | exact Hproto ].
  destruct (prototype o) eqn:Hp; try contradiction;
    destruct (as_prototype v) as [proto |] eqn:Hv';
    cbn [prototype]; rewrite ?Hp; congruence.
Qed.

End Assignment.

End JsObjectSpec.

(** ** The create form *)

Module GistCreatePageSpec.

Import Octo GistService Page GistCreatePage Samples JsObject JsObjectSpec.



(** The keys of the payload other than "__proto__" are the filenames of the
    form. *)
Lemma buildFiles_keys files (fn : string) :
  fn <> "__proto__" ->
  fn ∈ dom (buildFiles files) <-> fn ∈ filename <$> files.
Proof.
  intros Hkey. unfold buildFiles. rewrite elem_of_dom.
  assert (forall acc : Obj FileContent FileContent,
             is_Some (own (foldl insertFile acc files) !! fn)
             <-> is_Some (own acc !! fn) \/ fn ∈ filename <$> files) as Hgen.
  { induction files as [| file files IH]; intros acc.
    - cbn [foldl]. rewrite fmap_nil. split; [ auto | ].
      intros [Hacc | Hin]; [ exact Hacc | inversion Hin ].
    - cbn [foldl]. rewrite IH, fmap_cons, elem_of_cons. unfold insertFile.
      destruct (decide (filename file = fn)) as [<- | Hne].
      + rewrite lookup_set_eq by exact Hkey. split; [ auto | eauto ].
      + rewrite lookup_set_ne by congruence.
        split; [ tauto | ].
        intros [Hacc | [Heq | Hin]]; [ tauto | congruence | tauto ]. }
  rewrite Hgen. cbn [empty own]. rewrite lookup_empty.
  split; [ intros [[x Hx] | Hin]; [ discriminate Hx | exact Hin ] | auto ].
Qed.

(** What a submission does, whatever the entries of the form: one create
    request with the record built from them, and no error to the caller. *)
Lemma create_onSubmit_run remote octokit data p :
  result (onSubmit remote (Some octokit) data) p = Normal tt /\
  calls (env (exec (onSubmit remote (Some octokit) data) p))
  = calls (env p) ++
    [gists_create (or_else (description data) "") (buildFiles (files data))
                  (public data)].
Proof.
  unfold result, exec, onSubmit, try_finally, try_catch, service, createGist,
    request, await, modify, setIsSubmitting, setError, toast, navigate,
    Page.console_error, mbind, M_bind, bind, mret, M_ret, ret.
  cbn -[insert delete lookup buildFiles].
  destruct (on_create remote octokit _ _ _);
    cbn -[insert delete lookup buildFiles]; auto.
Qed.

Example buildFiles_twice :
  buildFiles (files twice)
  = {[ "a.txt" := {| file_content := "second" |};
       "b.txt" := {| file_content := "other" |} ]}.
Proof. vm_compute. reflexivity. Qed.




End GistCreatePageSpec.

(** ** The edit form *)

Module GistEditPageSpec.

Import Octo GistService Page GistEditPage Samples JsObject JsObjectSpec.

(** The assignments of an entry, by its case. *)
Lemma assignFile_cases filesObj file :
  assignFile filesObj file =
  let original := default "" (originalFilename file) in
  if deletedExisting file then set original null filesObj
  else if renamed file then
    set (filename file) (obj {| file_content := content file |})
      (set original null filesObj)
  else set (filename file) (obj {| file_content := content file |}) filesObj.
Proof.
  unfold assignFile, renamed, deletedExisting.
  destruct (isDeleted file && truthy (originalFilename file)); reflexivity.
Qed.

(** In a renamed entry the two names differ. *)
Lemma renamed_names file :
  renamed file = true ->
  deletedExisting file = false /\
  default "" (originalFilename file) <> filename file.
Proof.
  unfold renamed. intros Hren.
  destruct (deletedExisting file); [ discriminate | ].
  split; [ reflexivity | ].
  destruct (String.eqb_spec (default "" (originalFilename file))
                           (filename file)) as [Heq | Hne];
    [ | exact Hne ].
  rewrite andb_false_r in Hren. discriminate.
Qed.

Lemma assignFile_other filesObj file (k : string) :
  k ∉ keysOf file -> own (assignFile filesObj file) !! k = own filesObj !! k.
Proof.
  rewrite assignFile_cases. unfold keysOf. cbn zeta.
  destruct (deletedExisting file); [ | destruct (renamed file) ]; intros Hk.
  - apply lookup_set_ne. intros ->. apply Hk. left.
  - rewrite !lookup_set_ne; [ reflexivity | | ].
    + intros ->. apply Hk. left.
    + intros ->. apply Hk. right. left.
  - apply lookup_set_ne. intros ->. apply Hk. left.
Qed.

Lemma foldl_assignFile_other files filesObj (k : string) :
  k ∉ files ≫= keysOf ->
  own (foldl assignFile filesObj files) !! k = own filesObj !! k.
Proof.
  revert filesObj. induction files as [| file files IH]; intros filesObj Hk.
  - reflexivity.
  - cbn [foldl]. rewrite IH.
    + apply assignFile_other. intros Hin. apply Hk.
      apply list_elem_of_bind. exists file. split; [ exact Hin | left ].
    + intros Hin. apply Hk.
      apply list_elem_of_bind in Hin as (file' & Hin' & Hfile').
      apply list_elem_of_bind. exists file'. split; [ exact Hin' | right; exact Hfile' ].
Qed.

(** The payload at a key no later entry assigns is what the entry at [i]
    leaves there. *)
Lemma buildFiles_at files (i : nat) file (k : string) :
  files !! i = Some file ->
  k ∉ keysAfter i files ->
  buildFiles files !! k
  = own (assignFile (foldl assignFile empty (take i files)) file) !! k.
Proof.
  intros Hi Hk. unfold buildFiles.
  rewrite <- (take_drop_middle files i file Hi) at 1.
  rewrite foldl_app. cbn [foldl].
  apply foldl_assignFile_other. exact Hk.
Qed.

(** What an entry leaves at each of its keys other than "__proto__",
    whatever the record held. *)
Lemma assignFile_at filesObj file :
  let original := default "" (originalFilename file) in
  let current := obj {| file_content := content file |} in
  (deletedExisting file = true -> original <> "__proto__" ->
   own (assignFile filesObj file) !! original = Some null) /\
  (renamed file = true ->
   (original <> "__proto__" ->
    own (assignFile filesObj file) !! original = Some null) /\
   (filename file <> "__proto__" ->
    own (assignFile filesObj file) !! filename file = Some current)) /\
  (deletedExisting file = false -> renamed file = false ->
   filename file <> "__proto__" ->
   own (assignFile filesObj file) !! filename file = Some current).
Proof.
  intros original current. subst original current.
  rewrite assignFile_cases. cbn zeta.
  split; [ | split ].
  - intros Hdel Hkey. rewrite Hdel. apply lookup_set_eq, Hkey.
  - intros Hren. destruct (renamed_names file Hren) as [Hdel Hne].
    rewrite Hdel, Hren. split; intros Hkey.
    + rewrite lookup_set_ne by exact Hne. apply lookup_set_eq, Hkey.
    + apply lookup_set_eq, Hkey.
  - intros Hdel Hren Hkey. rewrite Hdel, Hren. apply lookup_set_eq, Hkey.
Qed.

Lemma edit_onSubmit_run remote octokit (id : string) data p :
  truthy (Some id) = true ->
  result (onSubmit remote (Some octokit) (Some id) data) p = Normal tt /\
  calls (env (exec (onSubmit remote (Some octokit) (Some id) data) p))
  = calls (env p) ++
    [gists_update id (or_else (description data) "") (buildFiles (files data))].
Proof.
  intros Hid.
  unfold result, exec, onSubmit. rewrite Hid. cbn [negb default].
  unfold try_finally, try_catch, service, updateGist,
    request, await, modify, setIsSubmitting, setError, toast, navigate,
    Page.console_error, mbind, M_bind, bind, mret, M_ret, ret.
  cbn -[insert delete lookup buildFiles].
  destruct (on_update remote octokit _ _ _);
    cbn -[insert delete lookup buildFiles]; auto.
Qed.

(** The scenario of the specification: a gist whose file "a.txt" is marked
    as deleted. *)
Example buildFiles_deleted :
  buildFiles [a_deleted; b_renamed]
  = {[ "a.txt" := null; "b.txt" := null;
       "c.txt" := obj {| file_content := "moved" |} ]}.
Proof. vm_compute. reflexivity. Qed.

(** C5, as stated, fails when a later entry of the form assigns the filename
    of a deleted file: "a.txt" is an existing file marked as deleted, and a
    new file added after it is named "a.txt"; the payload maps "a.txt" to the
    content of the new file, not to the deletion marker.  It also fails for
    an existing file named "__proto__" that is marked as deleted: the
    assignment of the deletion marker empties the prototype of the record
    and gives it no property, so the payload has no entry for that file. *)
Lemma deleted_file_overwritten :
  deletedExisting a_deleted = true /\
  originalFilename a_deleted = Some "a.txt" /\
  buildFiles [a_deleted; a_added] !! "a.txt"
  = Some (obj {| file_content := "again" |}) /\
  buildFiles [a_deleted; a_added] !! "a.txt" <> Some null /\
  deletedExisting proto_deleted = true /\
  originalFilename proto_deleted = Some "__proto__" /\
  buildFiles [proto_deleted] !! "__proto__" = None /\
  buildFiles [proto_deleted] !! "__proto__" <> Some null.
Proof. vm_compute. repeat split; discriminate. Qed.

(** C5, amended: the update payload is built by successive keyed assignment
    in form order, and it is the payload of the one update request.  For
    filename keys other than "__proto__": an entry with a non-empty original
    filename that is marked as deleted maps its original filename to the
    deletion marker; a renamed entry (non-empty original filename, not
    deleted, another current filename) maps its original filename to the
    deletion marker and its current filename to its content; every other
    entry maps its current filename to its content, each provided no later
    entry of the form assigns that key (the last assignment of a key
    wins). *)
Theorem edit_payload remote octokit (id : string) data p (i : nat) file :
  files data !! i = Some file ->
  truthy (Some id) = true ->
  let filesObj := buildFiles (files data) in
  let original := default "" (originalFilename file) in
  let current := obj {| file_content := content file |} in
  let later := keysAfter i (files data) in
  (deletedExisting file = true -> original <> "__proto__" ->
   original ∉ later -> filesObj !! original = Some null) /\
  (renamed file = true ->
   (original <> "__proto__" ->
    original ∉ later -> filesObj !! original = Some null) /\
   (filename file <> "__proto__" ->
    filename file ∉ later -> filesObj !! filename file = Some current)) /\
  (deletedExisting file = false -> renamed file = false ->
   filename file <> "__proto__" ->
   filename file ∉ later -> filesObj !! filename file = Some current) /\
  calls (env (exec (onSubmit remote (Some octokit) (Some id) data) p))
  = calls (env p) ++
    [gists_update id (or_else (description data) "") filesObj].
Proof.
  intros Hi Hid filesObj original current later.
  subst filesObj original current later.
  destruct (assignFile_at (foldl assignFile empty (take i (files data))) file)
    as (Hdeleted & Hrenamed & Hplain).
  split; [ | split; [ | split ] ].
  - intros Hdel Hkey Hlater.
    rewrite (buildFiles_at _ i file _ Hi Hlater). apply Hdeleted; assumption.
  - intros Hren. destruct (Hrenamed Hren) as [Hold Hnew].
    split; intros Hkey Hlater;
      rewrite (buildFiles_at _ i file _ Hi Hlater); auto.
  - intros Hdel Hren Hkey Hlater.
    rewrite (buildFiles_at _ i file _ Hi Hlater). apply Hplain; assumption.
  - apply (edit_onSubmit_run remote octokit id data p Hid).
Qed.

Lemma edit_payload_witness :
  let remote := remoteWith (fun _ => Normal tt) in
  let octokit := someone in
  let p := Page.initial env0 in
  let data := {| description := Some "demo"; files := [a_deleted; b_renamed] |} in
  buildFiles (files data) !! "a.txt" = Some null /\
  buildFiles (files data) !! "b.txt" = Some null /\
  buildFiles (files data) !! "c.txt" = Some (obj {| file_content := "moved" |}) /\
  calls (env (exec (onSubmit remote (Some octokit) (Some "g1") data) p))
  = [gists_update "g1" "demo" (buildFiles (files data))].
Proof.
  intros remote octokit p data.
  destruct (edit_payload remote octokit "g1" data p 0 a_deleted
              eq_refl eq_refl) as (Hdel & _ & _ & Hcalls).
  destruct (edit_payload remote octokit "g1" data p 1 b_renamed
              eq_refl eq_refl) as (_ & Hren & _ & _).
  destruct (Hren eq_refl) as [Hold Hnew].
  assert (forall (k : string) (ks : list string),
             bool_decide (k ∈ ks) = false -> k ∉ ks) as Hnot.
  { intros k ks Hb Hin. apply bool_decide_eq_false in Hb. exact (Hb Hin). }
  split; [ apply (Hdel eq_refl); [ discriminate | apply Hnot; reflexivity ] | ].
  split; [ apply Hold; [ discriminate | apply Hnot; reflexivity ] | ].
  split; [ apply Hnew; [ discriminate | apply Hnot; reflexivity ] | exact Hcalls ].
Defined.

End GistEditPageSpec.


(** ** The session, seen by its users *)

Module SessionSpec.

Import Octo AuthProvider Session Samples AuthProviderSpec.

Lemma coherent_settle p probe w :
  coherent (state w) -> coherent (state (exec (settle p probe) w)).
Proof.
  intros Hco. unfold settle, exec, try_catch.
  destruct (fromMount p), probe as [u | e];
    rewrite ?login_resume_fulfilled, ?login_resume_rejected,
            ?autoLoginFailed_run;
    unfold coherent in *; cbn; eauto.
Qed.

Lemma coherent_step c c' :
  step c c' -> coherent (state (fst c)) -> coherent (state (fst c')).
Proof.
  intros Hstep Hco. inversion Hstep; subst; cbn [fst] in *.
  - unfold exec. rewrite login_begin_run. exact Hco.
  - unfold exec. rewrite idle_run. exact Hco.
  - unfold exec. rewrite login_begin_run. exact Hco.
  - apply coherent_settle, Hco.
  - unfold exec. rewrite logout_run. unfold coherent. cbn. auto.
Qed.

Lemma coherent_reachable c : reachable c -> coherent (state (fst c)).
Proof.
  induction 1 as [storage | c c' _ IH Hstep].
  - unfold coherent. cbn. auto.
  - eapply coherent_step; eassumption.
Qed.

(** X1: the session cells are all set or all unset in every reachable
    configuration, and the handle is the one of the token in memory. *)
Theorem session_coherent c :
  reachable c ->
  let s := state (fst c) in
  coherent s /\
  (isAuthenticated s = true <-> is_Some (token s)) /\
  (isAuthenticated s = true <-> is_Some (user s)) /\
  (isAuthenticated s = true <-> is_Some (octokit s)) /\
  (forall t, token s = Some t -> octokit s = Some {| auth := t |}).
Proof.
  intros Hr s.
  pose proof (coherent_reachable c Hr) as Hco. fold s in Hco.
  split; [ exact Hco | ].
  unfold coherent in Hco.
  destruct (token s) as [t |] eqn:Ht.
  - destruct Hco as (Ha & Hu & Ho). rewrite Ha, Ho.
    repeat split; eauto. intros t' [= <-]. reflexivity.
  - destruct Hco as (Ha & Hu & Ho). rewrite Ha, Hu, Ho.
    repeat split; try discriminate; intros []; discriminate.
Qed.

Lemma session_coherent_witness :
  token (state aliceLoggedIn) = Some "ghp_valid" /\
  octokit (state aliceLoggedIn) = Some {| auth := "ghp_valid" |}.
Proof.
  assert (reachable (aliceLoggedIn, [])) as Hr.
  { apply login_reachable, mountEffect_reachable, reachable_init. }
  destruct (session_coherent (aliceLoggedIn, []) Hr) as (_ & _ & _ & _ & Hh).
  split; [ reflexivity | ].
  apply Hh. reflexivity.
Defined.

(** X2: a token that was accepted survives a restart: after a successful login
    with a non-empty token, restarting the application against a remote that
    still accepts the token restores the same session cells, without a call
    of [login] by the user, and leaves local storage as it was. *)
Theorem login_survives_restart probe tok u w :
  tok <> "" ->
  probe {| auth := tok |} = Normal u ->
  let w1 := exec (login probe tok) w in
  let w2 := exec (mountEffect probe) (restart w1) in
  localStorage w1 !! github_token = Some tok /\
  state w2 = state w1 /\
  localStorage w2 = localStorage w1.
Proof.
  intros Hne Hp w1 w2.
  assert (truthy (Some tok) = true) as Ht.
  { unfold truthy.
    destruct (String.eqb_spec tok "") as [Heq | _];
      [ contradiction | reflexivity ]. }
  assert (w1 = snd (login probe tok w)) as Hw1 by reflexivity.
  rewrite (login_fulfilled probe tok u w Hp) in Hw1. cbn [snd] in Hw1.
  assert (localStorage w1 !! github_token = Some tok) as Hl.
  { rewrite Hw1. cbn [localStorage]. apply lookup_insert_eq. }
  split; [ exact Hl | ].
  subst w2. unfold exec.
  rewrite (mountEffect_fulfilled probe (restart w1) tok u Hl Ht Hp).
  cbn [snd state localStorage restart initialWorld].
  rewrite Hw1. cbn [state localStorage].
  split; [ reflexivity | apply insert_insert_eq ].
Qed.

Lemma login_survives_restart_witness :
  state (exec (mountEffect onlyAlice) (restart aliceLoggedIn))
  = state aliceLoggedIn.
Proof.
  destruct (login_survives_restart onlyAlice "ghp_valid" alice
              (exec (mountEffect onlyAlice) (initialWorld ∅)))
    as (_ & Hstate & _).
  - discriminate.
  - reflexivity.
  - exact Hstate.
Defined.

(** X3: a logout survives a restart: whatever the session, after [logout] a
    restart of the application sends no probe (its outcome does not depend
    on the remote), shows no notification, and ends unauthenticated and not
    loading, with local storage as [logout] left it. *)
Theorem logout_survives_restart probe w :
  let w1 := exec logout w in
  let w2 := exec (mountEffect probe) (restart w1) in
  state w2 = {| isAuthenticated := false; isLoading := false;
                user := None; token := None; octokit := None |} /\
  localStorage w2 = localStorage w1 /\
  toasts w2 = [] /\ console w2 = [].
Proof.
  intros w1 w2.
  assert (truthy (localStorage (restart w1) !! github_token) = false) as Ht.
  { subst w1. unfold restart, exec. rewrite logout_run.
    cbn [snd localStorage initialWorld]. rewrite lookup_delete_eq. reflexivity. }
  subst w2. unfold exec.
  rewrite (mountEffect_idle probe (restart w1) Ht), idle_run.
  cbn. auto.
Qed.

(** X4: the provider owns one key of local storage: no run reads or writes any
    other key (the theme of the application is kept under another key of
    the same storage), so after any number of runs every other key holds
    what it held. *)
Theorem other_keys_untouched c c' (k : string) :
  steps c c' ->
  k <> github_token ->
  localStorage (fst c') !! k = localStorage (fst c) !! k.
Proof.
  intros Hsteps Hk. induction Hsteps as [c | c c' c'' _ IH Hstep].
  - reflexivity.
  - rewrite <- IH. clear IH.
    inversion Hstep; subst; cbn [fst]; unfold exec.
    + rewrite login_begin_run. reflexivity.
    + rewrite idle_run. reflexivity.
    + rewrite login_begin_run. reflexivity.
    + unfold settle, try_catch.
      destruct (fromMount p), probe as [u | e];
        rewrite ?login_resume_fulfilled, ?login_resume_rejected,
                ?autoLoginFailed_run;
        cbn [snd localStorage];
        rewrite ?lookup_insert_ne, ?lookup_delete_ne by congruence;
        reflexivity.
    + rewrite logout_run. cbn [snd localStorage].
      apply lookup_delete_ne. congruence.
Qed.

Lemma other_keys_untouched_witness :
  let start := initialWorld {[ "gist-client-theme" := "dark" ]} in
  let after := exec logout (exec (login onlyAlice "ghp_valid") start) in
  localStorage after !! "gist-client-theme" = Some "dark".
Proof.
  intros start after.
  assert (steps (start, []) (after, [])) as Hsteps.
  { eapply steps_step; [ | apply step_logout ].
    unfold exec at 1. rewrite login_runs.
    eapply steps_step.
    - eapply steps_step; [ apply steps_refl | ].
      apply (step_login start [] "ghp_valid").
    - apply (step_settle (exec login_begin start) []
               {| newToken := "ghp_valid"; fromMount := false |} []). }
  pose proof (other_keys_untouched _ _ "gist-client-theme" Hsteps) as Hsame.
  cbn [fst] in Hsame. rewrite Hsame.
  - reflexivity.
  - discriminate.
Defined.

(** X5: a token is persisted only once the remote has accepted it: if, after a
    pending login settles, local storage holds a token it did not hold
    before, that token is the one of the settled login and its probe was
    fulfilled. *)
Theorem persisted_only_when_accepted p probe w (t : string) :
  localStorage (exec (settle p probe) w) !! github_token = Some t ->
  localStorage w !! github_token <> Some t ->
  t = newToken p /\ exists u, probe = Normal u.
Proof.
  unfold settle, exec, try_catch.
  destruct (fromMount p), probe as [u | e];
    rewrite ?login_resume_fulfilled, ?login_resume_rejected,
            ?autoLoginFailed_run;
    cbn [snd localStorage]; intros Hl Hnew.
  - rewrite lookup_insert_eq in Hl. injection Hl as <-. eauto.
  - rewrite lookup_delete_eq in Hl. discriminate.
  - rewrite lookup_insert_eq in Hl. injection Hl as <-. eauto.
  - contradiction.
Qed.

Lemma persisted_only_when_accepted_witness :
  exists u,
    onlyAlice {| auth := "ghp_valid" |} = Normal u.
Proof.
  destruct (persisted_only_when_accepted
              {| newToken := "ghp_valid"; fromMount := false |}
              (onlyAlice {| auth := "ghp_valid" |})
              (initialWorld ∅) "ghp_valid") as (_ & u & Hu).
  - reflexivity.
  - discriminate.
  - exists u. exact Hu.
Defined.

(** X6: behind the guard there is always a handle: in every reachable
    configuration in which the guard renders the protected content, the
    provider holds a client handle, built from the token in memory, and an
    identity; so the early return of the pages on a missing handle is never
    taken there, and a submitted create form does send its request. *)
Theorem protected_content_has_handle c (location : Guard.Location)
    remote data p :
  reachable c ->
  Guard.ProtectedRoute (state (fst c)) location = Guard.Outlet ->
  exists t u,
    token (state (fst c)) = Some t /\
    user (state (fst c)) = Some u /\
    octokit (state (fst c)) = Some {| auth := t |} /\
    GistService.calls
      (Page.env (exec (GistCreatePage.onSubmit remote
                         (octokit (state (fst c))) data) p))
    = GistService.calls (Page.env p) ++
      [GistService.gists_create
         (or_else (GistCreatePage.description data) "")
         (GistCreatePage.buildFiles (GistCreatePage.files data))
         (GistCreatePage.public data)].
Proof.
  intros Hr Hguard.
  pose proof (coherent_reachable c Hr) as Hco.
  unfold Guard.ProtectedRoute in Hguard. unfold coherent in Hco.
  destruct (isLoading (state (fst c))); [ discriminate | ].
  destruct (isAuthenticated (state (fst c))) eqn:Ha; [ | discriminate ].
  destruct (token (state (fst c))) as [t |].
  - destruct Hco as (_ & [u Hu] & Ho).
    exists t, u. rewrite Ho.
    split; [ reflexivity | ]. split; [ exact Hu | ]. split; [ reflexivity | ].
    apply GistCreatePageSpec.create_onSubmit_run.
  - destruct Hco as (Hfalse & _). discriminate.
Qed.

Lemma protected_content_has_handle_witness :
  exists t, octokit (state aliceLoggedIn) = Some {| auth := t |}.
Proof.
  assert (reachable (aliceLoggedIn, [])) as Hr.
  { apply login_reachable, mountEffect_reachable, reachable_init. }
  destruct (protected_content_has_handle (aliceLoggedIn, []) requested
              (remoteWith (fun _ => Normal tt)) twice (Page.initial env0) Hr)
    as (t & u & _ & _ & Ho & _).
  - reflexivity.
  - exists t. exact Ho.
Defined.

End SessionSpec.

(** ** The login page and the header *)

Module LoginPageSpec.

Import Octo AuthProvider Samples AuthProviderSpec LoginPage.

Ltac page_run :=
  unfold onSubmit, try_finally, try_catch,
    setIsSubmitting, setError, navigate, useAuth, modify,
    mbind, M_bind, bind;
  cbn [isSubmitting error navigated world rendered fst snd].

(** A submission whose token the remote accepts. *)
Lemma onSubmit_accepted probe from tok u p :
  probe {| auth := tok |} = Normal u ->
  onSubmit probe from tok p =
  (Normal tt,
   {| isSubmitting := false; error := None;
      navigated := navigated p ++ [origin from];
      world := snd (login probe tok (world p));
      rendered := rendered p |}).
Proof.
  intros Hp. destruct p as [sub err nav w hooks]. page_run.
  rewrite (login_fulfilled probe tok u w Hp). reflexivity.
Qed.

(** A submission whose token the remote rejects. *)
Lemma onSubmit_rejected probe from tok e p :
  probe {| auth := tok |} = Throw e ->
  onSubmit probe from tok p =
  (Normal tt,
   {| isSubmitting := false;
      error := Some "Invalid token or authentication failed";
      navigated := navigated p;
      world := snd (login probe tok (world p));
      rendered := rendered p |}).
Proof.
  intros Hp. destruct p as [sub err nav w hooks]. page_run.
  rewrite (login_rejected probe tok e w Hp). reflexivity.
Qed.

(** X7: submitting the login form never throws and always ends with
    [isSubmitting] false.  With an accepted token it clears the error,
    authenticates the session and navigates once, to the path the visitor
    came from or to "/"; with a rejected token it navigates nowhere, shows
    the error message, and leaves the session cells (but for the loading
    flag) and local storage as they were. *)
Theorem login_form_submit probe from tok p :
  let p' := exec (onSubmit probe from tok) p in
  result (onSubmit probe from tok) p = Normal tt /\
  isSubmitting p' = false /\
  (forall u, probe {| auth := tok |} = Normal u ->
     error p' = None /\
     navigated p' = navigated p ++ [origin from] /\
     isAuthenticated (state (world p')) = true /\
     user (state (world p')) = Some u /\
     localStorage (world p') !! github_token = Some tok) /\
  (forall e, probe {| auth := tok |} = Throw e ->
     error p' = Some "Invalid token or authentication failed" /\
     navigated p' = navigated p /\
     isAuthenticated (state (world p')) = isAuthenticated (state (world p)) /\
     user (state (world p')) = user (state (world p)) /\
     token (state (world p')) = token (state (world p)) /\
     octokit (state (world p')) = octokit (state (world p)) /\
     localStorage (world p') = localStorage (world p)).
Proof.
  intros p'. subst p'. unfold exec, result.
  destruct (probe {| auth := tok |}) as [u | e] eqn:Hp.
  - rewrite (onSubmit_accepted probe from tok u p Hp).
    rewrite (login_fulfilled probe tok u (world p) Hp).
    cbn [fst snd isSubmitting error navigated world state localStorage
         isAuthenticated user].
    split; [ reflexivity | ]. split; [ reflexivity | ].
    split.
    + intros u' [= <-]. repeat split. apply lookup_insert_eq.
    + intros e' [=].
  - rewrite (onSubmit_rejected probe from tok e p Hp).
    rewrite (login_rejected probe tok e (world p) Hp).
    cbn [fst snd isSubmitting error navigated world state localStorage
         isAuthenticated user token octokit].
    split; [ reflexivity | ]. split; [ reflexivity | ].
    split.
    + intros u' [=].
    + intros e' _. repeat split.
Qed.

Lemma login_form_submit_witness :
  let p := initial (exec (mountEffect onlyAlice) (initialWorld ∅)) in
  navigated (exec (onSubmit onlyAlice (Some requested) "ghp_valid") p)
  = ["/gists/create"] /\
  navigated (exec (onSubmit onlyAlice (Some requested) "ghp_bad") p) = [] /\
  error (exec (onSubmit onlyAlice (Some requested) "ghp_bad") p)
  = Some "Invalid token or authentication failed".
Proof.
  intros p.
  destruct (login_form_submit onlyAlice (Some requested) "ghp_valid" p)
    as (_ & _ & Hok & _).
  destruct (login_form_submit onlyAlice (Some requested) "ghp_bad" p)
    as (_ & _ & _ & Hbad).
  destruct (Hok alice eq_refl) as (_ & Hnav & _).
  destruct (Hbad (RequestError 401) eq_refl) as (Herr & Hstay & _).
  split; [ exact Hnav | ]. split; [ exact Hstay | exact Herr ].
Defined.

(** X8: the way back to the requested page.  A visitor who is not logged in and
    asks for a protected location is sent to "/login" with that location.
    When the login form it shows is then submitted with an accepted token,
    the page navigates to the path of that location (its query string and
    hash are not restored), the guard lets the visitor through, and a login
    page mounted in that session redirects to the same path.  The page that
    submitted cannot render that redirect itself: its renders so far called
    [useForm], the redirect returns before it, and React aborts such a
    render. *)
Theorem back_to_requested_page probe tok u p (location : Guard.Location) :
  isLoading (state (world p)) = false ->
  isAuthenticated (state (world p)) = false ->
  rendered p = Some through_useForm ->
  Guard.pathname location <> "" ->
  probe {| auth := tok |} = Normal u ->
  Guard.ProtectedRoute (state (world p)) location
  = Guard.Navigate "/login" location true /\
  LoginPage p (Some location) = LoginForm (error p) (isSubmitting p) /\
  let p' := exec (onSubmit probe (Some location) tok) p in
  navigated p' = navigated p ++ [Guard.pathname location] /\
  Guard.ProtectedRoute (state (world p')) location = Guard.Outlet /\
  LoginPage (initial (world p')) (Some location)
  = Navigate (Guard.pathname location) true /\
  LoginPage p' (Some location) = RenderedFewerHooks.
Proof.
  intros Hload Hanon Hhooks Hpath Hp.
  assert (origin (Some location) = Guard.pathname location) as Horigin.
  { unfold origin, or_else. cbn [fmap option_fmap option_map].
    destruct (String.eqb_spec (Guard.pathname location) "") as [Heq | _];
      [ contradiction | reflexivity ]. }
  split.
  { unfold Guard.ProtectedRoute. rewrite Hload, Hanon. reflexivity. }
  split.
  { unfold LoginPage. rewrite Hanon, Hload, Hhooks. reflexivity. }
  intros p'. subst p'. unfold exec.
  rewrite (onSubmit_accepted probe (Some location) tok u p Hp).
  rewrite (login_fulfilled probe tok u (world p) Hp).
  unfold LoginPage, initial, Guard.ProtectedRoute.
  cbn [snd navigated world rendered state isAuthenticated isLoading negb].
  rewrite Horigin, Hhooks. auto.
Qed.

Lemma back_to_requested_page_witness :
  let p := commit (initial (exec (mountEffect onlyAlice) (initialWorld ∅))) in
  let p' := exec (onSubmit onlyAlice (Some requested) "ghp_valid") p in
  LoginPage p (Some requested) = LoginForm None false /\
  navigated p' = ["/gists/create"] /\
  Guard.ProtectedRoute (state (world p')) requested = Guard.Outlet /\
  LoginPage (initial (world p')) (Some requested)
  = Navigate "/gists/create" true /\
  LoginPage p' (Some requested) = RenderedFewerHooks.
Proof.
  intros p p'.
  destruct (back_to_requested_page onlyAlice "ghp_valid" alice p requested)
    as (_ & Hform & Hnav & Hguard & Hfresh & Hmounted).
  - reflexivity.
  - reflexivity.
  - reflexivity.
  - discriminate.
  - reflexivity.
  - split; [ exact Hform | ]. split; [ exact Hnav | ].
    split; [ exact Hguard | ]. split; [ exact Hfresh | exact Hmounted ].
Defined.

(** X9: logging out from the header navigates to "/login" and cannot bounce:
    whatever the session was, local storage then holds no token, the login
    page when it mounts renders its empty form (or the wait indicator, if
    the logout came while loading), never a redirect, and the guard renders
    no protected content. *)
Theorem header_logout_lands_on_login (h : Header.State) from
    (location : Guard.Location) :
  let h' := exec Header.handleLogout h in
  result Header.handleLogout h = Normal tt /\
  Header.navigated h' = Header.navigated h ++ ["/login"] /\
  localStorage (Header.world h') !! github_token = None /\
  LoginPage (initial (Header.world h')) from
  = (if isLoading (state (Header.world h)) then LoadingSpinner "lg"
     else LoginForm None false) /\
  Guard.ProtectedRoute (state (Header.world h')) location <> Guard.Outlet.
Proof.
  intros h'. subst h'. destruct h as [nav w].
  unfold exec, result, Header.handleLogout, Header.useAuth, Header.navigate,
    modify, mbind, M_bind, bind.
  cbn [Header.navigated Header.world]. rewrite logout_run.
  unfold LoginPage, initial, Guard.ProtectedRoute.
  cbn [fst snd Header.navigated Header.world world rendered state
       localStorage isAuthenticated isLoading error isSubmitting negb].
  split; [ reflexivity | ]. split; [ reflexivity | ].
  split; [ apply lookup_delete_eq | ].
  split; [ reflexivity | ].
  destruct (isLoading (state w)); discriminate.
Qed.

End LoginPageSpec.

(** ** The gist service: listing and stargazers *)

Module GistServiceMoreSpec.

Import Octo Number GistService Samples MoreSamples GistServiceSpec Listing.

Lemma getGists_rejected remote random octokit e env :
  on_list remote octokit = Throw e ->
  getGists remote random octokit env = (Throw e, sent gists_list env).
Proof.
  intros Hr. unfold getGists, request, await, modify, mbind, M_bind, bind.
  rewrite Hr. reflexivity.
Qed.

Lemma getGists_fulfilled remote random octokit data env :
  on_list remote octokit = Normal data ->
  getGists remote random octokit env =
  (Normal (annotate random (draws env) data),
   {| calls := calls env ++ [gists_list];
      draws := draws env + length data; console := console env |}).
Proof.
  intros Hr. unfold getGists, request, await, modify, mbind, M_bind, bind.
  rewrite Hr, addStargazersCount_run. reflexivity.
Qed.

Lemma getStarredGists_rejected remote random octokit e env :
  on_listStarred remote octokit = Throw e ->
  getStarredGists remote random octokit env
  = (Throw e, sent gists_listStarred env).
Proof.
  intros Hr. unfold getStarredGists, request, await, modify, mbind, M_bind, bind.
  rewrite Hr. reflexivity.
Qed.

Lemma getStarredGists_fulfilled remote random octokit data env :
  on_listStarred remote octokit = Normal data ->
  getStarredGists remote random octokit env =
  (Normal (annotate random (draws env) data),
   {| calls := calls env ++ [gists_listStarred];
      draws := draws env + length data; console := console env |}).
Proof.
  intros Hr. unfold getStarredGists, request, await, modify, mbind, M_bind, bind.
  rewrite Hr, addStargazersCount_run. reflexivity.
Qed.

(** X10: listing gists propagates the error of the remote and otherwise
    annotates what the remote returned.  [getGists] and [getStarredGists]
    each send exactly one request; when it is rejected they are rejected
    with the same error and draw no random number; when it is fulfilled they
    return the gists of the response, in the same order and unchanged but
    for the star count, and draw one number per gist. *)
Theorem listing_propagates remote random octokit (env : Env) :
  let mine := getGists remote random octokit in
  let starred := getStarredGists remote random octokit in
  calls (exec mine env) = calls env ++ [gists_list] /\
  calls (exec starred env) = calls env ++ [gists_listStarred] /\
  (forall e, on_list remote octokit = Throw e ->
     result mine env = Throw e /\ draws (exec mine env) = draws env) /\
  (forall e, on_listStarred remote octokit = Throw e ->
     result starred env = Throw e /\ draws (exec starred env) = draws env) /\
  (forall data, on_list remote octokit = Normal data ->
     exists out, result mine env = Normal out /\
                 Forall2 same_except_count data out /\
                 draws (exec mine env) = (draws env + length data)%nat) /\
  (forall data, on_listStarred remote octokit = Normal data ->
     exists out, result starred env = Normal out /\
                 Forall2 same_except_count data out /\
                 draws (exec starred env) = (draws env + length data)%nat).
Proof.
  intros mine starred. subst mine starred. unfold result, exec.
  split.
  { destruct (on_list remote octokit) as [data | e] eqn:Hr.
    - rewrite (getGists_fulfilled _ _ _ data env Hr). reflexivity.
    - rewrite (getGists_rejected _ _ _ e env Hr). reflexivity. }
  split.
  { destruct (on_listStarred remote octokit) as [data | e] eqn:Hr.
    - rewrite (getStarredGists_fulfilled _ _ _ data env Hr). reflexivity.
    - rewrite (getStarredGists_rejected _ _ _ e env Hr). reflexivity. }
  split.
  { intros e Hr. rewrite (getGists_rejected _ _ _ e env Hr).
    split; reflexivity. }
  split.
  { intros e Hr. rewrite (getStarredGists_rejected _ _ _ e env Hr).
    split; reflexivity. }
  split.
  - intros data Hr. rewrite (getGists_fulfilled _ _ _ data env Hr).
    eexists. split; [ reflexivity | ].
    split; [ apply annotate_frame | reflexivity ].
  - intros data Hr. rewrite (getStarredGists_fulfilled _ _ _ data env Hr).
    eexists. split; [ reflexivity | ].
    split; [ apply annotate_frame | reflexivity ].
Qed.

Lemma listing_propagates_witness :
  (exists out,
     result (getGists serving alternating someone) env0 = Normal out /\
     Forall2 same_except_count [gist0; gist1] out) /\
  result (getGists (remoteWith (fun _ => Normal tt)) alternating someone) env0
  = Throw (NetworkError "fetch failed").
Proof.
  split.
  - destruct (listing_propagates serving alternating someone env0)
      as (_ & _ & _ & _ & Hok & _).
    destruct (Hok [gist0; gist1] eq_refl) as (out & Hres & Hframe & _).
    exists out. split; [ exact Hres | exact Hframe ].
  - destruct (listing_propagates (remoteWith (fun _ => Normal tt)) alternating
                someone env0) as (_ & _ & Hfail & _).
    apply (Hfail (NetworkError "fetch failed")). reflexivity.
Defined.

End GistServiceMoreSpec.

Module StargazersSpec.

Import Octo GistService Samples Stargazers.

(** X11: [getGistStargazers] always sends two requests, the star check and
    then the request for the authenticated user, in that order.  It is
    rejected exactly when the second request is, also for a gist that is
    not starred; an error of the star check is never propagated.  Otherwise
    it returns at most one entry: the caller's own identity with the time of
    the call when the star check succeeded, and the empty list when it
    failed. *)
Theorem stargazers_at_most_self remote probe now octokit (id : string)
    (env : Stargazers.Env) :
  let run := getGistStargazers remote probe now octokit id in
  requests (exec run env)
  = requests env ++ [gists_request (gists_checkIsStarred id);
                     users_request octokit] /\
  (forall e, probe octokit = Throw e -> result run env = Throw e) /\
  (forall u, probe octokit = Normal u ->
     (on_checkIsStarred remote octokit id = Normal tt ->
      result run env = Normal [self u now]) /\
     (forall e, on_checkIsStarred remote octokit id = Throw e ->
      result run env = Normal []) /\
     exists out, result run env = Normal out /\ (length out <= 1)%nat).
Proof.
  intros run. subst run. destruct env as [rs d co].
  unfold result, exec, getGistStargazers, users_getAuthenticated, onService,
    isGistStarred, request, try_catch, await, modify,
    mbind, M_bind, bind, mret, M_ret, ret.
  cbn [requests Stargazers.draws Stargazers.console calls draws console].
  destruct (on_checkIsStarred remote octokit id) as [[] | e1];
    destruct (probe octokit) as [u | e2];
    cbn [fst snd requests calls app fmap list_fmap];
    rewrite <- ?app_assoc; cbn [app];
    (split; [ reflexivity | ]).
  - split; [ intros e Habs; discriminate Habs | ].
    intros u' [= <-]. split; [ reflexivity | ].
    split; [ intros e Habs; discriminate Habs | ].
    eexists. split; [ reflexivity | cbn; lia ].
  - split; [ intros e [= <-]; reflexivity | ].
    intros u' Habs. discriminate Habs.
  - split; [ intros e Habs; discriminate Habs | ].
    intros u' [= <-]. split; [ intros Habs; discriminate Habs | ].
    split; [ reflexivity | ].
    eexists. split; [ reflexivity | cbn; lia ].
  - split; [ intros e [= <-]; reflexivity | ].
    intros u' Habs. discriminate Habs.
Qed.

Lemma stargazers_at_most_self_witness :
  result (getGistStargazers (remoteWith (fun _ => Throw (RequestError 404)))
            onlyAlice "2024-05-01T12:00:00.000Z" someone "g1") quiet
  = Normal [] /\
  result (getGistStargazers (remoteWith (fun _ => Throw (RequestError 404)))
            onlyAlice "2024-05-01T12:00:00.000Z" {| auth := "ghp_bad" |} "g1")
         quiet
  = Throw (RequestError 401) /\
  requests (exec (getGistStargazers
                    (remoteWith (fun _ => Throw (RequestError 404)))
                    onlyAlice "2024-05-01T12:00:00.000Z" someone "g1") quiet)
  = [gists_request (gists_checkIsStarred "g1"); users_request someone].
Proof.
  destruct (stargazers_at_most_self
              (remoteWith (fun _ => Throw (RequestError 404))) onlyAlice
              "2024-05-01T12:00:00.000Z" someone "g1" quiet)
    as (Hsent & _ & Hok).
  destruct (stargazers_at_most_self
              (remoteWith (fun _ => Throw (RequestError 404))) onlyAlice
              "2024-05-01T12:00:00.000Z" {| auth := "ghp_bad" |} "g1" quiet)
    as (_ & Hfail & _).
  split; [ | split; [ | exact Hsent ] ].
  - destruct (Hok alice eq_refl) as (_ & Hnot & _).
    apply (Hnot (RequestError 404)). reflexivity.
  - apply (Hfail (RequestError 401)). reflexivity.
Defined.

End StargazersSpec.

(** ** Sorting *)

Module JsArraySpec.

Import JsArray.

Section Sorting.

Context {A : Type}.
Variable compare : A -> A -> Z.

Lemma insert_perm (x : A) l : insert compare x l ≡ₚ x :: l.
Proof.
  induction l as [| y l IH]; [ reflexivity | ].
  cbn [insert]. destruct (0 <? compare x y); [ | reflexivity ].
  rewrite IH. apply Permutation_swap.
Qed.

Lemma sort_perm l : sort compare l ≡ₚ l.
Proof.
  induction l as [| x l IH]; [ reflexivity | ].
  cbn [sort foldr]. fold (sort compare l).
  rewrite insert_perm, IH. reflexivity.
Qed.

(** A comparator that is consistent: what it does not put after is put
    before, transitively. *)
Variable R : A -> A -> Prop.
Hypothesis compare_before : forall a b, compare a b <= 0 -> R a b.
Hypothesis compare_after : forall a b, 0 < compare a b -> R b a.
Hypothesis R_trans : forall a b c, R a b -> R b c -> R a c.

Lemma insert_ordered (x : A) l :
  ordered R l -> ordered R (insert compare x l).
Proof.
  induction l as [| y l IH]; intros Hl.
  - cbn. auto.
  - cbn [insert]. destruct Hl as [Hy Hl].
    destruct (0 <? compare x y) eqn:Hc.
    + cbn [ordered]. split; [ | apply IH, Hl ].
      rewrite insert_perm. constructor; [ | exact Hy ].
      apply compare_after. lia.
    + assert (R x y) as Hxy by (apply compare_before; lia).
      cbn [ordered]. split; [ | split; assumption ].
      constructor; [ exact Hxy | ].
      eapply Forall_impl; [ exact Hy | ].
      intros z Hyz. eapply R_trans; eassumption.
Qed.

Lemma sort_ordered l : ordered R (sort compare l).
Proof.
  induction l as [| x l IH]; [ exact I | ].
  cbn [sort foldr]. apply insert_ordered, IH.
Qed.

End Sorting.

(** In an ordered list an earlier element stands in [R] to a later one. *)
Lemma ordered_lookup {A} (R : A -> A -> Prop) (l : list A) (i j : nat) a b :
  ordered R l -> (i < j)%nat -> l !! i = Some a -> l !! j = Some b -> R a b.
Proof.
  revert i j. induction l as [| x l IH]; intros i j Hl Hij Hi Hj.
  - discriminate.
  - destruct Hl as [Hx Hl]. destruct j as [| j]; [ lia | ].
    destruct i as [| i].
    + cbn in Hi, Hj. injection Hi as <-.
      rewrite Forall_forall in Hx. apply Hx.
      eapply list_elem_of_lookup_2, Hj.
    + cbn in Hi, Hj. apply (IH i j); [ exact Hl | lia | exact Hi | exact Hj ].
Qed.

(** The elements taken from the front of an ordered list stand in [R] to
    those left behind. *)
Lemma ordered_take_drop {A} (R : A -> A -> Prop) (l : list A) (n : nat) a b :
  ordered R l -> a ∈ take n l -> b ∈ drop n l -> R a b.
Proof.
  intros Hl Ha Hb.
  apply list_elem_of_lookup in Ha as [i Hi].
  apply list_elem_of_lookup in Hb as [j Hj].
  assert (i < n)%nat as Hin.
  { apply lookup_lt_Some in Hi. rewrite length_take in Hi. lia. }
  rewrite lookup_take_lt in Hi by exact Hin.
  rewrite lookup_drop in Hj.
  apply (ordered_lookup R l i (n + j) a b Hl); [ lia | exact Hi | exact Hj ].
Qed.

End JsArraySpec.

(** ** Fetching the two lists *)

Module ListingSpec.

Import Octo Number GistService Samples GistServiceSpec Listing.

(** [getGists] is the sending of its request followed by its run from the
    [await] on, and so is [getStarredGists]. *)
Lemma getGists_runs remote random octokit env :
  getGists remote random octokit env
  = listed random (on_list remote octokit) (sent gists_list env).
Proof. reflexivity. Qed.

Lemma getStarredGists_runs remote random octokit env :
  getStarredGists remote random octokit env
  = listed random (on_listStarred remote octokit) (sent gists_listStarred env).
Proof. reflexivity. Qed.

Lemma listed_fulfilled random data env :
  listed random (Normal data) env =
  (Normal (annotate random (draws env) data),
   {| calls := calls env; draws := draws env + length data;
      console := console env |}).
Proof.
  unfold listed, await, mbind, M_bind, bind.
  apply addStargazersCount_run.
Qed.

Lemma listed_rejected random e env :
  listed random (Throw e) env = (Throw e, env).
Proof. reflexivity. Qed.

(** Both responses fulfilled: each list is annotated with the draws made
    when its response arrived. *)
Lemma Promise_all_lists_fulfilled remote random octokit starredFirst
    mine starred env :
  on_list remote octokit = Normal mine ->
  on_listStarred remote octokit = Normal starred ->
  Promise_all_lists remote random octokit starredFirst env =
  (Normal
     (annotate random
        (if starredFirst then draws env + length starred else draws env) mine,
      annotate random
        (if starredFirst then draws env else draws env + length mine) starred),
   {| calls := calls env ++ [gists_list; gists_listStarred];
      draws := draws env + length mine + length starred;
      console := console env |}).
Proof.
  intros Hm Hs. destruct env as [cs d co].
  unfold Promise_all_lists, settled_both, modify, sent,
    mbind, M_bind, bind, mret, M_ret, ret.
  cbn [calls draws console]. rewrite Hm, Hs.
  destruct starredFirst; rewrite !listed_fulfilled; cbn [calls draws console];
    rewrite <- app_assoc; cbn [app].
  - replace (d + length starred + length mine)%nat
      with (d + length mine + length starred)%nat by lia.
    reflexivity.
  - reflexivity.
Qed.

(** One response rejected, or both: the whole is rejected, with the
    rejection that arrived first. *)
Lemma Promise_all_lists_rejected remote random octokit starredFirst env :
  (exists e, on_list remote octokit = Throw e) \/
  (exists e, on_listStarred remote octokit = Throw e) ->
  exists e env',
    Promise_all_lists remote random octokit starredFirst env = (Throw e, env') /\
    calls env' = calls env ++ [gists_list; gists_listStarred] /\
    console env' = console env.
Proof.
  intros Hrej. destruct env as [cs d co].
  unfold Promise_all_lists, settled_both, modify, sent,
    mbind, M_bind, bind, mret, M_ret, ret.
  cbn [calls draws console].
  destruct (on_list remote octokit) as [mine | e1];
    destruct (on_listStarred remote octokit) as [starred | e2].
  - destruct Hrej as [[e He] | [e He]]; discriminate.
  - destruct starredFirst; do 2 eexists;
      rewrite ?listed_rejected, ?listed_fulfilled, ?listed_rejected;
      (split; [ reflexivity | ]); cbn [calls console];
      rewrite <- app_assoc; auto.
  - destruct starredFirst; do 2 eexists;
      rewrite ?listed_rejected, ?listed_fulfilled, ?listed_rejected;
      (split; [ reflexivity | ]); cbn [calls console];
      rewrite <- app_assoc; auto.
  - destruct starredFirst; do 2 eexists;
      rewrite ?listed_rejected;
      (split; [ reflexivity | ]); cbn [calls console];
      rewrite <- app_assoc; auto.
Qed.

End ListingSpec.

(** ** The list page *)

Module GistListPageSpec.

Import Octo Number Samples MoreSamples Listing ListingSpec JsArray JsArraySpec.
Import GistListPage.

Ltac page_run :=
  unfold fetchGists, try_finally, try_catch, service, setGists,
    setStarredGists, setIsLoading, setError, console_error, modify,
    mbind, M_bind, bind, mret, M_ret, ret;
  cbn [gists starredGists isLoading error searchQuery sortField sortOrder
       filterVisibility console env fst snd].

(** X12: the fetch of the list page never throws.  It sends both list requests, whatever their
    outcome, and ends with the wait indicator off.  The two lists are
    replaced together or not at all: when both requests are fulfilled the
    page holds the gists of the two responses (each unchanged but for the
    star count) and no error; when either is rejected both lists stay as
    they were, the error message is set and one line is logged.  Without a
    client handle the effect does nothing at all, so the page stays as it
    is. *)
Theorem fetch_all_or_nothing remote random octokit starredFirst (p : State) :
  let run := fetchGists remote random (Some octokit) starredFirst in
  let p' := exec run p in
  result run p = Normal tt /\
  isLoading p' = false /\
  GistService.calls (env p')
  = GistService.calls (env p)
    ++ [GistService.gists_list; GistService.gists_listStarred] /\
  (forall mine starred,
     GistService.on_list remote octokit = Normal mine ->
     GistService.on_listStarred remote octokit = Normal starred ->
     error p' = None /\ console p' = console p /\
     Forall2 GistService.same_except_count mine (gists p') /\
     Forall2 GistService.same_except_count starred (starredGists p')) /\
  ((exists e, GistService.on_list remote octokit = Throw e) \/
   (exists e, GistService.on_listStarred remote octokit = Throw e) ->
   gists p' = gists p /\ starredGists p' = starredGists p /\
   error p' = Some "Failed to load gists. Please try again." /\
   length (console p') = S (length (console p))) /\
  exec (fetchGists remote random None starredFirst) p = p.
Proof.
  intros run p'. subst run p'.
  destruct p as [gs sgs ld er sq sf so fv co en].
  unfold exec, result.
  destruct (GistService.on_list remote octokit) as [mine | e1] eqn:Hm;
    destruct (GistService.on_listStarred remote octokit) as [starred | e2]
      eqn:Hs.
  { (* both fulfilled *)
    page_run.
    rewrite (Promise_all_lists_fulfilled remote random octokit starredFirst
               mine starred en Hm Hs).
    cbn [gists starredGists isLoading error console env fst snd
         GistService.calls].
    split; [ reflexivity | ]. split; [ reflexivity | ].
    split; [ reflexivity | ].
    split; [ | split; [ | reflexivity ] ].
    - intros mine' starred' [= <-] [= <-].
      split; [ reflexivity | ]. split; [ reflexivity | ].
      split; apply GistServiceSpec.annotate_frame.
    - intros [[e He] | [e He]]; discriminate. }
  all: page_run;
    destruct (Promise_all_lists_rejected remote random octokit starredFirst en)
      as (e & en' & Hrun & Hcalls & _);
    [ rewrite ?Hm, ?Hs; eauto | ];
    rewrite Hrun;
    cbn [gists starredGists isLoading error console env fst snd];
    (split; [ reflexivity | ]); (split; [ reflexivity | ]);
    (split; [ exact Hcalls | ]);
    (split; [ intros mine' starred' Hm' Hs'; discriminate | ]);
    (split; [ | reflexivity ]);
    intros _; repeat split; rewrite length_app; cbn; lia.
Qed.

Lemma fetch_all_or_nothing_witness :
  let p := initial env0 in
  let ok := exec (fetchGists serving alternating (Some someone) true) p in
  let ko := exec (fetchGists (remoteWith (fun _ => Normal tt)) alternating
                    (Some someone) false) p in
  (error ok = None /\
   Forall2 GistService.same_except_count [gist0; gist1] (gists ok)) /\
  (gists ko = [] /\
   error ko = Some "Failed to load gists. Please try again.").
Proof.
  intros p ok ko. split.
  - destruct (fetch_all_or_nothing serving alternating someone true p)
      as (_ & _ & _ & Hok & _).
    destruct (Hok [gist0; gist1] [gist1] eq_refl eq_refl)
      as (Herr & _ & Hmine & _).
    split; [ exact Herr | exact Hmine ].
  - destruct (fetch_all_or_nothing (remoteWith (fun _ => Normal tt))
                alternating someone false p) as (_ & _ & _ & _ & Hfail & _).
    destruct Hfail as (Hg & _ & Herr & _).
    + left. exists (NetworkError "fetch failed"). reflexivity.
    + split; [ exact Hg | exact Herr ].
Defined.

Section View.

Variable toLowerCase : string -> string.
Variable getTime : string -> Z.

Lemma view_perm (p : State) l :
  filteredGists toLowerCase getTime p l
  ≡ₚ filter (fun gist => shown toLowerCase p gist = true) l.
Proof. unfold filteredGists. apply sort_perm. Qed.

Lemma shown_visibility (p : State) gist :
  shown toLowerCase p gist = true -> visibilityMatches p gist.
Proof.
  unfold shown, visibilityMatches, isPublicFilter, isPrivateFilter.
  destruct (filterVisibility p), (GistService.public gist);
    cbn; intros H; try reflexivity; try exact I; discriminate H.
Qed.

Lemma shown_without_search (p : State) gist :
  searchQuery p = "" ->
  visibilityMatches p gist -> shown toLowerCase p gist = true.
Proof.
  unfold shown, visibilityMatches, isPublicFilter, isPrivateFilter.
  intros ->. destruct (filterVisibility p); cbn; intros Hv;
    rewrite ?Hv; reflexivity.
Qed.

(** X13: the view of the list page shows only gists of the list it is given, and
    only those of the visibility asked for; with an empty search box it
    shows every such gist, and with no filter at all it shows the whole
    list, rearranged. *)
Theorem list_view_filters (p : State) l :
  let view := filteredGists toLowerCase getTime p l in
  (forall gist, gist ∈ view -> gist ∈ l /\ visibilityMatches p gist) /\
  (length view <= length l)%nat /\
  (searchQuery p = "" ->
   forall gist, gist ∈ l -> visibilityMatches p gist -> gist ∈ view) /\
  (searchQuery p = "" -> filterVisibility p = all -> view ≡ₚ l).
Proof.
  intros view. subst view.
  split; [ | split; [ | split ] ].
  - intros gist Hin. rewrite view_perm in Hin.
    apply list_elem_of_filter in Hin as [Hshown Hin].
    split; [ exact Hin | apply shown_visibility, Hshown ].
  - rewrite view_perm. apply length_filter.
  - intros Hq gist Hin Hv. rewrite view_perm.
    apply list_elem_of_filter. split; [ | exact Hin ].
    apply shown_without_search; assumption.
  - intros Hq Hall. rewrite view_perm.
    assert (forall gist, shown toLowerCase p gist = true) as Hshown.
    { intros gist. apply shown_without_search; [ exact Hq | ].
      unfold visibilityMatches. rewrite Hall. exact I. }
    clear Hq Hall. induction l as [| gist l IH]; [ reflexivity | ].
    rewrite filter_cons_True by apply Hshown. rewrite IH. reflexivity.
Qed.

(** X14: the view is sorted by the field and in the order chosen: of two gists
    shown, the earlier one has the larger value of that field (update time,
    creation time or star count) under "desc", the smaller one under
    "asc", or the same. *)
Theorem list_view_in_order (p : State) l (i j : nat) a b :
  let view := filteredGists toLowerCase getTime p l in
  (i < j)%nat -> view !! i = Some a -> view !! j = Some b ->
  inOrder getTime p a b.
Proof.
  intros view Hij Hi Hj. subst view. unfold filteredGists in Hi, Hj.
  refine (ordered_lookup (inOrder getTime p) _ i j a b _ Hij Hi Hj).
  apply (sort_ordered (compare getTime p)).
  - intros x y. unfold compare, inOrder, key.
    destruct (sortOrder p), (sortField p); lia.
  - intros x y. unfold compare, inOrder, key.
    destruct (sortOrder p), (sortField p); lia.
  - intros x y z. unfold inOrder. destruct (sortOrder p); lia.
Qed.

End View.

Lemma list_view_filters_witness :
  gist0 ∈ filteredGists sampleLower sampleTime (initial env0) [gist0; gist1].
Proof.
  destruct (list_view_filters sampleLower sampleTime (initial env0)
              [gist0; gist1]) as (_ & _ & Hcomplete & _).
  apply Hcomplete.
  - reflexivity.
  - left.
  - exact I.
Defined.

Lemma list_view_in_order_witness :
  sampleTime (GistService.updated_at gist0)
  <= sampleTime (GistService.updated_at gist1).
Proof.
  apply (list_view_in_order sampleLower sampleTime (initial env0)
           [gist0; gist1] 0 1 gist1 gist0).
  - lia.
  - reflexivity.
  - reflexivity.
Defined.

End GistListPageSpec.

(** ** The dashboard *)

Module DashboardSpec.

Import Octo Number Samples MoreSamples Listing ListingSpec JsArray JsArraySpec.
Import Dashboard.

Ltac page_run :=
  unfold fetchData, try_finally, try_catch, service, setRecentGists,
    setStarredGists, setIsLoading, setError, console_error, modify,
    mbind, M_bind, bind, mret, M_ret, ret;
  cbn [recentGists starredGists isLoading error console env fst snd].

Lemma byUpdated_ordered getTime l :
  ordered (fun a b => getTime (GistService.updated_at b)
                      <= getTime (GistService.updated_at a))
          (sort (byUpdated getTime) l).
Proof.
  apply (sort_ordered (byUpdated getTime)); unfold byUpdated; intros; lia.
Qed.

Lemma byStars_ordered l :
  ordered (fun a b => starsOf b <= starsOf a) (sort byStars l).
Proof.
  apply (sort_ordered byStars); unfold byStars, starsOf; intros; lia.
Qed.

(** X15: the dashboard shows at most five gists in each of its two lists, and
    the five it shows are the first: when both requests are fulfilled, the
    gists fetched (those of the response, with their star counts) are the
    ones shown together with the ones left out, no gist left out was
    updated after a recent gist shown, and none has more stars than a
    starred gist shown.  When either request is rejected both lists stay as
    they were and the error message is set. *)
Theorem dashboard_top_five remote random getTime octokit starredFirst
    (p : State) :
  let p' := exec (fetchData remote random getTime (Some octokit) starredFirst)
                 p in
  isLoading p' = false /\
  (forall mine starred,
     GistService.on_list remote octokit = Normal mine ->
     GistService.on_listStarred remote octokit = Normal starred ->
     length (recentGists p') = Nat.min 5 (length mine) /\
     length (starredGists p') = Nat.min 5 (length starred) /\
     exists fetched fetchedStarred rest restStarred,
       Forall2 GistService.same_except_count mine fetched /\
       Forall2 GistService.same_except_count starred fetchedStarred /\
       fetched ≡ₚ recentGists p' ++ rest /\
       fetchedStarred ≡ₚ starredGists p' ++ restStarred /\
       (forall a b, a ∈ recentGists p' -> b ∈ rest ->
          getTime (GistService.updated_at b)
          <= getTime (GistService.updated_at a)) /\
       (forall a b, a ∈ starredGists p' -> b ∈ restStarred ->
          starsOf b <= starsOf a)) /\
  ((exists e, GistService.on_list remote octokit = Throw e) \/
   (exists e, GistService.on_listStarred remote octokit = Throw e) ->
   recentGists p' = recentGists p /\ starredGists p' = starredGists p /\
   error p' = Some "Failed to load dashboard data. Please try again.").
Proof.
  intros p'. subst p'.
  destruct p as [rs sgs ld er co en].
  unfold exec.
  destruct (GistService.on_list remote octokit) as [mine | e1] eqn:Hm;
    destruct (GistService.on_listStarred remote octokit) as [starred | e2]
      eqn:Hs.
  { page_run.
    rewrite (Promise_all_lists_fulfilled remote random octokit starredFirst
               mine starred en Hm Hs).
    cbn [recentGists starredGists isLoading error console env fst snd].
    set (fetched := GistService.annotate random _ mine).
    set (fetchedStarred := GistService.annotate random _ starred).
    split; [ reflexivity | ].
    split; [ | intros [[e He] | [e He]]; discriminate ].
    intros mine' starred' [= <-] [= <-].
    assert (length fetched = length mine) as Hlen
      by (subst fetched; apply length_imap).
    assert (length fetchedStarred = length starred) as HlenS
      by (subst fetchedStarred; apply length_imap).
    split.
    { rewrite length_take, (Permutation_length (sort_perm _ fetched)), Hlen.
      reflexivity. }
    split.
    { rewrite length_take,
        (Permutation_length (sort_perm _ fetchedStarred)), HlenS.
      reflexivity. }
    exists fetched, fetchedStarred,
      (drop 5 (sort (byUpdated getTime) fetched)),
      (drop 5 (sort byStars fetchedStarred)).
    split; [ apply GistServiceSpec.annotate_frame | ].
    split; [ apply GistServiceSpec.annotate_frame | ].
    split; [ rewrite take_drop; symmetry; apply sort_perm | ].
    split; [ rewrite take_drop; symmetry; apply sort_perm | ].
    split.
    - intros a b Ha Hb.
      exact (ordered_take_drop _ _ 5 a b (byUpdated_ordered getTime fetched)
               Ha Hb).
    - intros a b Ha Hb.
      exact (ordered_take_drop _ _ 5 a b (byStars_ordered fetchedStarred)
               Ha Hb). }
  all: page_run;
    destruct (Promise_all_lists_rejected remote random octokit starredFirst en)
      as (e & en' & Hrun & _);
    [ rewrite ?Hm, ?Hs; eauto | ];
    rewrite Hrun;
    cbn [recentGists starredGists isLoading error console env fst snd];
    (split; [ reflexivity | ]);
    (split; [ intros mine' starred' Hm' Hs'; discriminate | ]);
    intros _; repeat split.
Qed.

Lemma dashboard_top_five_witness :
  let ok := exec (fetchData serving alternating sampleTime (Some someone) false)
                 (initial env0) in
  let ko := exec (fetchData (remoteWith (fun _ => Normal tt)) alternating
                    sampleTime (Some someone) true) (initial env0) in
  (length (recentGists ok) = 2%nat /\ length (starredGists ok) = 1%nat) /\
  (recentGists ko = [] /\
   error ko = Some "Failed to load dashboard data. Please try again.").
Proof.
  intros ok ko. split.
  - destruct (dashboard_top_five serving alternating sampleTime someone false
                (initial env0)) as (_ & Hok & _).
    destruct (Hok [gist0; gist1] [gist1] eq_refl eq_refl)
      as (Hrecent & Hstarred & _).
    split; [ exact Hrecent | exact Hstarred ].
  - destruct (dashboard_top_five (remoteWith (fun _ => Normal tt)) alternating
                sampleTime someone true (initial env0)) as (_ & _ & Hfail).
    destruct Hfail as (Hr & _ & Herr).
    + right. exists (NetworkError "fetch failed"). reflexivity.
    + split; [ exact Hr | exact Herr ].
Defined.

End DashboardSpec.

(** ** The edit form, from loading to sending *)

Module GistEditFormSpec.

Import Octo GistService GistEditPage GistEditPageSpec GistEditForm.
Import Samples MoreSamples JsObject JsObjectSpec.

(** With pairwise distinct keys no entry is overwritten. *)
Lemma keys_after_distinct files (i : nat) file (k : string) :
  NoDup (files ≫= keysOf) ->
  files !! i = Some file -> k ∈ keysOf file -> k ∉ keysAfter i files.
Proof.
  intros Hnd Hi Hk. unfold keysAfter.
  rewrite <- (take_drop_middle files i file Hi) in Hnd.
  rewrite bind_app, bind_cons in Hnd.
  apply NoDup_app in Hnd as (_ & _ & Hnd).
  apply NoDup_app in Hnd as (_ & Hdisj & _).
  apply Hdisj, Hk.
Qed.

(** ... nor has an earlier entry assigned the key. *)
Lemma keys_before_distinct files (i : nat) file (k : string) :
  NoDup (files ≫= keysOf) ->
  files !! i = Some file -> k ∈ keysOf file -> k ∉ take i files ≫= keysOf.
Proof.
  intros Hnd Hi Hk Hbefore.
  rewrite <- (take_drop_middle files i file Hi) in Hnd.
  rewrite bind_app, bind_cons in Hnd.
  apply NoDup_app in Hnd as (_ & Hdisj & _).
  apply (Hdisj k Hbefore). apply elem_of_app. left. exact Hk.
Qed.

Lemma buildFiles_exact files (i : nat) file (k : string) :
  NoDup (files ≫= keysOf) ->
  files !! i = Some file -> k ∈ keysOf file ->
  buildFiles files !! k
  = own (assignFile (foldl assignFile empty (take i files)) file) !! k.
Proof.
  intros Hnd Hi Hk.
  apply (buildFiles_at files i file k Hi
           (keys_after_distinct files i file k Hnd Hi Hk)).
Qed.

Lemma buildFiles_none files (k : string) :
  k ∉ files ≫= keysOf -> buildFiles files !! k = None.
Proof.
  intros Hk. unfold buildFiles.
  rewrite (foldl_assignFile_other files empty k Hk). apply lookup_empty.
Qed.

(** Entries that do not assign "__proto__" leave the prototype of the record
    as it is. *)
Lemma foldl_assignFile_prototype files filesObj :
  "__proto__" ∉ files ≫= keysOf ->
  prototype (foldl assignFile filesObj files) = prototype filesObj.
Proof.
  revert filesObj. induction files as [| file files IH]; intros filesObj Hk.
  - reflexivity.
  - cbn [foldl]. rewrite bind_cons in Hk.
    apply not_elem_of_app in Hk as [Hfile Hfiles].
    rewrite (IH _ Hfiles). clear IH.
    rewrite assignFile_cases. unfold keysOf in Hfile. cbn zeta.
    destruct (deletedExisting file); [ | destruct (renamed file) ].
    + apply prototype_set. intros Heq. apply Hfile. rewrite Heq. left.
    + rewrite !prototype_set; [ reflexivity | | ].
      * intros Heq. apply Hfile. rewrite Heq. left.
      * intros Heq. apply Hfile. rewrite Heq. right. left.
    + apply prototype_set. intros Heq. apply Hfile. rewrite Heq. left.
Qed.

(** An entry gives a record that still has a prototype no property
    "__proto__". *)
Lemma assignFile_no_proto_property filesObj file :
  own filesObj !! "__proto__" = None ->
  prototype filesObj <> no_prototype ->
  own (assignFile filesObj file) !! "__proto__" = None.
Proof.
  intros Hown Hproto. rewrite assignFile_cases. cbn zeta.
  destruct (deletedExisting file) eqn:Hdel;
    [ | destruct (renamed file) eqn:Hren ].
  - apply set_no_proto_property; auto.
  - destruct (renamed_names file Hren) as [_ Hne].
    apply set_no_proto_property.
    + apply set_no_proto_property; auto.
    + intros Heq. rewrite prototype_set; [ exact Hproto | congruence ].
  - apply set_no_proto_property; auto.
Qed.

(** With pairwise distinct keys the payload has no entry "__proto__". *)
Lemma buildFiles_proto_key files :
  NoDup (files ≫= keysOf) -> buildFiles files !! "__proto__" = None.
Proof.
  intros Hnd.
  destruct (decide ("__proto__" ∈ files ≫= keysOf)) as [Hin | Hout];
    [ | apply buildFiles_none, Hout ].
  apply list_elem_of_bind in Hin as (file & Hkey & Hfile).
  apply list_elem_of_lookup in Hfile as [i Hi].
  rewrite (buildFiles_exact files i file _ Hnd Hi Hkey).
  pose proof (keys_before_distinct files i file _ Hnd Hi Hkey) as Hbefore.
  apply assignFile_no_proto_property.
  - rewrite (foldl_assignFile_other _ _ _ Hbefore). apply lookup_empty.
  - rewrite (foldl_assignFile_prototype _ _ Hbefore). discriminate.
Qed.

(** X16: when the keys the entries of the edit form assign are pairwise
    distinct, nothing is overwritten.  For keys other than "__proto__":
    every deleted existing file maps its original filename to the deletion
    marker, every renamed file maps its original filename to the deletion
    marker and its current filename to its content, and every other entry
    maps its filename to its content.  The payload has no entry
    "__proto__", whatever the form assigns to that name, and no key that no
    entry assigns. *)
Theorem edit_payload_distinct_keys files :
  NoDup (files ≫= keysOf) ->
  let filesObj := buildFiles files in
  (forall (i : nat) file, files !! i = Some file ->
     let original := default "" (originalFilename file) in
     let current := obj {| file_content := content file |} in
     (deletedExisting file = true -> original <> "__proto__" ->
      filesObj !! original = Some null) /\
     (renamed file = true ->
      (original <> "__proto__" -> filesObj !! original = Some null) /\
      (filename file <> "__proto__" ->
       filesObj !! filename file = Some current)) /\
     (deletedExisting file = false -> renamed file = false ->
      filename file <> "__proto__" ->
      filesObj !! filename file = Some current)) /\
  filesObj !! "__proto__" = None /\
  (forall k : string, k ∉ files ≫= keysOf -> filesObj !! k = None).
Proof.
  intros Hnd filesObj. subst filesObj.
  split; [ | split; [ apply buildFiles_proto_key, Hnd
                    | intros k; apply buildFiles_none ] ].
  intros i file Hi original current. subst original current.
  destruct (assignFile_at (foldl assignFile empty (take i files)) file)
    as (Hdeleted & Hrenamed & Hplain).
  split; [ | split ].
  - intros Hdel Hkey.
    rewrite (buildFiles_exact files i file _ Hnd Hi); [ auto | ].
    unfold keysOf. rewrite Hdel. left.
  - intros Hren. destruct (renamed_names file Hren) as [Hdel _].
    destruct (Hrenamed Hren) as [Hold Hnew].
    split; intros Hkey.
    + rewrite (buildFiles_exact files i file _ Hnd Hi); [ auto | ].
      unfold keysOf. rewrite Hdel, Hren. left.
    + rewrite (buildFiles_exact files i file _ Hnd Hi); [ auto | ].
      unfold keysOf. rewrite Hdel, Hren. right. left.
  - intros Hdel Hren Hkey.
    rewrite (buildFiles_exact files i file _ Hnd Hi); [ auto | ].
    unfold keysOf. rewrite Hdel, Hren. left.
Qed.

Lemma edit_payload_distinct_keys_witness :
  buildFiles [a_deleted; b_renamed] !! "a.txt" = Some null /\
  buildFiles [proto_deleted; b_renamed] !! "__proto__" = None /\
  buildFiles [a_deleted; b_renamed] !! "d.txt" = None.
Proof.
  assert (NoDup ([a_deleted; b_renamed] ≫= keysOf)) as Hnd.
  { apply (bool_decide_eq_true_1 (NoDup ([a_deleted; b_renamed] ≫= keysOf))).
    reflexivity. }
  assert (NoDup ([proto_deleted; b_renamed] ≫= keysOf)) as Hnd'.
  { apply (bool_decide_eq_true_1
             (NoDup ([proto_deleted; b_renamed] ≫= keysOf))).
    reflexivity. }
  destruct (edit_payload_distinct_keys [a_deleted; b_renamed] Hnd)
    as (Hall & _ & Hnone).
  destruct (edit_payload_distinct_keys [proto_deleted; b_renamed] Hnd')
    as (_ & Hproto & _).
  split; [ | split; [ exact Hproto | ] ].
  - destruct (Hall 0%nat a_deleted eq_refl) as (Hdel & _).
    apply Hdel; [ reflexivity | discriminate ].
  - apply Hnone.
    apply (bool_decide_eq_true_1
             ("d.txt" ∉ [a_deleted; b_renamed] ≫= keysOf)).
    reflexivity.
Defined.

(** *** Loading a gist into the form *)

Lemma keysOf_entryOf (k : string) (file : GistFile) :
  keysOf (entryOf (k, file)) = [k].
Proof.
  unfold keysOf, renamed, deletedExisting, entryOf.
  cbn [isDeleted originalFilename filename andb negb default].
  rewrite String.eqb_refl, andb_false_r. reflexivity.
Qed.

Lemma keys_of_loaded (entries : list (string * GistFile)) :
  (entryOf <$> entries) ≫= keysOf = entries.*1.
Proof.
  induction entries as [| [k file] entries IH]; [ reflexivity | ].
  rewrite fmap_cons, bind_cons, keysOf_entryOf, IH. reflexivity.
Qed.

Lemma entries_NoDup (m : gmap string GistFile) entries :
  entriesOf m entries -> NoDup entries.*1.
Proof.
  intros Hperm. unfold entriesOf in Hperm. rewrite Hperm.
  apply NoDup_fst_map_to_list.
Qed.

Lemma entries_lookup (m : gmap string GistFile) entries (k : string) file :
  entriesOf m entries ->
  m !! k = Some file -> exists i : nat, entries !! i = Some (k, file).
Proof.
  intros Hperm Hk. apply list_elem_of_lookup.
  unfold entriesOf in Hperm. rewrite Hperm.
  apply elem_of_map_to_list. exact Hk.
Qed.

Lemma entries_absent (m : gmap string GistFile) entries (k : string) :
  entriesOf m entries -> m !! k = None -> k ∉ entries.*1.
Proof.
  intros Hperm Hk Hin. unfold entriesOf in Hperm. rewrite Hperm in Hin.
  apply list_elem_of_fmap in Hin as ([k' file] & -> & Hin).
  apply elem_of_map_to_list in Hin. cbn in Hk. congruence.
Qed.

(** What a freshly loaded entry leaves at its key. *)
Lemma loaded_entry_at filesObj (k : string) (file : GistFile) :
  k <> "__proto__" ->
  own (assignFile filesObj (entryOf (k, file))) !! k
  = Some (obj {| file_content := GistService.content file |}).
Proof.
  intros Hkey.
  destruct (assignFile_at filesObj (entryOf (k, file))) as (_ & _ & Hplain).
  apply Hplain; [ | | exact Hkey ];
    unfold renamed, deletedExisting, entryOf;
    cbn [isDeleted originalFilename filename andb negb default];
    rewrite ?String.eqb_refl, ?andb_false_r; reflexivity.
Qed.

(** X17: saving without editing sends the gist back as it is, but for a file
    named "__proto__".  Whatever the order in which the files of the fetched
    gist are listed, the payload built from the freshly loaded form maps
    every other filename of the gist to the content fetched for it, and
    holds no deletion marker and no other key; a file named "__proto__" is
    left out of it. *)
Theorem edit_unchanged_round_trip description
    (m : gmap string GistFile) entries :
  entriesOf m entries ->
  buildFiles (files (populate description entries))
  = delete "__proto__" (unchanged m).
Proof.
  intros Hperm. cbn [populate files].
  assert (NoDup ((entryOf <$> entries) ≫= keysOf)) as Hnd.
  { rewrite keys_of_loaded. eapply entries_NoDup, Hperm. }
  apply map_eq. intros k.
  destruct (decide (k = "__proto__")) as [-> | Hkey].
  { rewrite lookup_delete_eq. apply buildFiles_proto_key, Hnd. }
  rewrite lookup_delete_ne by congruence.
  unfold unchanged. rewrite lookup_fmap.
  destruct (m !! k) as [file |] eqn:Hk; cbn [fmap option_fmap option_map].
  - destruct (entries_lookup m entries k file Hperm Hk) as [i Hi].
    rewrite (buildFiles_exact _ i (entryOf (k, file)) k Hnd).
    + apply loaded_entry_at, Hkey.
    + rewrite list_lookup_fmap, Hi. reflexivity.
    + rewrite keysOf_entryOf. left.
  - apply buildFiles_none. rewrite keys_of_loaded.
    eapply entries_absent; eassumption.
Qed.

Lemma edit_unchanged_round_trip_witness :
  buildFiles (files (populate "demo" (map_to_list (GistService.files gist0))))
  !! "a.txt"
  = Some (obj {| file_content := "hello" |}).
Proof.
  rewrite (edit_unchanged_round_trip "demo" (GistService.files gist0)
             (map_to_list (GistService.files gist0))).
  - reflexivity.
  - unfold entriesOf. reflexivity.
Defined.

(** X18: deleting a file of a gist, end to end: after the gist is loaded into
    the form and the file named [k] is marked as deleted, the entry stays in
    the form, and the payload maps [k] to the deletion marker and every
    other file of the gist, but one named "__proto__", to its fetched
    content, and nothing else.  When [k] itself is "__proto__" the payload
    holds no deletion marker: it is the one of the gist sent back
    unchanged. *)
Theorem edit_delete_round_trip description (m : gmap string GistFile)
    entries (i : nat) (k : string) file :
  entriesOf m entries ->
  entries !! i = Some (k, file) ->
  k <> "" ->
  exists data',
    markFileAsDeleted i (populate description entries) = Some data' /\
    length (files data') = length entries /\
    (k <> "__proto__" ->
     buildFiles (files data')
     = <[k := null]> (delete "__proto__" (unchanged m))) /\
    (k = "__proto__" ->
     buildFiles (files data') = delete "__proto__" (unchanged m)).
Proof.
  intros Hperm Hi Hk.
  assert (truthy (Some k) = true) as Htruthy.
  { unfold truthy. destruct (String.eqb_spec k "") as [Heq | _];
      [ contradiction | reflexivity ]. }
  set (deleted := {| originalFilename := Some k; filename := k;
                     content := GistService.content file;
                     isDeleted := true |}).
  assert (deletedExisting deleted = true) as Hdel.
  { unfold deletedExisting, deleted. cbn [isDeleted originalFilename andb].
    exact Htruthy. }
  assert (keysOf deleted = [k]) as Hkeys.
  { unfold keysOf. rewrite Hdel. reflexivity. }
  exists (setIsDeleted i true (populate description entries)).
  split.
  { unfold markFileAsDeleted. cbn [populate files].
    rewrite list_lookup_fmap, Hi. cbn [fmap option_fmap option_map entryOf
      originalFilename]. rewrite Htruthy. reflexivity. }
  cbn [setIsDeleted populate files].
  set (files' := alter _ i (entryOf <$> entries)).
  assert (files' !! i = Some deleted) as Hdeleted.
  { subst files'. rewrite list_lookup_alter_eq, list_lookup_fmap, Hi.
    reflexivity. }
  assert (forall j : nat, j <> i ->
            files' !! j = entryOf <$> (entries !! j)) as Hother.
  { intros j Hj. subst files'.
    rewrite list_lookup_alter_ne by congruence.
    apply list_lookup_fmap. }
  assert (files' ≫= keysOf = entries.*1) as Hsame.
  { apply list_eq. intros n.
    assert (forall l : list FormFile,
               Forall (fun f => exists key, keysOf f = [key]) l ->
               (l ≫= keysOf) !! n
               = (l !! n) ≫= (fun f => head (keysOf f))) as Hsingle.
    { intros l Hl. revert n.
      induction Hl as [| f l [key Hkey] _ IH]; intros n; [ reflexivity | ].
      rewrite bind_cons, Hkey. destruct n as [| n]; cbn.
      - rewrite Hkey. reflexivity.
      - apply IH. }
    rewrite Hsingle.
    - rewrite list_lookup_fmap.
      destruct (decide (n = i)) as [-> | Hn].
      + rewrite Hdeleted, Hi.
        cbn [fmap option_fmap option_map mbind option_bind fst].
        rewrite Hkeys. reflexivity.
      + rewrite (Hother n Hn).
        destruct (entries !! n) as [[k' file'] |]; [ | reflexivity ].
        cbn [fmap option_fmap option_map mbind option_bind fst].
        rewrite keysOf_entryOf. reflexivity.
    - apply Forall_lookup. intros j f Hj.
      destruct (decide (j = i)) as [-> | Hne].
      + rewrite Hdeleted in Hj. injection Hj as <-. eauto.
      + rewrite (Hother j Hne) in Hj.
        destruct (entries !! j) as [[k' file'] |]; [ | discriminate ].
        injection Hj as <-. exists k'. apply keysOf_entryOf. }
  assert (NoDup (files' ≫= keysOf)) as Hnd.
  { rewrite Hsame. eapply entries_NoDup, Hperm. }
  split.
  { subst files'. rewrite length_alter, length_fmap. reflexivity. }
  (* the payload at a key other than "__proto__" and other than [k] *)
  assert (forall k' : string, k' <> "__proto__" -> k' <> k ->
            buildFiles files' !! k' = unchanged m !! k') as Hrest.
  { intros k' Hkey Hne. unfold unchanged. rewrite lookup_fmap.
    destruct (m !! k') as [file' |] eqn:Hk';
      cbn [fmap option_fmap option_map].
    - destruct (entries_lookup m entries k' file' Hperm Hk') as [j Hj].
      assert (j <> i) as Hji.
      { intros ->. rewrite Hi in Hj. congruence. }
      rewrite (buildFiles_exact files' j (entryOf (k', file')) k' Hnd).
      + apply loaded_entry_at, Hkey.
      + rewrite (Hother j Hji), Hj. reflexivity.
      + rewrite keysOf_entryOf. left.
    - apply buildFiles_none. rewrite Hsame.
      eapply entries_absent; eassumption. }
  split.
  - intros Hkey. apply map_eq. intros k'.
    destruct (decide (k' = k)) as [-> | Hne].
    + rewrite lookup_insert_eq.
      rewrite (buildFiles_exact files' i deleted k Hnd Hdeleted).
      * destruct (assignFile_at (foldl assignFile empty (take i files'))
                    deleted) as (Hmarked & _).
        apply Hmarked; [ exact Hdel | exact Hkey ].
      * rewrite Hkeys. left.
    + rewrite lookup_insert_ne by congruence.
      destruct (decide (k' = "__proto__")) as [-> | Hkey'].
      * rewrite lookup_delete_eq. apply buildFiles_proto_key, Hnd.
      * rewrite lookup_delete_ne by congruence. apply Hrest; assumption.
  - intros ->. apply map_eq. intros k'.
    destruct (decide (k' = "__proto__")) as [-> | Hkey'].
    + rewrite lookup_delete_eq. apply buildFiles_proto_key, Hnd.
    + rewrite lookup_delete_ne by congruence. apply Hrest; assumption.
Qed.

Lemma edit_delete_round_trip_witness :
  exists data',
    markFileAsDeleted 0
      (populate "demo" (map_to_list (GistService.files gist0))) = Some data' /\
    buildFiles (files data') !! "a.txt" = Some null.
Proof.
  destruct (edit_delete_round_trip "demo" (GistService.files gist0)
              (map_to_list (GistService.files gist0)) 0 "a.txt"
              {| GistService.filename := "a.txt";
                 GistService.content := "hello";
                 language := Some "Text"; type := None; raw_url := None;
                 size := Some 5%Z |})
    as (data' & Hmark & _ & Hpayload & _).
  - unfold entriesOf. reflexivity.
  - reflexivity.
  - discriminate.
  - exists data'. split; [ exact Hmark | ].
    rewrite Hpayload by discriminate. apply lookup_insert_eq.
Defined.

(** *** Marking and restoring *)

(** X19: marking a file as deleted treats files of the gist and files added in
    the form differently.  An entry with a (non-empty) original filename is
    kept and flagged, no other entry changes, and restoring it gives back
    the form as it was if the entry was not flagged before.  An entry
    without one is removed from the form, which gets one entry shorter. *)
Theorem mark_and_restore (data : GistFormValues) (i : nat) file :
  files data !! i = Some file ->
  (truthy (originalFilename file) = true ->
   exists data',
     markFileAsDeleted i data = Some data' /\
     length (files data') = length (files data) /\
     (isDeleted <$> files data' !! i) = Some true /\
     (forall j : nat, j <> i -> files data' !! j = files data !! j) /\
     (isDeleted file = false -> restoreFile i data' = Some data)) /\
  (truthy (originalFilename file) = false ->
   markFileAsDeleted i data = Some (remove i data) /\
   S (length (files (remove i data))) = length (files data) /\
   (forall j : nat, (j < i)%nat ->
      files (remove i data) !! j = files data !! j) /\
   (forall j : nat, (i <= j)%nat ->
      files (remove i data) !! j = files data !! S j)).
Proof.
  intros Hi. destruct data as [description files].
  cbn [GistEditPage.files] in *.
  split; intros Htruthy.
  - exists (setIsDeleted i true
              {| GistEditPage.description := description;
                 GistEditPage.files := files |}).
    unfold markFileAsDeleted, restoreFile, setIsDeleted.
    cbn [GistEditPage.files GistEditPage.description].
    rewrite Hi, Htruthy.
    split; [ reflexivity | ].
    split; [ apply length_alter | ].
    split; [ rewrite list_lookup_alter_eq, Hi; reflexivity | ].
    split; [ intros j Hj; apply list_lookup_alter_ne; congruence | ].
    intros Hnot. rewrite list_lookup_alter_eq, Hi.
    cbn [fmap option_fmap option_map]. f_equal. f_equal.
    apply list_eq. intros j.
    destruct (decide (j = i)) as [-> | Hj].
    + rewrite !list_lookup_alter_eq, Hi.
      cbn [fmap option_fmap option_map originalFilename filename content].
      destruct file as [orig name text del]. cbn in Hnot. subst del.
      reflexivity.
    + rewrite !list_lookup_alter_ne by congruence. reflexivity.
  - unfold markFileAsDeleted, remove.
    cbn [GistEditPage.files GistEditPage.description].
    rewrite Hi, Htruthy.
    split; [ reflexivity | ].
    split.
    { rewrite length_delete by (rewrite Hi; eauto).
      apply lookup_lt_Some in Hi. lia. }
    split.
    + intros j Hj. apply list_lookup_delete_lt. exact Hj.
    + intros j Hj. apply list_lookup_delete_ge. exact Hj.
Qed.

Lemma mark_and_restore_witness :
  let data := {| description := Some "demo"; files := [a_loaded; b_renamed] |} in
  exists data',
    markFileAsDeleted 0 data = Some data' /\
    restoreFile 0 data' = Some data.
Proof.
  intros data.
  destruct (mark_and_restore data 0 a_loaded eq_refl) as [Hkept _].
  destruct (Hkept eq_refl) as (data' & Hmark & _ & _ & _ & Hrestore).
  exists data'. split; [ exact Hmark | ].
  apply Hrestore. reflexivity.
Defined.

End GistEditFormSpec.

(** ** The create form *)

Module GistCreateFormSpec.

Import Octo GistCreatePage GistCreatePageSpec GistCreateForm.
Import Samples JsObject JsObjectSpec.

(** Every entry of the record comes from an entry of the form. *)
Lemma buildFiles_from_form files (k : string) c :
  buildFiles files !! k = Some c ->
  exists file, file ∈ files /\ filename file = k /\
               content file = GistService.file_content c.
Proof.
  unfold buildFiles.
  assert (forall acc : Obj GistService.FileContent GistService.FileContent,
             own (foldl insertFile acc files) !! k = Some c ->
             own acc !! k = Some c \/
             exists file, file ∈ files /\ filename file = k /\
                          content file = GistService.file_content c) as Hgen.
  { induction files as [| file files IH]; intros acc Hk.
    - left. exact Hk.
    - cbn [foldl] in Hk. destruct (IH _ Hk) as [Hacc | (f & Hin & Hf)].
      + unfold insertFile in Hacc.
        apply lookup_set_Some in Hacc as [Hacc | [-> ->]].
        * left. exact Hacc.
        * right. exists file. split; [ left | ]. split; reflexivity.
      + right. exists f. split; [ right; exact Hin | exact Hf ]. }
  intros Hk. destruct (Hgen empty Hk) as [Hempty | Hfile]; [ | exact Hfile ].
  cbn [empty own] in Hempty. rewrite lookup_empty in Hempty. discriminate.
Qed.

(** The record of the create form keeps its prototype, whose setter takes
    every assignment to "__proto__": the record never has a property of
    that name. *)
Lemma buildFiles_proto_entry files : buildFiles files !! "__proto__" = None.
Proof.
  unfold buildFiles.
  assert (forall acc : Obj GistService.FileContent GistService.FileContent,
             own acc !! "__proto__" = None ->
             prototype acc <> no_prototype ->
             own (foldl insertFile acc files) !! "__proto__" = None) as Hgen.
  { induction files as [| file files IH]; intros acc Hown Hproto.
    - exact Hown.
    - cbn [foldl]. apply IH; unfold insertFile.
      + apply set_no_proto_property; auto.
      + apply set_keeps_prototype; [ discriminate | exact Hproto ]. }
  apply Hgen; [ apply lookup_empty | discriminate ].
Qed.

(** X20: what a form that passes validation sends.  The record has at most as
    many files as the form has entries, none of them named "__proto__" or
    with an empty filename or an empty content; and it has a file exactly
    when the form has an entry named otherwise than "__proto__" (a form
    whose entries are all named "__proto__" passes validation and sends an
    empty record). *)
Theorem create_valid_payload (data : GistFormValues) :
  gistFormSchema data = true ->
  let filesObj := buildFiles (files data) in
  (filesObj <> ∅ <->
   exists file, file ∈ files data /\ filename file <> "__proto__") /\
  (size filesObj <= length (files data))%nat /\
  filesObj !! "__proto__" = None /\
  (forall (k : string) c, filesObj !! k = Some c ->
     k <> "" /\ GistService.file_content c <> "").
Proof.
  intros Hvalid filesObj. subst filesObj. unfold gistFormSchema in Hvalid.
  apply andb_true_iff in Hvalid as [Hall Hlen].
  rewrite forallb_forall in Hall.
  split; [ | split; [ | split; [ apply buildFiles_proto_entry | ] ] ].
  - split.
    + intros Hne. apply map_choose in Hne as (k & c & Hk).
      destruct (buildFiles_from_form _ k c Hk) as (file & Hin & Hname & _).
      exists file. split; [ exact Hin | ].
      intros Hproto. rewrite <- Hname, Hproto, buildFiles_proto_entry in Hk.
      discriminate.
    + intros (file & Hin & Hname) Hempty.
      assert (filename file ∈ dom (buildFiles (files data))) as Hdom.
      { apply (buildFiles_keys _ _ Hname).
        apply list_elem_of_fmap. exists file. split; [ reflexivity | exact Hin ]. }
      rewrite Hempty, dom_empty_L in Hdom. apply elem_of_empty in Hdom.
      exact Hdom.
  - assert (dom (buildFiles (files data))
            ⊆ (list_to_set (filename <$> files data) : gset string)) as Hsub.
    { intros k Hk. apply elem_of_list_to_set.
      apply elem_of_dom in Hk as [c Hc].
      destruct (buildFiles_from_form _ k c Hc) as (file & Hin & Hname & _).
      apply list_elem_of_fmap. exists file. split; [ congruence | exact Hin ]. }
    apply subseteq_size in Hsub. rewrite size_dom in Hsub.
    etransitivity; [ exact Hsub | ].
    rewrite <- (length_fmap filename (files data)).
    generalize (filename <$> files data). intros names.
    induction names as [| name names IH].
    + cbn [list_to_set length]. rewrite size_empty. lia.
    + rewrite list_to_set_cons, size_union_alt, size_singleton.
      cbn [length].
      assert (list_to_set names ∖ {[name]} ⊆ (list_to_set names : gset string))
        as Hincl.
      { intros x Hx. apply elem_of_difference in Hx as [Hx _]. exact Hx. }
      apply subseteq_size in Hincl. lia.
  - intros k c Hk.
    destruct (buildFiles_from_form _ k c Hk) as (file & Hin & <- & <-).
    apply list_elem_of_In in Hin. specialize (Hall file Hin).
    apply andb_true_iff in Hall as [Hname Htext].
    unfold min1 in Hname, Htext.
    split.
    + destruct (String.eqb_spec (filename file) ""); [ discriminate | auto ].
    + destruct (String.eqb_spec (content file) ""); [ discriminate | auto ].
Qed.

Lemma create_valid_payload_witness :
  buildFiles (files twice) <> ∅ /\
  (size (buildFiles (files twice)) <= 3)%nat /\
  buildFiles (files twice_proto) = ∅.
Proof.
  destruct (create_valid_payload twice eq_refl) as (Hne & Hsize & _).
  destruct (create_valid_payload twice_proto eq_refl) as (Hnone & _).
  split; [ | split; [ exact Hsize | ] ].
  - apply Hne. exists {| filename := "a.txt"; content := "first" |}.
    split; [ left | discriminate ].
  - destruct (decide (buildFiles (files twice_proto) = ∅)) as [Heq | Hne'];
      [ exact Heq | ].
    apply Hnone in Hne' as (file & Hin & Hname).
    exfalso. apply Hname.
    apply elem_of_cons in Hin as [-> | Hin]; [ reflexivity | ].
    apply elem_of_cons in Hin as [-> | Hin]; [ reflexivity | ].
    inversion Hin.
Defined.

(** X21: the create form always has a file to fill in: starting from its default
    values, whatever the visitor adds, removes (the button is there only
    while more than one entry is left) or types, the form keeps at least one
    entry; it does not pass validation as it starts, nor right after a file
    has been added. *)
Theorem create_form_never_empty (data : GistFormValues) :
  GistCreateForm.reachable data ->
  (1 <= length (files data))%nat /\
  gistFormSchema defaultValues = false /\
  gistFormSchema (addNewFile data) = false.
Proof.
  intros Hr. split; [ | split; [ reflexivity | ] ].
  - induction Hr as [| data data' _ IH Hedit]; [ cbn; lia | ].
    destruct Hedit as [data | index data Hcan | index file data Hin
                      | text flag data]; cbn [files addNewFile remove].
    + rewrite length_app. cbn. lia.
    + unfold canRemove in Hcan. apply Nat.ltb_lt in Hcan.
      rewrite delete_take_drop, length_app, length_take, length_drop. lia.
    + rewrite length_insert. exact IH.
    + exact IH.
  - unfold gistFormSchema, addNewFile. cbn [files].
    rewrite forallb_app. cbn. rewrite andb_false_r. reflexivity.
Qed.

Lemma create_form_never_empty_witness :
  (1 <= length (files (remove 0 (addNewFile defaultValues))))%nat.
Proof.
  apply create_form_never_empty.
  eapply GistCreateForm.reachable_edit.
  - eapply GistCreateForm.reachable_edit;
      [ apply reachable_default | apply edit_add ].
  - apply edit_remove. reflexivity.
Defined.

End GistCreateFormSpec.

(** ** The detail page *)

Module GistDetailPageSpec.

Import Octo Samples MoreSamples GistDetailPage JsObject JsObjectSpec.

Ltac page_run :=
  unfold fetchGist, handleDeleteGist, toggleFileExpand, try_finally,
    try_catch, service, GistService.getGistById, GistService.deleteGist,
    GistService.request, await, setGist, setIsLoading, setError,
    setShowDeleteAlert, setIsDeleting, setExpandedFiles, toast, navigate,
    console_error, modify, mbind, M_bind, bind, mret, M_ret, ret;
  cbn [gist isLoading error showDeleteAlert isDeleting copiedFile
       expandedFiles toasts navigated console env fst snd negb
       default from_option Datatypes.id].

Lemma truthy_nonempty (s : string) : s <> "" -> truthy (Some s) = true.
Proof.
  intros Hs. unfold truthy.
  destruct (String.eqb_spec s "") as [Heq | _]; [ contradiction | reflexivity ].
Qed.

(** The record built for a fetched gist: a literal with a property [true]
    for every file of the gist but one named "__proto__", for which the
    assignment of [true] is ignored. *)
Lemma initialExpanded_own (files : gmap string GistService.GistFile)
    (k : string) :
  prototype (initialExpanded files) = Object_prototype /\
  own (initialExpanded files) !! k
  = if decide (k = "__proto__") then None
    else (fun _ => true) <$> files !! k.
Proof.
  unfold initialExpanded.
  assert (forall (keys : list string) (acc : Obj bool Empty_set),
             prototype acc = Object_prototype ->
             own acc !! "__proto__" = None ->
             let out := foldl (fun o key => set key true o) acc keys in
             prototype out = Object_prototype /\
             own out !! k
             = if bool_decide (k ∈ keys /\ k <> "__proto__") then Some true
               else own acc !! k)
    as Hfold.
  { induction keys as [| key keys IH]; intros acc Hproto Hown out.
    - split; [ exact Hproto | ].
      rewrite bool_decide_eq_false_2; [ reflexivity | ].
      intros [Hin _]. inversion Hin.
    - subst out. cbn [foldl].
      assert (prototype (set key true acc) = Object_prototype /\
              own (set key true acc) !! "__proto__" = None /\
              own (set key true acc) !! k
              = if bool_decide (k = key /\ k <> "__proto__") then Some true
                else own acc !! k) as (Hproto' & Hown' & Hk).
      { destruct (decide (key = "__proto__")) as [-> | Hkey].
        - assert (set "__proto__" true acc = acc) as ->.
          { unfold set, setPrototype. rewrite Hown, Hproto. reflexivity. }
          split; [ exact Hproto | ]. split; [ exact Hown | ].
          rewrite bool_decide_eq_false_2; [ reflexivity | ].
          intros [-> Hne]. contradiction.
        - rewrite prototype_set, own_set by exact Hkey.
          split; [ exact Hproto | ].
          split; [ rewrite lookup_insert_ne by congruence; exact Hown | ].
          destruct (decide (k = key)) as [-> | Hne].
          + rewrite lookup_insert_eq, bool_decide_eq_true_2; auto.
          + rewrite lookup_insert_ne by congruence.
            rewrite bool_decide_eq_false_2; [ reflexivity | ].
            intros [Heq _]. contradiction. }
      destruct (IH (set key true acc) Hproto' Hown') as [Hout Hlook].
      split; [ exact Hout | ].
      rewrite Hlook, Hk.
      destruct (decide (k ∈ keys /\ k <> "__proto__")) as [[Hin Hne] | Hout'].
      + rewrite !bool_decide_eq_true_2; [ reflexivity | | auto ].
        split; [ right; exact Hin | exact Hne ].
      + rewrite (bool_decide_eq_false_2 _ Hout').
        destruct (decide (k = key /\ k <> "__proto__")) as [[-> Hne] | Hother].
        * rewrite !bool_decide_eq_true_2; [ reflexivity | | auto ].
          split; [ left | exact Hne ].
        * rewrite (bool_decide_eq_false_2 _ Hother).
          rewrite bool_decide_eq_false_2; [ reflexivity | ].
          intros [Hin Hne]. apply elem_of_cons in Hin as [Heq | Hin]; tauto. }
  destruct (Hfold (map_to_list files).*1 empty eq_refl (lookup_empty _))
    as [Hproto Hlook].
  split; [ exact Hproto | ].
  rewrite Hlook. cbn [empty own]. rewrite lookup_empty.
  destruct (decide (k = "__proto__")) as [-> | Hkey].
  - rewrite bool_decide_eq_false_2; [ reflexivity | ]. intros [_ Hne]. auto.
  - destruct (files !! k) as [file |] eqn:Hk.
    + rewrite bool_decide_eq_true_2; [ reflexivity | ].
      split; [ | exact Hkey ].
      apply list_elem_of_fmap. exists (k, file).
      split; [ reflexivity | apply elem_of_map_to_list; exact Hk ].
    + rewrite bool_decide_eq_false_2; [ reflexivity | ].
      intros [Hin _]. apply list_elem_of_fmap in Hin as ([k' file] & -> & Hin).
      apply elem_of_map_to_list in Hin. cbn in Hk. congruence.
Qed.

(** X22: loading a gist never throws, sends one request and ends with the wait
    indicator off.  When the request is fulfilled the page shows the gist,
    with every one of its files expanded; a name that is not a file of the
    gist reads as expanded exactly when [Object.prototype] has a member of
    that name.  When the request is rejected the page shows the error alert
    with its message, also when a gist fetched before is still held. *)
Theorem detail_fetch remote octokit (id : string) (p : State) :
  id <> "" ->
  let run := fetchGist remote (Some octokit) (Some id) in
  let p' := exec run p in
  result run p = Normal tt /\
  isLoading p' = false /\
  GistService.calls (env p')
  = GistService.calls (env p) ++ [GistService.gists_get id] /\
  (forall data, GistService.on_get remote octokit id = Normal data ->
     GistDetailPage p' = GistView data /\
     prototype (expandedFiles p') = Object_prototype /\
     (forall k : string, is_Some (GistService.files data !! k) ->
        isExpanded p' k = true) /\
     (forall k : string, GistService.files data !! k = None ->
        isExpanded p' k = inherited k)) /\
  (forall e, GistService.on_get remote octokit id = Throw e ->
     gist p' = gist p /\
     GistDetailPage p' = ErrorAlert
       "Failed to load gist. It may have been deleted or you may not have permission to view it.").
Proof.
  intros Hid run p'. subst run p'.
  destruct p as [g ld er sh del cp ex ts nav co en].
  unfold exec, result. unfold fetchGist. rewrite (truthy_nonempty id Hid).
  page_run.
  destruct (GistService.on_get remote octokit id) as [data | e].
  - cbn [gist isLoading error expandedFiles env fst snd GistService.calls].
    split; [ reflexivity | ]. split; [ reflexivity | ].
    split; [ reflexivity | ].
    split; [ | intros e [=] ].
    intros data' [= <-]. split; [ reflexivity | ].
    split; [ apply (initialExpanded_own (GistService.files data) "") | ].
    split; intros k Hk; unfold isExpanded, truthy_at; cbn [expandedFiles];
      destruct (initialExpanded_own (GistService.files data) k)
        as [-> ->].
    + destruct (decide (k = "__proto__")) as [-> | Hkey]; [ reflexivity | ].
      destruct Hk as [file ->]. reflexivity.
    + rewrite Hk. destruct (decide (k = "__proto__")); reflexivity.
  - cbn [gist isLoading error expandedFiles env fst snd GistService.calls].
    split; [ reflexivity | ]. split; [ reflexivity | ].
    split; [ reflexivity | ].
    split; [ intros data [=] | ].
    intros e' _. split; [ reflexivity | ].
    unfold GistDetailPage. cbn [isLoading gist error].
    destruct g; reflexivity.
Qed.

Lemma detail_fetch_witness :
  GistDetailPage
    (exec (fetchGist serving (Some someone) (Some "g1")) (initial env0))
  = GistView gist0 /\
  GistDetailPage
    (exec (fetchGist (remoteWith (fun _ => Normal tt)) (Some someone)
             (Some "g1")) (initial env0))
  = ErrorAlert
      "Failed to load gist. It may have been deleted or you may not have permission to view it.".
Proof.
  split.
  - destruct (detail_fetch serving someone "g1" (initial env0))
      as (_ & _ & _ & Hok & _).
    + discriminate.
    + destruct (Hok gist0 eq_refl) as (Hview & _). exact Hview.
  - destruct (detail_fetch (remoteWith (fun _ => Normal tt)) someone "g1"
                (initial env0)) as (_ & _ & _ & _ & Hfail).
    + discriminate.
    + apply (Hfail (NetworkError "fetch failed")). reflexivity.
Defined.

(** X23: deleting a gist never throws and always closes the confirmation dialog
    with the deleting flag off.  It sends one delete request; when it is
    fulfilled the page reports success and navigates to "/gists"; when it is
    rejected the page reports the failure in a destructive toast, logs it,
    and navigates nowhere.  Without a handle or an identifier nothing
    happens and the dialog stays as it is. *)
Theorem detail_delete remote octokit (id : string) (p : State) :
  id <> "" ->
  let run := handleDeleteGist remote (Some octokit) (Some id) in
  let p' := exec run p in
  result run p = Normal tt /\
  isDeleting p' = false /\ showDeleteAlert p' = false /\
  GistService.calls (env p')
  = GistService.calls (env p) ++ [GistService.gists_delete id] /\
  (GistService.on_delete remote octokit id = Normal tt ->
   navigated p' = navigated p ++ ["/gists"] /\
   toasts p' = toasts p ++
               [{| variant := None; title := "Gist deleted successfully" |}] /\
   console p' = console p) /\
  (forall e, GistService.on_delete remote octokit id = Throw e ->
   navigated p' = navigated p /\
   toasts p' = toasts p ++
               [{| variant := Some "destructive";
                   title := "Failed to delete gist" |}] /\
   console p' = console p ++ [("Error deleting gist:", e)]) /\
  exec (handleDeleteGist remote None (Some id)) p = p /\
  exec (handleDeleteGist remote (Some octokit) None) p = p /\
  exec (handleDeleteGist remote (Some octokit) (Some "")) p = p.
Proof.
  intros Hid run p'. subst run p'.
  destruct p as [g ld er sh del cp ex ts nav co en].
  unfold exec, result. unfold handleDeleteGist.
  rewrite (truthy_nonempty id Hid).
  page_run.
  destruct (GistService.on_delete remote octokit id) as [[] | e];
    cbn [isDeleting showDeleteAlert toasts navigated console env fst snd
         GistService.calls];
    repeat (split; [ reflexivity | ]).
  - split; [ intros _; repeat split | ].
    split; [ intros e [=] | ]. repeat split.
  - split; [ intros [=] | ].
    split; [ intros e' [= <-]; repeat split | ]. repeat split.
Qed.

Lemma detail_delete_witness :
  navigated (exec (handleDeleteGist serving (Some someone) (Some "g1"))
               (initial env0)) = ["/gists"] /\
  navigated (exec (handleDeleteGist (remoteWith (fun _ => Normal tt))
                     (Some someone) (Some "g1")) (initial env0)) = [].
Proof.
  split.
  - destruct (detail_delete serving someone "g1" (initial env0))
      as (_ & _ & _ & _ & Hok & _).
    + discriminate.
    + destruct (Hok eq_refl) as (Hnav & _). exact Hnav.
  - destruct (detail_delete (remoteWith (fun _ => Normal tt)) someone "g1"
                (initial env0)) as (_ & _ & _ & _ & _ & Hfail & _).
    + discriminate.
    + destruct (Hfail (NetworkError "fetch failed") eq_refl) as (Hnav & _).
      exact Hnav.
Defined.

(** X24: toggling a file flips whether it is shown expanded and touches
    nothing else of the page; a name the record does not list counts as
    expanded before the toggle exactly when [Object.prototype] has a member
    of that name.  On a record with the prototype of a literal (which the
    record has when the page mounts and keeps through every fetch and
    toggle) every other file is left as it is, so toggling the same file
    twice shows every file as before. *)
Theorem detail_toggle (p : State) (filename : string) :
  prototype (expandedFiles p) = Object_prototype ->
  let p' := exec (toggleFileExpand filename) p in
  isExpanded p' filename = negb (isExpanded p filename) /\
  (own (expandedFiles p) !! filename = None ->
   isExpanded p' filename = negb (inherited filename)) /\
  (forall k : string, k <> filename -> isExpanded p' k = isExpanded p k) /\
  GistDetailPage p' = GistDetailPage p /\
  prototype (expandedFiles p') = Object_prototype /\
  (forall k : string,
     isExpanded (exec (toggleFileExpand filename) p') k = isExpanded p k).
Proof.
  intros Hproto p'. subst p'.
  destruct p as [g ld er sh del cp ex ts nav co en].
  cbn [expandedFiles] in Hproto.
  unfold exec, isExpanded. page_run.
  unfold truthy_at, define, spread. cbn [own prototype]. rewrite Hproto.
  split; [ rewrite lookup_insert_eq; reflexivity | ].
  split; [ intros ->; rewrite lookup_insert_eq; reflexivity | ].
  split; [ intros k Hk; rewrite lookup_insert_ne by congruence; reflexivity | ].
  split; [ reflexivity | ]. split; [ reflexivity | ].
  intros k. destruct (decide (k = filename)) as [-> | Hk].
  - rewrite !lookup_insert_eq. apply negb_involutive.
  - rewrite !lookup_insert_ne by congruence. reflexivity.
Qed.

Lemma detail_toggle_witness :
  isExpanded (exec (toggleFileExpand "a.txt") (initial env0)) "b.md"
  = isExpanded (initial env0) "b.md" /\
  isExpanded (exec (toggleFileExpand "constructor") (initial env0))
             "constructor"
  = false.
Proof.
  destruct (detail_toggle (initial env0) "a.txt" eq_refl) as (_ & _ & Hother & _).
  destruct (detail_toggle (initial env0) "constructor" eq_refl)
    as (_ & Hfresh & _).
  split; [ apply Hother; discriminate | ].
  apply Hfresh. reflexivity.
Defined.

End GistDetailPageSpec.

(** ** Submitting the forms *)

Module FormSubmitSpec.

Import Octo Samples MoreSamples Page.

Ltac page_run :=
  unfold GistCreatePage.onSubmit, GistEditPage.onSubmit, try_finally,
    try_catch, service, GistService.createGist, GistService.updateGist,
    GistService.request, await, setIsSubmitting, setError, toast, navigate,
    console_error, modify, mbind, M_bind, bind, mret, M_ret, ret;
  cbn [isSubmitting error toasts navigated console env fst snd negb
       default from_option Datatypes.id].

(** X25: submitting the create form ends with [isSubmitting] false whatever the
    remote answers.  When the gist is created the page clears its error,
    reports success and navigates to the page of the new gist, named by the
    identifier the remote returned; when the request is rejected the page
    shows its error message and logs the error, reports no success and
    navigates nowhere.  Without a client handle nothing happens. *)
Theorem create_submit_outcomes remote octokit data (p : State) :
  let run := GistCreatePage.onSubmit remote (Some octokit) data in
  let p' := exec run p in
  let settled :=
    GistService.on_create remote octokit
      (or_else (GistCreatePage.description data) "")
      (GistCreatePage.buildFiles (GistCreatePage.files data))
      (GistCreatePage.public data) in
  isSubmitting p' = false /\
  (forall newGist, settled = Normal newGist ->
     error p' = None /\
     toasts p' = toasts p ++ ["Gist created successfully"] /\
     navigated p' = navigated p ++ ["/gists/" +:+ GistService.id newGist] /\
     console p' = console p) /\
  (forall e, settled = Throw e ->
     error p' = Some "Failed to create gist. Please try again." /\
     toasts p' = toasts p /\ navigated p' = navigated p /\
     console p' = console p ++ [("Error creating gist:", e)]) /\
  exec (GistCreatePage.onSubmit remote None data) p = p.
Proof.
  intros run p' settled. subst run p' settled.
  destruct p as [sub err ts nav co en]. unfold exec. page_run.
  destruct (GistService.on_create remote octokit _ _ _) as [newGist | e];
    cbn [isSubmitting error toasts navigated console env fst snd].
  - split; [ reflexivity | ].
    split; [ intros g [= <-]; repeat split | ].
    split; [ intros e [=] | reflexivity ].
  - split; [ reflexivity | ].
    split; [ intros g [=] | ].
    split; [ intros e' [= <-]; repeat split | reflexivity ].
Qed.

Lemma create_submit_outcomes_witness :
  let p' := exec (GistCreatePage.onSubmit serving (Some someone) twice)
                 (initial env0) in
  navigated p' = ["/gists/g1"] /\ toasts p' = ["Gist created successfully"].
Proof.
  intros p'.
  destruct (create_submit_outcomes serving someone twice (initial env0))
    as (_ & Hok & _).
  destruct (Hok gist0 eq_refl) as (_ & Ht & Hnav & _).
  split; [ exact Hnav | exact Ht ].
Defined.

(** X26: submitting the edit form ends with [isSubmitting] false whatever the
    remote answers.  When the update is accepted the page reports success
    and navigates back to the page of the gist; when it is rejected the page
    shows its error message and logs the error, reports no success and stays
    where it is.  Without a client handle, or without an identifier in the
    route, nothing happens and no request is sent. *)
Theorem edit_submit_outcomes remote octokit (id : string) data (p : State) :
  id <> "" ->
  let run := GistEditPage.onSubmit remote (Some octokit) (Some id) data in
  let p' := exec run p in
  let settled :=
    GistService.on_update remote octokit id
      (or_else (GistEditPage.description data) "")
      (GistEditPage.buildFiles (GistEditPage.files data)) in
  isSubmitting p' = false /\
  (forall updated, settled = Normal updated ->
     error p' = None /\
     toasts p' = toasts p ++ ["Gist updated successfully"] /\
     navigated p' = navigated p ++ ["/gists/" +:+ id] /\
     console p' = console p) /\
  (forall e, settled = Throw e ->
     error p' = Some "Failed to update gist. Please try again." /\
     toasts p' = toasts p /\ navigated p' = navigated p /\
     console p' = console p ++ [("Error updating gist:", e)]) /\
  exec (GistEditPage.onSubmit remote None (Some id) data) p = p /\
  exec (GistEditPage.onSubmit remote (Some octokit) None data) p = p /\
  exec (GistEditPage.onSubmit remote (Some octokit) (Some "") data) p = p.
Proof.
  intros Hid run p' settled. subst run p' settled.
  assert (truthy (Some id) = true) as Htruthy.
  { unfold truthy. destruct (String.eqb_spec id "") as [Heq | _];
      [ contradiction | reflexivity ]. }
  destruct p as [sub err ts nav co en]. unfold exec.
  unfold GistEditPage.onSubmit. rewrite Htruthy. page_run.
  destruct (GistService.on_update remote octokit _ _ _) as [updated | e];
    cbn [isSubmitting error toasts navigated console env fst snd].
  - split; [ reflexivity | ].
    split; [ intros g [= <-]; repeat split | ].
    split; [ intros e [=] | repeat split ].
  - split; [ reflexivity | ].
    split; [ intros g [=] | ].
    split; [ intros e' [= <-]; repeat split | repeat split ].
Qed.

Lemma edit_submit_outcomes_witness :
  let data := {| GistEditPage.description := Some "demo";
                 GistEditPage.files := [a_deleted; b_renamed] |} in
  let p' := exec (GistEditPage.onSubmit serving (Some someone) (Some "g1") data)
                 (initial env0) in
  navigated p' = ["/gists/g1"] /\ toasts p' = ["Gist updated successfully"].
Proof.
  intros data p'.
  destruct (edit_submit_outcomes serving someone "g1" data (initial env0))
    as (_ & Hok & _).
  - discriminate.
  - destruct (Hok gist0 eq_refl) as (_ & Ht & Hnav & _).
    split; [ exact Hnav | exact Ht ].
Defined.

End FormSubmitSpec.
